(** * MCP client: connection manager, retry policy and circuit breaker

    A shallow embedding of [client/utils.py] (retry decorator and circuit
    breaker), [shared/models.py] (the [MCPConnection] dataclass) and
    [client/http_mcp_manager.py] (the [HTTPMCPManager] class), followed by
    the properties of the connection-management layer.

    Conventions.
    - Python floats (delays, timestamps) are rationals [Q]; the one
      product that [truncate_text] compares with an integer is computed as
      the binary64 operation it is.
    - A coroutine is a function from the state before it runs to its
      outcome and the state after it; the single asyncio task is run
      sequentially, so [async with self._lock] never blocks.
    - A raised exception keeps the state changes made before the raise,
      as in Python: the outcome is [result A * S], not [result (A * S)].
    - Every modelled exception is an instance of [Exception], the class
      that all [except Exception] handlers of the source catch.  An exit
      by an exception that is no [Exception], such as the cancellation of
      the task, is not modelled.
    - The manager is embedded over the interface of the connection record
      it builds and calls.  The dataclass that [shared/models.py] defines
      is the instance of that interface; the properties of the manager are
      stated for that class or for every class with the interface. *)

From Stdlib Require Import String List ZArith QArith Qminmax Bool Lia Lqa Ascii.
Import ListNotations.
Local Open Scope string_scope.

Set Implicit Arguments.
Set Warnings "-register-all".

(** ** Values *)

(** A decoded JSON document, what [response.json()] returns. *)
Inductive json : Type :=
| JNull
| JBool (b : bool)
| JInt (z : Z)
| JFloat (q : Q)
| JStr (s : string)
| JList (l : list json)
| JObj (kv : list (string * json)).

(** The result of [str(...)] or of an f-string, kept as its pieces: the
    literal text and the interpolated values in order. *)
Inductive piece : Type :=
| Lit (s : string)
| StrOf (v : json)
| ReprOf (v : json)
| Fixed2 (q : Q)
| Dec (z : Z).

Definition text := list piece.

(** An exception instance: its class name and its single argument. *)
Record exn : Type := Exn { exn_class : string; exn_arg : json }.

(** [str(e)]; [KeyError] shows the [repr] of its argument. *)
Definition str_exn (e : exn) : text :=
  if String.eqb (exn_class e) "KeyError" then [ReprOf (exn_arg e)]
  else [StrOf (exn_arg e)].

Inductive result (A : Type) : Type :=
| Ok (a : A)
| Raise (e : exn).
Arguments Ok {A} a.
Arguments Raise {A} e.

Definition is_raise {A} (r : result A) : bool :=
  match r with Ok _ => false | Raise _ => true end.

(** ** Computations with state and exceptions *)

Definition M (S A : Type) : Type := S -> result A * S.

Definition ret {S A} (a : A) : M S A := fun s => (Ok a, s).

Definition raise {S A} (e : exn) : M S A := fun s => (Raise e, s).

Definition bind {S A B} (m : M S A) (k : A -> M S B) : M S B :=
  fun s => match m s with
           | (Ok a, s1) => k a s1
           | (Raise e, s1) => (Raise e, s1)
           end.

(** [try: m  except Exception as e: h e] *)
Definition try_except {S A} (m : M S A) (h : exn -> M S A) : M S A :=
  fun s => match m s with
           | (Ok a, s1) => (Ok a, s1)
           | (Raise e, s1) => h e s1
           end.

Definition lift {S A} (r : result A) : M S A := fun s => (r, s).

Definition gets {S A} (f : S -> A) : M S A := fun s => (Ok (f s), s).

Definition modify {S} (f : S -> S) : M S unit := fun s => (Ok tt, f s).

Definition when_ {S} (b : bool) (m : M S unit) : M S unit :=
  if b then m else ret tt.

Declare Scope py_scope.
Delimit Scope py_scope with py.
Notation "x <- m ;; k" := (bind m (fun x => k))
  (at level 61, m at next level, right associativity) : py_scope.
Notation "m ;; k" := (bind m (fun _ => k))
  (at level 61, right associativity) : py_scope.
Local Open Scope py_scope.

(** ** Python dictionaries

    Insertion-ordered association lists: assignment to a present key keeps
    its position, assignment to a new key appends, as [dict] does; iteration
    follows the list. *)

Definition dict (V : Type) : Type := list (string * V).

Fixpoint dict_get {V} (k : string) (d : dict V) : option V :=
  match d with
  | [] => None
  | (k', v) :: d' => if String.eqb k k' then Some v else dict_get k d'
  end.

Fixpoint dict_set {V} (k : string) (v : V) (d : dict V) : dict V :=
  match d with
  | [] => [(k, v)]
  | (k', v') :: d' =>
      if String.eqb k k' then (k, v) :: d' else (k', v') :: dict_set k v d'
  end.

Fixpoint dict_del {V} (k : string) (d : dict V) : dict V :=
  match d with
  | [] => []
  | (k', v') :: d' =>
      if String.eqb k k' then dict_del k d' else (k', v') :: dict_del k d'
  end.

Definition dict_mem {V} (k : string) (d : dict V) : bool :=
  match dict_get k d with Some _ => true | None => false end.

Definition dict_keys {V} (d : dict V) : list string := map fst d.

(** ** JSON helpers *)

Definition py_type_name (v : json) : string :=
  match v with
  | JNull => "NoneType"
  | JBool _ => "bool"
  | JInt _ => "int"
  | JFloat _ => "float"
  | JStr _ => "str"
  | JList _ => "list"
  | JObj _ => "dict"
  end.

Definition AttributeError (cls attr : string) : exn :=
  Exn "AttributeError"
      (JStr ("'" ++ cls ++ "' object has no attribute '" ++ attr ++ "'")).

(** [v.get(key, default)]: only a dict has [get]. *)
Definition json_get (key : string) (default : json) (v : json) : result json :=
  match v with
  | JObj kv => Ok (match dict_get key kv with Some x => x | None => default end)
  | _ => Raise (AttributeError (py_type_name v) "get")
  end.

(** Truth value of a decoded JSON value, as [if v:] tests it. *)
Definition truthy (v : json) : bool :=
  match v with
  | JNull => false
  | JBool b => b
  | JInt z => negb (Z.eqb z 0)
  | JFloat q => negb (Qeq_bool q 0)
  | JStr s => negb (String.eqb s "")
  | JList l => match l with [] => false | _ => true end
  | JObj kv => match kv with [] => false | _ => true end
  end.

(** [len(v)] *)
Definition py_len (v : json) : result Z :=
  match v with
  | JStr s => Ok (Z.of_nat (String.length s))
  | JList l => Ok (Z.of_nat (List.length l))
  | JObj kv => Ok (Z.of_nat (List.length kv))
  | _ => Raise (Exn "TypeError"
                  (JStr ("object of type '" ++ py_type_name v ++ "' has no len()")))
  end.

(** * client/utils.py *)

(** What the decorators of [utils.py] need from the interpreter: the wall
    clock, [asyncio.sleep], [random.random] and [logging.warning]. *)
Class Runtime (S : Type) : Type := {
  time_time : S -> Q;
  asyncio_sleep : Q -> S -> S;
  random_random : S -> Q * S;
  logging_warning : text -> S -> S
}.

(** ** RetryConfig (lines 33-47) *)

Record RetryConfig : Type := {
  max_attempts : Z;
  base_delay : Q;
  max_delay : Q;
  exponential_base : Q;
  jitter : bool
}.

(** [RetryConfig()] with the defaults of [__init__]. *)
Definition RetryConfig_default : RetryConfig :=
  {| max_attempts := 3; base_delay := 1; max_delay := 30;
     exponential_base := 2; jitter := true |}.

Definition with_max_attempts (n : Z) (c : RetryConfig) : RetryConfig :=
  {| max_attempts := n; base_delay := base_delay c; max_delay := max_delay c;
     exponential_base := exponential_base c; jitter := jitter c |}.

(** ** retry_with_exponential_backoff (lines 49-89) *)

(** The warning of lines 78-81:
    [f"Attempt {attempt + 1} failed: {e}. Retrying in {delay:.2f} seconds..."] *)
Definition retry_message (attempt : Z) (e : exn) (delay : Q) : text :=
  ([Lit "Attempt "; Dec (attempt + 1); Lit " failed: "] ++ str_exn e
   ++ [Lit ". Retrying in "; Fixed2 delay; Lit " seconds..."])%list.

Section Retry.
Context {S : Type} {RT : Runtime S} {A : Type}.
Variable config : RetryConfig.
Variable func : M S A.

(** [min(base_delay * exponential_base ** attempt, max_delay)] *)
Definition backoff_delay (attempt : Z) : Q :=
  Qmin (base_delay config * exponential_base config ^ attempt) (max_delay config).

(** [raise last_exception] after the loop; with no attempt made
    [last_exception] is still [None]. *)
Definition raise_last (last_exception : option exn) : M S A :=
  match last_exception with
  | Some e => raise e
  | None => raise (Exn "TypeError" (JStr "exceptions must derive from BaseException"))
  end.

(** The [for attempt in range(config.max_attempts)] loop; [todo] is the
    number of iterations left, [attempt] the loop variable. *)
Fixpoint retry_loop (todo : nat) (attempt : Z) (last_exception : option exn)
  : M S A :=
  match todo with
  | O => raise_last last_exception
  | Datatypes.S todo' =>
      fun s =>
        match func s with
        | (Ok v, s1) => (Ok v, s1)
        | (Raise e, s1) =>
            if (attempt =? max_attempts config - 1)%Z
            then raise_last (Some e) s1
            else
              let delay := backoff_delay attempt in
              let '(delay, s2) :=
                if jitter config
                then let '(r, s2) := random_random s1 in
                     ((delay * ((1 # 2) + r * (1 # 2)))%Q, s2)
                else (delay, s1) in
              let s3 := logging_warning (retry_message attempt e delay) s2 in
              retry_loop todo' (attempt + 1)%Z (Some e) (asyncio_sleep delay s3)
        end
  end.

Definition retry_with_exponential_backoff : M S A :=
  retry_loop (Z.to_nat (max_attempts config)) 0%Z None.
End Retry.

(** What the wrapper does between a failed attempt and the next one when
    jitter is off (lines 78-83): the warning is logged, then the task
    sleeps for [delay]. *)
Definition pause {S} {RT : Runtime S} (attempt : Z) (e : exn) (delay : Q) (s : S) : S :=
  asyncio_sleep delay (logging_warning (retry_message attempt e delay) s).

(** ** CircuitBreaker (lines 91-149) *)

Inductive breaker_state : Type := CLOSED | OPEN | HALF_OPEN.

Record CircuitBreaker : Type := {
  failure_threshold : Z;
  recovery_timeout : Q;
  expected_exception : exn -> bool;   (* [isinstance(e, expected_exception)] *)
  failure_count : Z;
  last_failure_time : option Q;
  state : breaker_state
}.

(** [CircuitBreaker(failure_threshold, recovery_timeout)]; the default
    [expected_exception=Exception] accepts every modelled exception. *)
Definition CircuitBreaker_init (threshold : Z) (timeout : Q) : CircuitBreaker :=
  {| failure_threshold := threshold; recovery_timeout := timeout;
     expected_exception := fun _ => true;
     failure_count := 0; last_failure_time := None; state := CLOSED |}.

Definition set_state (st : breaker_state) (b : CircuitBreaker) : CircuitBreaker :=
  {| failure_threshold := failure_threshold b;
     recovery_timeout := recovery_timeout b;
     expected_exception := expected_exception b;
     failure_count := failure_count b;
     last_failure_time := last_failure_time b;
     state := st |}.

(** What the wrapper raises while the breaker is open (line 114). *)
Definition CircuitOpenError : exn := Exn "Exception" (JStr "Circuit breaker is OPEN").

Section Breaker.
Context {S : Type} {RT : Runtime S}.

Definition _should_attempt_reset (b : CircuitBreaker) (s : S) : bool :=
  match last_failure_time b with
  | None => false
  | Some t => Qle_bool (recovery_timeout b) (time_time s - t)
  end.

Definition _on_success (b : CircuitBreaker) : CircuitBreaker :=
  {| failure_threshold := failure_threshold b;
     recovery_timeout := recovery_timeout b;
     expected_exception := expected_exception b;
     failure_count := 0;
     last_failure_time := last_failure_time b;
     state := CLOSED |}.

Definition _on_failure (b : CircuitBreaker) (s : S) : CircuitBreaker :=
  let count := (failure_count b + 1)%Z in
  {| failure_threshold := failure_threshold b;
     recovery_timeout := recovery_timeout b;
     expected_exception := expected_exception b;
     failure_count := count;
     last_failure_time := Some (time_time s);
     state := if (failure_threshold b <=? count)%Z then OPEN else state b |}.

(** The [wrapper] of [__call__] (lines 109-127).  The breaker object
    belongs to the decorator, so the wrapped function runs on [S] alone
    and cannot touch it. *)
Definition breaker_call {A} (func : M S A) : M (CircuitBreaker * S) A :=
  fun '(b, s) =>
    let gate :=
      match state b with
      | OPEN => if _should_attempt_reset b s
                then Ok (set_state HALF_OPEN b)
                else Raise CircuitOpenError
      | _ => Ok b
      end in
    match gate with
    | Raise e => (Raise e, (b, s))
    | Ok b1 =>
        match func s with
        | (Ok v, s1) => (Ok v, (_on_success b1, s1))
        | (Raise e, s1) =>
            if expected_exception b1 e
            then (Raise e, (_on_failure b1 s1, s1))
            else (Raise e, (b1, s1))
        end
    end.
End Breaker.

(** The breaker turns the call away: it is open and the recovery timeout
    has not passed since the last failure. *)
Definition breaker_blocks {S} {RT : Runtime S} (b : CircuitBreaker) (s : S) : bool :=
  match state b with
  | OPEN => negb (_should_attempt_reset b s)
  | _ => false
  end.

(** The breaker as the wrapped function finds it once the call is let
    through: an open breaker has become half-open. *)
Definition let_through (b : CircuitBreaker) : CircuitBreaker :=
  match state b with
  | OPEN => set_state HALF_OPEN b
  | _ => b
  end.

(** The breaker counts every exception, as with the default
    [expected_exception=Exception]. *)
Definition catches_all (b : CircuitBreaker) : Prop :=
  forall e, expected_exception b e = true.

(** A breaker that is not closed has reached its threshold and remembers
    when the last failure happened. *)
Definition breaker_inv (b : CircuitBreaker) : Prop :=
  state b <> CLOSED ->
  (failure_threshold b <= failure_count b)%Z /\ last_failure_time b <> None.

(** What holds of a breaker made by
    [CircuitBreaker(failure_threshold=3, ...)] at any later time. *)
Definition good_breaker (b : CircuitBreaker) : Prop :=
  failure_threshold b = 3%Z /\ catches_all b /\ breaker_inv b /\
  (0 <= failure_count b)%Z.

(** * shared/models.py *)

(** Values held by attributes and passed as keyword arguments. *)
Inductive pyval : Type :=
| PNone
| PStr (s : string)
| PInt (z : Z)
| PTime (t : Q)
| PJson (v : json)
| PEnum (cls member : string).

Module Models.

(** [class ConnectionStatus(Enum)] (lines 13-18) *)
Inductive ConnectionStatus : Type := DISCONNECTED | CONNECTING | CONNECTED | ERROR.

Definition value (s : ConnectionStatus) : string :=
  match s with
  | DISCONNECTED => "disconnected"
  | CONNECTING => "connecting"
  | CONNECTED => "connected"
  | ERROR => "error"
  end.

(** [@dataclass class MCPConnection] (lines 21-44): the eight declared
    fields; [extra] holds the attributes added later by plain assignment
    ([obj.attr = v]), which an ordinary dataclass instance accepts. *)
Record MCPConnection : Type := {
  name : pyval;
  host : pyval;
  port : pyval;
  status : pyval;
  error_message : pyval;
  tools : pyval;
  resources : pyval;
  prompts : pyval;
  extra : dict pyval
}.

Definition fields : list string :=
  ["name"; "host"; "port"; "status"; "error_message"; "tools"; "resources";
   "prompts"].

Definition required : list string := ["name"; "host"; "port"].

(** Names that attribute lookup finds on an instance: the fields and the
    one method the class defines. *)
Definition members : list string := (fields ++ ["to_dict"])%list.

Definition mem (a : string) (l : list string) : bool := existsb (String.eqb a) l.

Definition missing_message (l : list string) : string :=
  match l with
  | [a] => "MCPConnection.__init__() missing 1 required positional argument: '"
             ++ a ++ "'"
  | [a; b] => "MCPConnection.__init__() missing 2 required positional arguments: '"
             ++ a ++ "' and '" ++ b ++ "'"
  | _ => "MCPConnection.__init__() missing 3 required positional arguments: "
             ++ "'name', 'host', and 'port'"
  end.

Definition kwarg (k : string) (default : pyval) (kwargs : list (string * pyval))
  : pyval :=
  match dict_get k kwargs with Some v => v | None => default end.

(** The [__init__] that [@dataclass] generates, called with keyword
    arguments only: a keyword that is not a field is rejected first, then
    a missing field without default; types are not checked. *)
Definition __init__ (kwargs : list (string * pyval)) : result MCPConnection :=
  match find (fun kv => negb (mem (fst kv) fields)) kwargs with
  | Some (k, _) =>
      Raise (Exn "TypeError"
               (JStr ("MCPConnection.__init__() got an unexpected keyword argument '"
                        ++ k ++ "'")))
  | None =>
      match filter (fun f => negb (dict_mem f kwargs)) required with
      | [] =>
          Ok {| name := kwarg "name" PNone kwargs;
                host := kwarg "host" PNone kwargs;
                port := kwarg "port" PNone kwargs;
                status := kwarg "status" (PEnum "ConnectionStatus" "DISCONNECTED") kwargs;
                error_message := kwarg "error_message" PNone kwargs;
                tools := kwarg "tools" (PJson (JList [])) kwargs;
                resources := kwarg "resources" (PJson (JList [])) kwargs;
                prompts := kwarg "prompts" (PJson (JList [])) kwargs;
                extra := [] |}
      | missing => Raise (Exn "TypeError" (JStr (missing_message missing)))
      end
  end.

(** [obj.attr] *)
Definition getattr (c : MCPConnection) (a : string) : result pyval :=
  if mem a members then
    Ok (if String.eqb a "name" then name c
        else if String.eqb a "host" then host c
        else if String.eqb a "port" then port c
        else if String.eqb a "status" then status c
        else if String.eqb a "error_message" then error_message c
        else if String.eqb a "tools" then tools c
        else if String.eqb a "resources" then resources c
        else if String.eqb a "prompts" then prompts c
        else PNone)
  else
    match dict_get a (extra c) with
    | Some v => Ok v
    | None => Raise (AttributeError "MCPConnection" a)
    end.

(** [obj.attr = v] for a name that is not a field. *)
Definition setattr_extra (a : string) (v : pyval) (c : MCPConnection) : MCPConnection :=
  {| name := name c; host := host c; port := port c; status := status c;
     error_message := error_message c; tools := tools c;
     resources := resources c; prompts := prompts c;
     extra := dict_set a v (extra c) |}.

(** [obj.method(...)]: the attribute is looked up first; the class
    defines no method besides [to_dict], and a data attribute is not
    callable. *)
Definition call_method {A} (c : MCPConnection) (m : string) : result A :=
  match getattr c m with
  | Ok v => Raise (Exn "TypeError" (JStr "object is not callable"))
  | Raise e => Raise e
  end.

End Models.

(** * The connection record as the manager uses it

    [http_mcp_manager.py] builds a record with the keyword arguments
    [server_name], [transport_type], [connection_status], [host], [port],
    calls [update_status] and [is_connected] on it and assigns [last_ping]
    and [capabilities].  The manager is embedded over this interface; a
    method returns the updated object because the source mutates it in
    place. *)
Class ConnectionClass : Type := {
  conn : Type;
  conn_new : list (string * pyval) -> result conn;
  conn_update_status : conn -> string -> option text -> result conn;
  conn_is_connected : conn -> result bool;
  conn_set_last_ping : Q -> conn -> conn;
  conn_set_capabilities : json -> conn -> conn
}.

(** The class that [from shared.models import MCPConnection] binds. *)
Definition models_MCPConnection : ConnectionClass := {|
  conn := Models.MCPConnection;
  conn_new := Models.__init__;
  conn_update_status := fun c _ _ => Models.call_method c "update_status";
  conn_is_connected := fun c => Models.call_method c "is_connected";
  conn_set_last_ping := fun t c => Models.setattr_extra "last_ping" (PTime t) c;
  conn_set_capabilities := fun v c => Models.setattr_extra "capabilities" (PJson v) c
|}.

(** * client/config.py *)

(** [@dataclass class ServerConfig] (lines 15-23) *)
Record ServerConfig : Type := {
  cfg_name : string;
  cfg_transport : string;
  cfg_host : option string;
  cfg_port : option Z;
  cfg_command : option string;
  cfg_args : option (list string)
}.

(** The [servers] dictionary that [load_config] builds (lines 51-64). *)
Definition load_config_servers : dict ServerConfig :=
  [("personal_assistant",
    {| cfg_name := "personal_assistant"; cfg_transport := "http";
       cfg_host := Some "127.0.0.1"; cfg_port := Some 8001%Z;
       cfg_command := None; cfg_args := None |});
   ("knowledge_base",
    {| cfg_name := "knowledge_base"; cfg_transport := "http";
       cfg_host := Some "127.0.0.1"; cfg_port := Some 8002%Z;
       cfg_command := None; cfg_args := None |})].

(** * The outside world *)

Inductive request : Type :=
| GET (url : string)
| POST (url : string) (payload : json).

(** An [httpx.Response], by what its two methods used here return;
    [raise_for_status] returns normally exactly for a 2xx status. *)
Record response : Type := {
  raise_for_status : result unit;
  json_body : result json
}.

(** What the network does with one request: time passes, then the client
    either raises (timeout, refused connection) or returns a response. *)
Record reply : Type := {
  latency : Q;
  outcome : result response
}.

Inductive level : Type := LDebug | LInfo | LWarning | LError.

Inductive event : Type :=
| EvRequest (r : request)
| EvSleep (d : Q)
| EvLog (l : level) (msg : text)
| EvClientOpen (loop : nat)
| EvClientClose.

Definition is_request (e : event) : bool :=
  match e with EvRequest _ => true | _ => false end.

Definition requests (tr : list event) : list event := filter is_request tr.

(** [str(x)] of an optional string or integer inside an f-string. *)
Definition fmt_host (h : option string) : string :=
  match h with Some s => s | None => "None" end.

Definition digit (n : N) : string :=
  match n with
  | 0%N => "0" | 1%N => "1" | 2%N => "2" | 3%N => "3" | 4%N => "4"
  | 5%N => "5" | 6%N => "6" | 7%N => "7" | 8%N => "8" | _ => "9"
  end.

(** Decimal digits of [n]; [fuel] bounds the number of digits. *)
Fixpoint decimal (fuel : nat) (n : N) : string :=
  match fuel with
  | O => ""
  | Datatypes.S f =>
      if (n <? 10)%N then digit n
      else decimal f (n / 10)%N ++ digit (n mod 10)%N
  end.

Definition fmt_int (z : Z) : string :=
  let n := Z.abs_N z in
  let digits := decimal (Datatypes.S (N.size_nat n)) n in
  if (z <? 0)%Z then "-" ++ digits else digits.

Definition fmt_port (p : option Z) : string :=
  match p with Some z => fmt_int z | None => "None" end.

Definition opt_str (o : option string) : pyval :=
  match o with Some s => PStr s | None => PNone end.

Definition opt_int (o : option Z) : pyval :=
  match o with Some z => PInt z | None => PNone end.

(** * client/http_mcp_manager.py *)

Section Manager.
Context {K : ConnectionClass}.

(** The attributes of an [HTTPMCPManager] (lines 22-28); [http_client]
    holds the [is_closed] flag of the client, [_current_loop_id] is
    absent until the first client is made. *)
Record HTTPMCPManager : Type := {
  connections : dict conn;
  base_urls : dict string;
  capabilities_cache : dict json;
  http_client : option bool;
  _current_loop_id : option nat;
  _client_initialized : bool
}.

(** [HTTPMCPManager()] *)
Definition HTTPMCPManager_init : HTTPMCPManager :=
  {| connections := []; base_urls := []; capabilities_cache := [];
     http_client := None; _current_loop_id := None;
     _client_initialized := false |}.

(** The manager together with what surrounds it: the events so far, the
    wall clock, the running event loop, the network, the random source
    and the outcome of [get_config()]. *)
Record World : Type := {
  self : HTTPMCPManager;
  trace : list event;
  clock : Q;
  running_loop : nat;
  network : list event -> request -> reply;
  entropy : nat -> Q;
  draws : nat;
  get_config : result (dict ServerConfig)
}.

Definition with_self (m : HTTPMCPManager) (w : World) : World :=
  {| self := m; trace := trace w; clock := clock w;
     running_loop := running_loop w; network := network w;
     entropy := entropy w; draws := draws w; get_config := get_config w |}.

Definition with_clock (t : Q) (w : World) : World :=
  {| self := self w; trace := trace w; clock := t;
     running_loop := running_loop w; network := network w;
     entropy := entropy w; draws := draws w; get_config := get_config w |}.

Definition emit (e : event) (w : World) : World :=
  {| self := self w; trace := (trace w ++ [e])%list; clock := clock w;
     running_loop := running_loop w; network := network w;
     entropy := entropy w; draws := draws w; get_config := get_config w |}.

Definition draw (w : World) : Q * World :=
  (entropy w (draws w),
   {| self := self w; trace := trace w; clock := clock w;
      running_loop := running_loop w; network := network w;
      entropy := entropy w; draws := Datatypes.S (draws w);
      get_config := get_config w |}).

#[export] Instance World_Runtime : Runtime World := {
  time_time := clock;
  asyncio_sleep := fun d w => emit (EvSleep d) (with_clock (clock w + d) w);
  random_random := draw;
  logging_warning := fun msg w => emit (EvLog LWarning msg) w
}.

Definition set_connections (d : dict conn) (m : HTTPMCPManager) : HTTPMCPManager :=
  {| connections := d; base_urls := base_urls m;
     capabilities_cache := capabilities_cache m; http_client := http_client m;
     _current_loop_id := _current_loop_id m;
     _client_initialized := _client_initialized m |}.

Definition set_base_urls (d : dict string) (m : HTTPMCPManager) : HTTPMCPManager :=
  {| connections := connections m; base_urls := d;
     capabilities_cache := capabilities_cache m; http_client := http_client m;
     _current_loop_id := _current_loop_id m;
     _client_initialized := _client_initialized m |}.

Definition set_capabilities_cache (d : dict json) (m : HTTPMCPManager)
  : HTTPMCPManager :=
  {| connections := connections m; base_urls := base_urls m;
     capabilities_cache := d; http_client := http_client m;
     _current_loop_id := _current_loop_id m;
     _client_initialized := _client_initialized m |}.

Definition new_client (loop : nat) (m : HTTPMCPManager) : HTTPMCPManager :=
  {| connections := connections m; base_urls := base_urls m;
     capabilities_cache := capabilities_cache m; http_client := Some false;
     _current_loop_id := Some loop; _client_initialized := true |}.

Definition logger (l : level) (msg : text) : M World unit :=
  modify (emit (EvLog l msg)).

Definition on_self (f : HTTPMCPManager -> HTTPMCPManager) : M World unit :=
  modify (fun w => with_self (f (self w)) w).

(** [await self.http_client.get(url)] and [.post(url, json=payload)]:
    the request is recorded, the network decides the outcome. *)
Definition send (r : request) : M World response :=
  fun w =>
    let rep := network w (trace w) r in
    (outcome rep, emit (EvRequest r) (with_clock (clock w + latency rep) w)).

(** [_ensure_http_client] (lines 30-68).  Building an
    [httpx.AsyncClient] and closing one do no I/O that the model tracks
    and are taken to succeed, so the fallback handler of lines 59-68 is
    not entered. *)
Definition need_new_client (w : World) : bool :=
  match http_client (self w) with
  | None => true
  | Some closed =>
      closed ||
      match _current_loop_id (self w) with
      | Some l => negb (Nat.eqb l (running_loop w))
      | None => true
      end
  end.

Definition _ensure_http_client : M World unit :=
  fun w =>
    if need_new_client w then
      (when_ (match http_client (self w) with
              | Some false => true
              | _ => false
              end)
             (modify (emit EvClientClose)) ;;
       on_self (new_client (running_loop w)) ;;
       modify (emit (EvClientOpen (running_loop w))) ;;
       logger LDebug [Lit "Created new HTTP client for event loop ";
                      Dec (Z.of_nat (running_loop w))]) w
    else (Ok tt, w).

(** [self.base_urls[server_name]] *)
Definition base_url_of (server_name : string) : M World string :=
  fun w => match dict_get server_name (base_urls (self w)) with
           | Some u => (Ok u, w)
           | None => (Raise (Exn "KeyError" (JStr server_name)), w)
           end.

(** [server_name in self.connections] *)
Definition has_connection (server_name : string) : M World bool :=
  gets (fun w => dict_mem server_name (connections (self w))).

(** [self.connections[server_name].update_status(status, message)]; the
    local [connection] of [connect_server] is this same object. *)
Definition connection_update_status (server_name status : string)
           (message : option text) : M World unit :=
  fun w =>
    match dict_get server_name (connections (self w)) with
    | None => (Raise (Exn "KeyError" (JStr server_name)), w)
    | Some c =>
        match conn_update_status c status message with
        | Ok c' =>
            (Ok tt, with_self (set_connections
                                 (dict_set server_name c' (connections (self w)))
                                 (self w)) w)
        | Raise e => (Raise e, w)
        end
    end.

(** Plain attribute assignment on [self.connections[server_name]]. *)
Definition connection_assign (server_name : string) (f : conn -> conn)
  : M World unit :=
  fun w =>
    match dict_get server_name (connections (self w)) with
    | None => (Raise (Exn "KeyError" (JStr server_name)), w)
    | Some c =>
        (Ok tt, with_self (set_connections
                             (dict_set server_name (f c) (connections (self w)))
                             (self w)) w)
    end.

(** [_health_check_server] (lines 119-133) *)
Definition _health_check_server (server_name : string) : M World unit :=
  _ensure_http_client ;;
  base_url <- base_url_of server_name ;;
  try_except
    (response <- send (GET (base_url ++ "/health")) ;;
     lift (raise_for_status response) ;;
     health_data <- lift (json_body response) ;;
     logger LInfo [Lit "Health check for "; Lit server_name; Lit ": ";
                   StrOf health_data])
    (fun e =>
       logger LError ([Lit "Health check failed for "; Lit server_name; Lit ": "]
                      ++ str_exn e)%list ;;
       raise e).

(** One of the three fetches of [_introspect_server]:
    [r = await client.get(url); r.raise_for_status();
     data = r.json(); data.get(key, [])]. *)
Definition fetch_list (url key : string) : M World json :=
  response <- send (GET url) ;;
  lift (raise_for_status response) ;;
  data <- lift (json_body response) ;;
  lift (json_get key (JList []) data).

Definition capability_set (tools resources prompts : json) : json :=
  JObj [("tools", tools); ("resources", resources); ("prompts", prompts)].

(** [len(capabilities.get(key, []))] inside the log line. *)
Definition count_of (key : string) (capabilities : json) : result Z :=
  match json_get key (JList []) capabilities with
  | Ok v => py_len v
  | Raise e => Raise e
  end.

(** The three calls of an introspection in their order (lines 143-159):
    tools, then resources, then prompts. *)
Definition fetch_all (base_url : string) : M World (json * json * json) :=
  tools <- fetch_list (base_url ++ "/tools") "tools" ;;
  resources <- fetch_list (base_url ++ "/resources") "resources" ;;
  prompts <- fetch_list (base_url ++ "/prompts") "prompts" ;;
  ret (tools, resources, prompts).

(** What [_introspect_server] does once the three calls have returned
    (lines 161-171): the cache entry is written, the record, if there is
    one, gets the set as well, and the counts are logged. *)
Definition store_capabilities (server_name : string) (capabilities : json)
  : M World unit :=
  on_self (fun m => set_capabilities_cache
                      (dict_set server_name capabilities (capabilities_cache m))
                      m) ;;
  known <- has_connection server_name ;;
  when_ known (connection_assign server_name
                                 (conn_set_capabilities capabilities)) ;;
  nt <- lift (count_of "tools" capabilities) ;;
  nr <- lift (count_of "resources" capabilities) ;;
  np <- lift (count_of "prompts" capabilities) ;;
  logger LInfo [Lit "Introspected server "; Lit server_name; Lit ": ";
                Dec nt; Lit " tools, "; Dec nr; Lit " resources, ";
                Dec np; Lit " prompts"].

(** The body of [_introspect_server] (lines 136-175). *)
Definition _introspect_server_body (server_name : string) : M World unit :=
  _ensure_http_client ;;
  base_url <- base_url_of server_name ;;
  try_except
    (found <- fetch_all base_url ;;
     let '(tools, resources, prompts) := found in
     store_capabilities server_name (capability_set tools resources prompts))
    (fun e =>
       logger LError ([Lit "Failed to introspect server "; Lit server_name;
                       Lit ": "] ++ str_exn e)%list ;;
       raise e).

(** [@retry_with_exponential_backoff(RetryConfig(max_attempts=3))]
    (line 135): the other settings keep their defaults, jitter included. *)
Definition _introspect_server (server_name : string) : M World unit :=
  retry_with_exponential_backoff
    (with_max_attempts 3 RetryConfig_default)
    (_introspect_server_body server_name).

(** [connect_server] (lines 81-117) *)
Definition connect_server (server_name : string) (server_config : ServerConfig)
  : M World unit :=
  try_except
    (connection <- lift (conn_new
                           [("server_name", PStr server_name);
                            ("transport_type", PStr "http");
                            ("connection_status", PStr (Models.value Models.CONNECTING));
                            ("host", opt_str (cfg_host server_config));
                            ("port", opt_int (cfg_port server_config))]) ;;
     on_self (fun m => set_connections
                         (dict_set server_name connection (connections m)) m) ;;
     let base_url := "http://" ++ fmt_host (cfg_host server_config) ++ ":"
                       ++ fmt_port (cfg_port server_config) in
     on_self (fun m => set_base_urls (dict_set server_name base_url (base_urls m)) m) ;;
     _health_check_server server_name ;;
     _introspect_server server_name ;;
     connection_update_status server_name (Models.value Models.CONNECTED) None ;;
     logger LInfo [Lit "Successfully connected to HTTP server: "; Lit server_name;
                   Lit " at "; Lit base_url])
    (fun e =>
       known <- has_connection server_name ;;
       when_ known (connection_update_status server_name
                      (Models.value Models.ERROR) (Some (str_exn e))) ;;
       logger LError ([Lit "Failed to connect to server "; Lit server_name;
                       Lit ": "] ++ str_exn e)%list ;;
       raise e).

(** The loop of [initialize] over [config.servers.items()]
    (lines 75-79). *)
Fixpoint connect_each (servers : dict ServerConfig) : M World unit :=
  match servers with
  | [] => ret tt
  | (server_name, server_config) :: rest =>
      try_except
        (connect_server server_name server_config)
        (fun e => logger LError ([Lit "Failed to connect to server ";
                                  Lit server_name; Lit ": "] ++ str_exn e)%list) ;;
      connect_each rest
  end.

(** [initialize] (lines 70-79) *)
Definition initialize : M World unit :=
  _ensure_http_client ;;
  servers <- (fun w => (get_config w, w)) ;;
  connect_each servers.

(** [disconnect_server] (lines 177-198) *)
Definition disconnect_server (server_name : string) : M World unit :=
  try_except
    (known <- has_connection server_name ;;
     when_ known (connection_update_status server_name
                    (Models.value Models.DISCONNECTED) None) ;;
     has_url <- gets (fun w => dict_mem server_name (base_urls (self w))) ;;
     when_ has_url
       (on_self (fun m => set_base_urls (dict_del server_name (base_urls m)) m)) ;;
     cached <- gets (fun w => dict_mem server_name (capabilities_cache (self w))) ;;
     when_ cached
       (on_self (fun m => set_capabilities_cache
                            (dict_del server_name (capabilities_cache m)) m)) ;;
     logger LInfo [Lit "Disconnected from server: "; Lit server_name])
    (fun e =>
       logger LError ([Lit "Error disconnecting from server "; Lit server_name;
                       Lit ": "] ++ str_exn e)%list).

(** [get_connection_status] (lines 211-213) *)
Definition get_connection_status (server_name : string) (w : World) : option conn :=
  dict_get server_name (connections (self w)).

(** [is_server_connected] (lines 219-222) *)
Definition is_server_connected (server_name : string) : M World bool :=
  fun w =>
    match dict_get server_name (connections (self w)) with
    | None => (Ok false, w)
    | Some c => (conn_is_connected c, w)
    end.

Definition NotConnectedError (server_name : string) : exn :=
  Exn "ConnectionError" (JStr ("Server " ++ server_name ++ " is not connected")).

(** The [try] block shared by [call_tool], [read_resource] and
    [get_prompt] (lines 242-263, 285-303, 325-346): they differ in the
    path, the payload and the key of the returned value. *)
Definition rpc_try (server_name url : string) (payload : json) (key : string)
  : M World json :=
  response <- send (POST url payload) ;;
  lift (raise_for_status response) ;;
  result <- lift (json_body response) ;;
  known <- has_connection server_name ;;
  now <- gets clock ;;
  when_ known (connection_assign server_name (conn_set_last_ping now)) ;;
  success <- lift (json_get "success" JNull result) ;;
  if truthy success
  then lift (json_get key (JStr "") result)
  else (error <- lift (json_get "error" (JStr "Unknown error") result) ;;
        raise (Exn "RuntimeError" error)).

(** The [except Exception as e] block of the three methods
    (lines 265-273, 305-313, 348-356). *)
Definition rpc_except (server_name : string) (what : text) (e : exn)
  : M World json :=
  logger LError (what ++ str_exn e)%list ;;
  known <- has_connection server_name ;;
  when_ known (connection_update_status server_name
                 (Models.value Models.ERROR) (Some (str_exn e))) ;;
  raise e.

Definition rpc (server_name path : string) (payload : json) (key : string)
           (what : text) : M World json :=
  _ensure_http_client ;;
  connected <- is_server_connected server_name ;;
  if negb connected then raise (NotConnectedError server_name)
  else (base_url <- base_url_of server_name ;;
        try_except (rpc_try server_name (base_url ++ path) payload key)
                   (rpc_except server_name what)).

(** The undecorated [call_tool] (lines 233-273) *)
Definition call_tool_body (server_name tool_name : string) (arguments : json)
  : M World json :=
  rpc server_name "/tools/call"
      (JObj [("name", JStr tool_name); ("arguments", arguments)]) "result"
      [Lit "Error calling tool "; Lit tool_name; Lit " on server ";
       Lit server_name; Lit ": "].

(** The undecorated [read_resource] (lines 276-313) *)
Definition read_resource_body (server_name uri : string) : M World json :=
  rpc server_name "/resources/read" (JObj [("uri", JStr uri)]) "content"
      [Lit "Error reading resource "; Lit uri; Lit " from server ";
       Lit server_name; Lit ": "].

(** [arguments or {}] *)
Definition or_empty (arguments : option json) : json :=
  match arguments with
  | Some a => if truthy a then a else JObj []
  | None => JObj []
  end.

(** The undecorated [get_prompt] (lines 316-356) *)
Definition get_prompt_body (server_name prompt_name : string)
           (arguments : option json) : M World json :=
  rpc server_name "/prompts/get"
      (JObj [("name", JStr prompt_name); ("arguments", or_empty arguments)])
      "prompt"
      [Lit "Error getting prompt "; Lit prompt_name; Lit " from server ";
       Lit server_name; Lit ": "].

(** The three [@CircuitBreaker(failure_threshold=3,
    recovery_timeout=30.0)] decorators (lines 232, 275, 315) each build
    one breaker object when the class body is executed; every call of
    the decorated method, for whatever server, goes through that one
    object. *)
Record Process : Type := {
  world : World;
  call_tool_breaker : CircuitBreaker;
  read_resource_breaker : CircuitBreaker;
  get_prompt_breaker : CircuitBreaker
}.

Definition start (w : World) : Process :=
  {| world := w;
     call_tool_breaker := CircuitBreaker_init 3 30;
     read_resource_breaker := CircuitBreaker_init 3 30;
     get_prompt_breaker := CircuitBreaker_init 3 30 |}.

Definition call_tool (server_name tool_name : string) (arguments : json)
  : M Process json :=
  fun p =>
    let '(r, (b, w)) :=
      breaker_call (call_tool_body server_name tool_name arguments)
                   (call_tool_breaker p, world p) in
    (r, {| world := w; call_tool_breaker := b;
           read_resource_breaker := read_resource_breaker p;
           get_prompt_breaker := get_prompt_breaker p |}).

Definition read_resource (server_name uri : string) : M Process json :=
  fun p =>
    let '(r, (b, w)) :=
      breaker_call (read_resource_body server_name uri)
                   (read_resource_breaker p, world p) in
    (r, {| world := w; call_tool_breaker := call_tool_breaker p;
           read_resource_breaker := b;
           get_prompt_breaker := get_prompt_breaker p |}).

Definition get_prompt (server_name prompt_name : string) (arguments : option json)
  : M Process json :=
  fun p =>
    let '(r, (b, w)) :=
      breaker_call (get_prompt_body server_name prompt_name arguments)
                   (get_prompt_breaker p, world p) in
    (r, {| world := w; call_tool_breaker := call_tool_breaker p;
           read_resource_breaker := read_resource_breaker p;
           get_prompt_breaker := b |}).

(** The loop of the bulk form of [refresh_capabilities]
    (lines 364-369). *)
Fixpoint refresh_each (names : list string) : M World unit :=
  match names with
  | [] => ret tt
  | name :: rest =>
      connected <- is_server_connected name ;;
      when_ connected
        (try_except (_introspect_server name)
           (fun e => logger LError ([Lit "Failed to refresh capabilities for ";
                                     Lit name; Lit ": "] ++ str_exn e)%list)) ;;
      refresh_each rest
  end.

(** [refresh_capabilities] (lines 358-369); [if server_name:] is false
    for [None] and for the empty string. *)
Definition refresh_capabilities (server_name : option string) : M World unit :=
  let bulk : M World unit :=
    fun w => refresh_each (dict_keys (base_urls (self w))) w in
  match server_name with
  | Some name =>
      if String.eqb name "" then bulk
      else (connected <- is_server_connected name ;;
            when_ connected (_introspect_server name))
  | None => bulk
  end.

(** The loop shared by [get_available_tools], [get_available_resources]
    and [get_available_prompts] (lines 383-405). *)
Fixpoint collect (key : string) (items : dict json) (acc : dict json)
  : M World (dict json) :=
  match items with
  | [] => ret acc
  | (server_name, capabilities) :: rest =>
      connected <- is_server_connected server_name ;;
      if (connected : bool)
      then (v <- lift (json_get key (JList []) capabilities) ;;
            collect key rest (dict_set server_name v acc))
      else collect key rest acc
  end.

(** [get_available_tools] (lines 383-389) *)
Definition get_available_tools : M World (dict json) :=
  fun w => collect "tools" (capabilities_cache (self w)) [] w.


End Manager.

(** * client/http_mcp_manager.py: the remaining methods *)

(** [for x in v]: the elements a decoded JSON value yields when iterated;
    a list yields its items, a dict its keys, a string its characters. *)
Fixpoint chars (s : string) : list json :=
  match s with
  | EmptyString => []
  | String a s' => JStr (String a EmptyString) :: chars s'
  end.

Definition py_iter (v : json) : result (list json) :=
  match v with
  | JList l => Ok l
  | JObj kv => Ok (map (fun p => JStr (fst p)) kv)
  | JStr s => Ok (chars s)
  | _ => Raise (Exn "TypeError"
                  (JStr ("'" ++ py_type_name v ++ "' object is not iterable")))
  end.

(** [v == s] for a decoded JSON value and a string. *)
Definition py_eq_str (v : json) (s : string) : bool :=
  match v with
  | JStr s' => String.eqb s' s
  | _ => false
  end.

(** The inner loop of [find_tool], [find_resource] and [find_prompt]:
    [for item in items: if item.get(field) == target: return ...]. *)
Fixpoint scan (field target : string) (items : list json) : result bool :=
  match items with
  | [] => Ok false
  | item :: rest =>
      match json_get field JNull item with
      | Raise e => Raise e
      | Ok v => if py_eq_str v target then Ok true else scan field target rest
      end
  end.

Section Queries.
Context {K : ConnectionClass}.

(** The loop of [disconnect_all] over [list(self.base_urls.keys())]. *)
Fixpoint disconnect_each (names : list string) : M World unit :=
  match names with
  | [] => ret tt
  | server_name :: rest =>
      disconnect_server server_name ;;
      disconnect_each rest
  end.

(** [self.http_client = None; self._client_initialized = False] *)
Definition drop_client (m : HTTPMCPManager) : HTTPMCPManager :=
  {| connections := connections m; base_urls := base_urls m;
     capabilities_cache := capabilities_cache m; http_client := None;
     _current_loop_id := _current_loop_id m;
     _client_initialized := false |}.

(** [disconnect_all] (lines 200-209); closing the client is taken to
    succeed, as in [_ensure_http_client]. *)
Definition disconnect_all : M World unit :=
  (fun w => disconnect_each (dict_keys (base_urls (self w))) w) ;;
  (fun w =>
     match http_client (self w) with
     | Some false => (modify (emit EvClientClose) ;; on_self drop_client) w
     | _ => (Ok tt, w)
     end).

(** [get_all_connections] (lines 215-217) *)
Definition get_all_connections (w : World) : dict conn := connections (self w).

(** [get_server_capabilities] (lines 224-226) *)
Definition get_server_capabilities (server_name : string) (w : World) : json :=
  match dict_get server_name (capabilities_cache (self w)) with
  | Some v => v
  | None => JObj []
  end.

(** [get_all_capabilities] (lines 228-230) *)
Definition get_all_capabilities (w : World) : dict json :=
  capabilities_cache (self w).

(** One iteration of the loop of [health_check] (lines 375-381); the
    loop variable [connection] is the object held by [self.connections]
    under [server_name]. *)
Definition health_check_one (server_name : string) : M World unit :=
  connected <- (fun w =>
                  match dict_get server_name (connections (self w)) with
                  | None => (Raise (Exn "KeyError" (JStr server_name)), w)
                  | Some c => (conn_is_connected c, w)
                  end) ;;
  when_ connected
    (try_except
       (_health_check_server server_name ;;
        now <- gets clock ;;
        connection_assign server_name (conn_set_last_ping now))
       (fun e =>
          logger LWarning ([Lit "Health check failed for "; Lit server_name;
                            Lit ": "] ++ str_exn e)%list ;;
          connection_update_status server_name (Models.value Models.ERROR)
                                   (Some (str_exn e)))).

Fixpoint health_check_each (names : list string) : M World unit :=
  match names with
  | [] => ret tt
  | server_name :: rest =>
      health_check_one server_name ;;
      health_check_each rest
  end.

(** [health_check] (lines 371-381); the loop body replaces no key of
    [self.connections], so the iteration is over the keys found at the
    start. *)
Definition health_check : M World unit :=
  _ensure_http_client ;;
  (fun w => health_check_each (dict_keys (connections (self w))) w).

(** [get_available_resources] (lines 391-397) *)
Definition get_available_resources : M World (dict json) :=
  fun w => collect "resources" (capabilities_cache (self w)) [] w.

(** [get_available_prompts] (lines 399-405) *)
Definition get_available_prompts : M World (dict json) :=
  fun w => collect "prompts" (capabilities_cache (self w)) [] w.

(** The loop shared by [find_tool], [find_resource] and [find_prompt]
    (lines 407-435): [key] names the list inside the capability set,
    [field] the attribute compared with [target]. *)
Fixpoint find_provider (key field target : string) (items : dict json)
  : M World (option string) :=
  match items with
  | [] => ret None
  | (server_name, capabilities) :: rest =>
      connected <- is_server_connected server_name ;;
      if (connected : bool)
      then (listed <- lift (json_get key (JList []) capabilities) ;;
            elements <- lift (py_iter listed) ;;
            found <- lift (scan field target elements) ;;
            if (found : bool) then ret (Some server_name)
            else find_provider key field target rest)
      else find_provider key field target rest
  end.

(** [find_tool] (lines 407-415) *)
Definition find_tool (tool_name : string) : M World (option string) :=
  fun w => find_provider "tools" "name" tool_name (capabilities_cache (self w)) w.

(** [find_resource] (lines 417-425) *)
Definition find_resource (uri : string) : M World (option string) :=
  fun w => find_provider "resources" "uri" uri (capabilities_cache (self w)) w.

(** [find_prompt] (lines 427-435) *)
Definition find_prompt (prompt_name : string) : M World (option string) :=
  fun w => find_provider "prompts" "name" prompt_name (capabilities_cache (self w)) w.

(** [get_http_mcp_manager] (lines 438-447).  The state is the module
    global [_http_mcp_manager], here whether it has been assigned, and the
    world; while the global is [None] no manager exists and [self] of the
    world is not read.  The global is assigned before [initialize] is
    awaited. *)
Definition get_http_mcp_manager : M (bool * World) HTTPMCPManager :=
  fun '(assigned, w) =>
    if (assigned : bool) then (Ok (self w), (true, w))
    else
      match initialize (with_self HTTPMCPManager_init w) with
      | (Ok _, w1) => (Ok (self w1), (true, w1))
      | (Raise e, w1) => (Raise e, (true, w1))
      end.
End Queries.


(** The events in which the task waits or uses the network: the requests
    and the sleeps of a trace. *)
Definition is_sleep (e : event) : bool :=
  match e with EvSleep _ => true | _ => false end.

Definition acts (tr : list event) : list event :=
  filter (fun e => is_request e || is_sleep e) tr.

(** [CircuitBreaker(failure_threshold, recovery_timeout,
    expected_exception)] (lines 93-105); [expected] is the [isinstance]
    test against the given class. *)
Definition CircuitBreaker_with (threshold : Z) (timeout : Q) (expected : exn -> bool)
  : CircuitBreaker :=
  {| failure_threshold := threshold; recovery_timeout := timeout;
     expected_exception := expected;
     failure_count := 0; last_failure_time := None; state := CLOSED |}.

Section Tables.
Context {K : ConnectionClass}.

(** What a listing that came out of [get_available_tools] or one of its
    siblings says: a listed server is a connected server of the cache,
    listed with the value its cached set holds under [key], and every
    connected server of the cache is listed. *)
Definition lists_exactly (key : string) (w : World) (listing : dict json) : Prop :=
  (forall n v,
      dict_get n listing = Some v ->
      exists capabilities,
        In (n, capabilities) (capabilities_cache (self w)) /\
        is_server_connected n w = (Ok true, w) /\
        json_get key (JList []) capabilities = Ok v) /\
  (forall n capabilities,
      In (n, capabilities) (capabilities_cache (self w)) ->
      is_server_connected n w = (Ok true, w) ->
      dict_get n listing <> None).

(** What the manager holds for a server: its record, its base URL and
    its cached capability set. *)
Definition entries (k : string) (w : World)
  : option conn * option string * option json :=
  (dict_get k (connections (self w)),
   dict_get k (base_urls (self w)),
   dict_get k (capabilities_cache (self w))).

(** What [disconnect_server] makes of them (lines 180-198): when the
    [update_status] call raises nothing is removed; otherwise the base URL
    and the cached set are gone and the record, if there is one, is the
    updated one. *)
Definition after_disconnect (k : string) (w : World)
  : option conn * option string * option json :=
  match dict_get k (connections (self w)) with
  | None => (None, None, None)
  | Some c =>
      match conn_update_status c (Models.value Models.DISCONNECTED) None with
      | Ok c' => (Some c', None, None)
      | Raise _ => entries k w
      end
  end.


End Tables.


(** The capability set lists, under [key], an item whose [field] is the
    string [target]. *)
Definition offers (key field target : string) (capabilities : json) : Prop :=
  exists listed elements item,
    json_get key (JList []) capabilities = Ok listed /\
    py_iter listed = Ok elements /\
    In item elements /\
    json_get field JNull item = Ok (JStr target).

(** What a lookup that returned [r] says about the cache, read in its
    order: [Some s] is the first connected server whose set offers the
    target, [None] means that no connected server offers it. *)
Definition first_provider {K : ConnectionClass} (key field target : string)
           (w : World) (r : option string) : Prop :=
  match r with
  | Some s =>
      exists before capabilities after,
        capabilities_cache (self w) = (before ++ (s, capabilities) :: after)%list /\
        is_server_connected s w = (Ok true, w) /\
        offers key field target capabilities /\
        forall s' capabilities',
          In (s', capabilities') before ->
          is_server_connected s' w = (Ok true, w) ->
          ~ offers key field target capabilities'
  | None =>
      forall s capabilities,
        In (s, capabilities) (capabilities_cache (self w)) ->
        is_server_connected s w = (Ok true, w) ->
        ~ offers key field target capabilities
  end.

(** * Instrumentation used by the properties of client/utils.py *)



Section Reachable.
Context {S : Type} {RT : Runtime S}.

(** The breakers that a breaker [b0] can become through calls of the
    decorated function, whatever the wrapped functions do and whenever the
    calls are made. *)
Inductive reachable (b0 : CircuitBreaker) : CircuitBreaker -> Prop :=
| reach_start : reachable b0 b0
| reach_call (A : Type) (func : M S A) (b b' : CircuitBreaker) (s s' : S)
             (r : result A) :
    reachable b0 b ->
    breaker_call func (b, s) = (r, (b', s')) ->
    reachable b0 b'.

(** [k] calls in a row, each of which ended with an exception, starting
    from the breaker [b0]. *)
Inductive failures_in_a_row (b0 : CircuitBreaker) : nat -> CircuitBreaker -> Prop :=
| row_start : failures_in_a_row b0 0 b0
| row_call (A : Type) (func : M S A) (k : nat) (b b' : CircuitBreaker) (s s' : S)
           (e : exn) :
    failures_in_a_row b0 k b ->
    breaker_call func (b, s) = (Raise e, (b', s')) ->
    failures_in_a_row b0 (Datatypes.S k) b'.
End Reachable.

(** * client/utils.py: RateLimiter (lines 233-254) *)

Record RateLimiter : Type := {
  max_calls : Z;
  time_window : Q;
  calls : list Q
}.

(** [RateLimiter(max_calls, time_window)] *)
Definition RateLimiter_init (n : Z) (window : Q) : RateLimiter :=
  {| max_calls := n; time_window := window; calls := [] |}.

Definition with_calls (l : list Q) (rl : RateLimiter) : RateLimiter :=
  {| max_calls := max_calls rl; time_window := time_window rl; calls := l |}.

(** [x < y] on floats *)
Definition Qltb (x y : Q) : bool := negb (Qle_bool y x).

(** [min(l)] of a list of floats: the first of its smallest items; the
    empty list is a [ValueError] (the message is the one of CPython up to
    3.11). *)
Definition py_min (l : list Q) : result Q :=
  match l with
  | [] => Raise (Exn "ValueError" (JStr "min() arg is an empty sequence"))
  | x :: rest => Ok (fold_left (fun m y => if Qltb y m then y else m) rest x)
  end.

(** The test of the list comprehension of line 245:
    [now - call_time < self.time_window]. *)
Definition recent (now window : Q) (call_time : Q) : bool :=
  Qltb (now - call_time) window.

Section Limiter.
Context {S : Type} {RT : Runtime S}.

(** [acquire] (lines 240-254) *)
Definition acquire : M (RateLimiter * S) unit :=
  fun '(rl, s) =>
    let now := time_time s in
    let kept := filter (recent now (time_window rl)) (calls rl) in
    if (max_calls rl <=? Z.of_nat (List.length kept))%Z
    then
      match py_min kept with
      | Raise e => (Raise e, (with_calls kept rl, s))
      | Ok oldest_call =>
          let wait_time := time_window rl - (now - oldest_call) in
          (Ok tt, (with_calls (kept ++ [now])%list rl, asyncio_sleep wait_time s))
      end
    else (Ok tt, (with_calls (kept ++ [now])%list rl, s)).
End Limiter.

(** What a limiter keeps from one [acquire] to the next when time never
    runs backwards: no stamp lies in the future, and at most [max_calls]
    stamps lie inside the window that ends now. *)
Definition limiter_ok (rl : RateLimiter) (now : Q) : Prop :=
  (forall t, In t (calls rl) -> t <= now) /\
  (Z.of_nat (List.length (filter (recent now (time_window rl)) (calls rl)))
   <= max_calls rl)%Z.

(** * client/utils.py: text helpers *)

(** A Python [str] where its characters matter: the list of its code
    points. *)
Definition ustr : Type := list N.

(** [l[:k]]: a negative [k] counts from the end. *)
Definition py_slice_to {X} (k : Z) (l : list X) : list X :=
  if (k <? 0)%Z then firstn (Z.to_nat (Z.of_nat (List.length l) + k)) l
  else firstn (Z.to_nat k) l.

(** The characters that [str.strip()] removes: those for which
    [str.isspace] holds. *)
Definition is_space (c : N) : bool :=
  ((9 <=? c) && (c <=? 13) || (28 <=? c) && (c <=? 32)
   || (c =? 133) || (c =? 160) || (c =? 5760)
   || (8192 <=? c) && (c <=? 8202)
   || (c =? 8232) || (c =? 8233) || (c =? 8239) || (c =? 8287)
   || (c =? 12288))%N.

Fixpoint lstrip (l : ustr) : ustr :=
  match l with
  | [] => []
  | c :: rest => if is_space c then lstrip rest else l
  end.

Definition rstrip (l : ustr) : ustr := rev (lstrip (rev l)).

(** [s.strip()] *)
Definition strip (l : ustr) : ustr := rstrip (lstrip l).

(** The list [dangerous_chars] of line 167: less-than, greater-than, the
    double and the single quotation mark, the ampersand, NUL and carriage
    return. *)
Definition dangerous_chars : list N := [60; 62; 34; 39; 38; 0; 13]%N.

(** [s.replace(char, '')] for a single character. *)
Definition remove_char (c : N) (s : ustr) : ustr :=
  filter (fun x => negb (N.eqb x c)) s.

(** [s.encode('utf-8')] raises [UnicodeEncodeError] exactly when [s]
    holds a surrogate code point. *)
Definition is_surrogate (c : N) : bool := ((55296 <=? c) && (c <=? 57343))%N.

(** [sanitize_input] (lines 161-182), for an argument that is a [str]. *)
Definition sanitize_input (input_text : ustr) (max_length : Z) : ustr :=
  let sanitized := fold_left (fun s c => remove_char c s) dangerous_chars input_text in
  let sanitized := py_slice_to max_length (strip sanitized) in
  if existsb is_surrogate sanitized
  then filter (fun c => (c <? 128)%N) sanitized
  else sanitized.

(** [s.rfind(c)]: the highest index of [c] in [s], -1 when absent. *)
Fixpoint rfind_from (c : N) (l : ustr) (i found : Z) : Z :=
  match l with
  | [] => found
  | x :: rest => rfind_from c rest (i + 1)%Z (if N.eqb x c then i else found)
  end.

Definition rfind (c : N) (l : ustr) : Z := rfind_from c l 0%Z (-1)%Z.

(** The product [max_length * 0.7] of line 411 is a binary64 number.  An
    integer that a binary64 holds is kept as that integer, and the product
    as a rational with denominator [2^53]. *)

(** A natural number rounded to 53 significant bits, ties to even: the
    rounding of a binary64 operation whose exact result has the bits of
    [a]. *)
Definition round53 (a : Z) : Z :=
  let bits := (Z.log2 a + 1)%Z in
  if (bits <=? 53)%Z then a
  else
    let s := (bits - 53)%Z in
    let q := Z.shiftr a s in
    let r := (a - Z.shiftl q s)%Z in
    let half := Z.shiftl 1 (s - 1) in
    let q' := if (half <? r)%Z || ((r =? half)%Z && Z.odd q) then (q + 1)%Z else q in
    Z.shiftl q' s.

Definition round_half_even (a : Z) : Z :=
  if (a <? 0)%Z then (- round53 (- a))%Z else round53 a.

(** [float(n)] for an [int]: the nearest binary64, [OverflowError] when
    that would be [2^1024] or more. *)
Definition py_float (n : Z) : result Z :=
  let x := round_half_even n in
  if (2 ^ 1024 <=? Z.abs x)%Z
  then Raise (Exn "OverflowError" (JStr "int too large to convert to float"))
  else Ok x.

(** The binary64 written [0.7] is [6305039478318694 / 2^53]. *)
Definition seven_tenths : Z := 6305039478318694.

(** [n * 0.7] for an [int] [n]: [n] is converted, the exact product is
    rounded. *)
Definition times_seven_tenths (n : Z) : result Q :=
  match py_float n with
  | Raise e => Raise e
  | Ok x => Ok (round_half_even (x * seven_tenths) # 9007199254740992)
  end.

(** [truncate_text] (lines 402-414); an [int] is compared with a float by
    value. *)
Definition truncate_text (text : ustr) (max_length : Z) (suffix : ustr)
  : result ustr :=
  if (Z.of_nat (List.length text) <=? max_length)%Z then Ok text
  else
    let truncated := py_slice_to (max_length - Z.of_nat (List.length suffix)) text in
    let last_space := rfind 32%N truncated in
    match times_seven_tenths max_length with
    | Raise e => Raise e
    | Ok limit =>
        let truncated :=
          if Qltb limit (inject_Z last_space)
          then py_slice_to last_space truncated
          else truncated in
        Ok (truncated ++ suffix)%list
    end.


(** The text needs no cleaning: none of its characters is dangerous or a
    surrogate, and it neither starts nor ends with white space. *)
Definition clean (t : ustr) : Prop :=
  (forall c, In c t -> ~ In c dangerous_chars /\ is_surrogate c = false) /\
  strip t = t.

(** * client/utils.py: safe_write_json (lines 275-297) *)

(** [os.path.dirname] of a POSIX path: everything up to the last slash,
    without trailing slashes unless it consists of slashes only. *)
Fixpoint last_slash (s : string) (i : nat) (found : option nat) : option nat :=
  match s with
  | EmptyString => found
  | String a s' =>
      last_slash s' (Datatypes.S i)
                 (if Ascii.eqb a "/"%char then Some i else found)
  end.

Fixpoint only_slashes (s : string) : bool :=
  match s with
  | EmptyString => true
  | String a s' => Ascii.eqb a "/"%char && only_slashes s'
  end.

Fixpoint rstrip_slashes (s : string) : string :=
  match s with
  | EmptyString => EmptyString
  | String a s' =>
      if only_slashes s then EmptyString else String a (rstrip_slashes s')
  end.

Definition dirname (p : string) : string :=
  match last_slash p 0 None with
  | None => ""
  | Some i =>
      let head := substring 0 (Datatypes.S i) p in
      if only_slashes head then head else rstrip_slashes head
  end.

(** What the operating system answers to the calls that one
    [safe_write_json] can make, each of them made at most once:
    [os.makedirs], writing the temporary file ([open] and [json.dump]),
    [os.replace], [os.path.exists] of the temporary file, [os.remove]. *)
Record os_answers : Type := {
  makedirs : result unit;
  dump : result unit;
  replace : result unit;
  temp_exists : bool;
  remove : result unit
}.

Inductive os_call : Type :=
| Makedirs (path : string)
| Dump (path : string) (data : json)
| Replace (src dst : string)
| Exists (path : string)
| Remove (path : string)
| LogError (msg : text).

(** A local variable that is read before it was assigned. *)
Definition UnboundLocalError (name : string) : exn :=
  Exn "UnboundLocalError"
      (JStr ("cannot access local variable '" ++ name
               ++ "' where it is not associated with a value")).

(** [safe_write_json]; the state is the list of the calls made.
    [temp_path] is assigned after [os.makedirs] has returned, and the
    handler reads it. *)
Definition safe_write_json (os : os_answers) (file_path : string) (data : json)
  : M (list os_call) bool :=
  let temp_path := file_path ++ ".tmp" in
  let handler (temp_path_bound : bool) (e : exn) : M (list os_call) bool :=
    modify (fun tr => tr ++ [LogError ([Lit "Error writing "; Lit file_path; Lit ": "]
                                       ++ str_exn e)])%list ;;
    if temp_path_bound
    then (modify (fun tr => tr ++ [Exists temp_path])%list ;;
          when_ (temp_exists os)
                (try_except
                   (modify (fun tr => tr ++ [Remove temp_path])%list ;;
                    lift (remove os))
                   (fun _ => ret tt)) ;;
          ret false)
    else raise (UnboundLocalError "temp_path") in
  fun tr =>
    match (modify (fun tr => tr ++ [Makedirs (dirname file_path)])%list ;;
           lift (makedirs os)) tr with
    | (Raise e, tr1) => handler false e tr1
    | (Ok _, tr1) =>
        try_except
          (modify (fun tr => tr ++ [Dump temp_path data])%list ;;
           lift (dump os) ;;
           modify (fun tr => tr ++ [Replace temp_path file_path])%list ;;
           lift (replace os) ;;
           ret true)
          (handler true) tr1
    end.

(** * shared/models.py: Task (lines 47-77) *)

Module Tasks.

(** The nine fields; a field holds whatever value it was given, types are
    not checked. *)
Record Task : Type := {
  id : json;
  title : json;
  description : json;
  completed : json;
  created_at : json;
  updated_at : json;
  due_date : json;
  priority : json;
  tags : json
}.

Definition fields : list string :=
  ["id"; "title"; "description"; "completed"; "created_at"; "updated_at";
   "due_date"; "priority"; "tags"].

Definition required : list string := ["id"; "title"].

(** [to_dict] (lines 60-72) *)
Definition to_dict (t : Task) : json :=
  JObj [("id", id t); ("title", title t); ("description", description t);
        ("completed", completed t); ("created_at", created_at t);
        ("updated_at", updated_at t); ("due_date", due_date t);
        ("priority", priority t); ("tags", tags t)].

(** The wall clock as the default factories see it: the text that the
    [n]-th evaluation of [datetime.utcnow().isoformat()] gives, and the
    number of evaluations so far. *)
Record Calendar : Type := { isoformat : nat -> string; taken : nat }.

Definition utcnow_isoformat : M Calendar json :=
  fun c => (Ok (JStr (isoformat c (taken c))),
            {| isoformat := isoformat c; taken := Datatypes.S (taken c) |}).

Definition missing_message (l : list string) : string :=
  match l with
  | [a] => "Task.__init__() missing 1 required positional argument: '" ++ a ++ "'"
  | _ => "Task.__init__() missing 2 required positional arguments: 'id' and 'title'"
  end.

(** A field that was passed, or else its default. *)
Definition field_or (k : string) (default : M Calendar json)
           (kwargs : list (string * json)) : M Calendar json :=
  match dict_get k kwargs with
  | Some v => ret v
  | None => default
  end.

(** The [__init__] that [@dataclass] generates, called with keyword
    arguments only: an unknown keyword is rejected first, then a missing
    field without default; the default factories run in the order of the
    fields. *)
Definition __init__ (kwargs : list (string * json)) : M Calendar Task :=
  match find (fun kv => negb (Models.mem (fst kv) fields)) kwargs with
  | Some (k, _) =>
      raise (Exn "TypeError"
               (JStr ("Task.__init__() got an unexpected keyword argument '"
                        ++ k ++ "'")))
  | None =>
      match filter (fun f => negb (dict_mem f kwargs)) required with
      | [] =>
          v_id <- field_or "id" (ret JNull) kwargs ;;
          v_title <- field_or "title" (ret JNull) kwargs ;;
          v_description <- field_or "description" (ret (JStr "")) kwargs ;;
          v_completed <- field_or "completed" (ret (JBool false)) kwargs ;;
          v_created_at <- field_or "created_at" utcnow_isoformat kwargs ;;
          v_updated_at <- field_or "updated_at" utcnow_isoformat kwargs ;;
          v_due_date <- field_or "due_date" (ret JNull) kwargs ;;
          v_priority <- field_or "priority" (ret (JStr "medium")) kwargs ;;
          v_tags <- field_or "tags" (ret (JList [])) kwargs ;;
          ret {| id := v_id; title := v_title; description := v_description;
                 completed := v_completed; created_at := v_created_at;
                 updated_at := v_updated_at; due_date := v_due_date;
                 priority := v_priority; tags := v_tags |}
      | missing => raise (Exn "TypeError" (JStr (missing_message missing)))
      end
  end.

(** [from_dict] (lines 74-77): the class is called with the entries of
    [data] as keyword arguments; only a mapping can be unpacked. *)
Definition from_dict (data : json) : M Calendar Task :=
  match data with
  | JObj kv => __init__ kv
  | _ => raise (Exn "TypeError"
                  (JStr ("shared.models.Task() argument after ** must be a mapping, not "
                           ++ py_type_name data)))
  end.

End Tasks.

(** * servers/personal_assistant/server.py: load_tasks (lines 217-238) *)

(** What [load_tasks] finds: whether [tasks.json] exists and what
    opening and decoding it gives. *)
Record tasks_file : Type := {
  file_exists : bool;
  json_load : result json
}.

(** The loop over the decoded entries; only a [ValueError] is caught
    inside the loop. *)
Fixpoint load_each (entries : list json) (tasks : list Tasks.Task)
  : M (Tasks.Calendar * list text) (list Tasks.Task) :=
  match entries with
  | [] => ret tasks
  | task_data :: rest =>
      fun '(cal, printed) =>
        match Tasks.from_dict task_data cal with
        | (Ok task, cal1) => load_each rest (tasks ++ [task])%list (cal1, printed)
        | (Raise e, cal1) =>
            if String.eqb (exn_class e) "ValueError"
            then load_each rest tasks
                   (cal1, (printed ++ [[Lit "Warning: Invalid task data: "]
                                        ++ str_exn e])%list)
            else (Raise e, (cal1, printed))
        end
  end.

Definition load_tasks (f : tasks_file)
  : M (Tasks.Calendar * list text) (list Tasks.Task) :=
  try_except
    (if negb (file_exists f) then ret []
     else (data <- lift (json_load f) ;;
           entries <- lift (py_iter data) ;;
           load_each entries []))
    (fun e =>
       modify (fun '(cal, printed) =>
                 (cal, (printed ++ [[Lit "Error loading tasks: "] ++ str_exn e])%list)) ;;
       ret []).

(** * client/config.py: validation and the global instance *)

(** [@dataclass class ClientConfig] (lines 25-33) *)
Record ClientConfig : Type := {
  gemini_api_key : string;
  gemini_model : string;
  response_temperature : Q;
  streamlit_port : Z;
  log_level : string;
  servers : dict ServerConfig
}.

(** The process environment as [load_config] reads it: [os.getenv], and
    what [float] and [int] make of a string. *)
Record Environ : Type := {
  getenv : string -> option string;
  float_of : string -> result Q;
  int_of : string -> result Z
}.

Definition getenv_or (env : Environ) (k default : string) : string :=
  match getenv env k with Some v => v | None => default end.

(** [load_config] (lines 35-73) *)
Definition load_config (env : Environ) : result ClientConfig :=
  match float_of env (getenv_or env "RESPONSE_TEMPERATURE" "0.7") with
  | Raise e => Raise e
  | Ok temperature =>
      match int_of env (getenv_or env "STREAMLIT_PORT" "8501") with
      | Raise e => Raise e
      | Ok port =>
          Ok {| gemini_api_key := getenv_or env "GOOGLE_API_KEY" "";
                gemini_model := getenv_or env "GEMINI_MODEL" "gemini-pro";
                response_temperature := temperature;
                streamlit_port := port;
                log_level := getenv_or env "LOG_LEVEL" "INFO";
                servers := load_config_servers |}
      end
  end.

Definition ValueError (msg : string) : exn := Exn "ValueError" (JStr msg).

(** [not x] for an optional string and an optional integer. *)
Definition falsy_str (o : option string) : bool :=
  match o with Some s => String.eqb s "" | None => true end.

Definition falsy_int (o : option Z) : bool :=
  match o with Some z => Z.eqb z 0 | None => true end.

(** The loop of [validate_config] (lines 82-90). *)
Fixpoint validate_servers (items : dict ServerConfig) : result bool :=
  match items with
  | [] => Ok true
  | (server_name, server_config) :: rest =>
      if String.eqb (cfg_transport server_config) "stdio" then
        if falsy_str (cfg_command server_config)
        then Raise (ValueError ("Command not specified for stdio server "
                                  ++ server_name))
        else validate_servers rest
      else if String.eqb (cfg_transport server_config) "http" then
        if falsy_str (cfg_host server_config) || falsy_int (cfg_port server_config)
        then Raise (ValueError ("Host and port required for HTTP server "
                                  ++ server_name))
        else validate_servers rest
      else Raise (ValueError ("Unsupported transport type: "
                                ++ cfg_transport server_config))
  end.

(** [validate_config] (lines 75-92) *)
Definition validate_config (config : ClientConfig) : result bool :=
  if String.eqb (gemini_api_key config) ""
  then Raise (ValueError "GOOGLE_API_KEY environment variable is required")
  else validate_servers (servers config).

(** [get_config] (lines 97-103); the state is the module global
    [_config], which is assigned before the configuration is validated. *)
Definition config_get_config (env : Environ) : M (option ClientConfig) ClientConfig :=
  fun _config =>
    match _config with
    | Some c => (Ok c, Some c)
    | None =>
        match load_config env with
        | Raise e => (Raise e, None)
        | Ok c =>
            match validate_config c with
            | Raise e => (Raise e, Some c)
            | Ok _ => (Ok c, Some c)
            end
        end
    end.

(** A server entry that [validate_config] accepts. *)
Definition valid_server (sc : ServerConfig) : Prop :=
  (cfg_transport sc = "stdio" /\ falsy_str (cfg_command sc) = false) \/
  (cfg_transport sc = "http" /\ falsy_str (cfg_host sc) = false /\
   falsy_int (cfg_port sc) = false).

(** * Concrete worlds used in the examples *)

Definition ok_response (v : json) : response :=
  {| raise_for_status := Ok tt; json_body := Ok v |}.

Definition answer (v : json) : reply :=
  {| latency := 0; outcome := Ok (ok_response v) |}.

Definition refused : reply :=
  {| latency := 0;
     outcome := Raise (Exn "ConnectError" (JStr "All connection attempts failed")) |}.

(** A network on which every request is refused. *)
Definition dead_network (tr : list event) (r : request) : reply := refused.

(** A fresh manager in a world with the given network; [get_config()]
    returns the servers of [load_config]. *)
Definition fresh_world (K : ConnectionClass)
           (net : list event -> request -> reply) : World (K := K) :=
  {| self := HTTPMCPManager_init; trace := []; clock := 0; running_loop := 1;
     network := net; entropy := fun _ => 0; draws := 0;
     get_config := Ok load_config_servers |}.

(** A network on which every GET answers a document listing one tool,
    [POST /tools/call] is refused by the personal-assistant server (port
    8001) and every other POST answers a successful envelope. *)
Definition first_server_down (tr : list event) (r : request) : reply :=
  match r with
  | GET _ => answer (JObj [("tools", JList [JObj [("name", JStr "add_task")]])])
  | POST url _ =>
      if String.eqb url "http://127.0.0.1:8001/tools/call" then refused
      else answer (JObj [("success", JBool true); ("result", JStr "done")])
  end.

(** A network on which every GET answers a document listing one tool and
    every POST answers the envelope of an application error. *)
Definition application_error (tr : list event) (r : request) : reply :=
  match r with
  | GET _ => answer (JObj [("tools", JList [JObj [("name", JStr "add_task")]])])
  | POST _ _ => answer (JObj [("success", JBool false);
                              ("error", JStr "Task not found: 42")])
  end.

(** A network on which [GET /prompts] of the knowledge-base server
    answers 500 and every other GET answers a document with one tool. *)
Definition prompts_down (tr : list event) (r : request) : reply :=
  match r with
  | GET url =>
      if String.eqb url "http://127.0.0.1:8002/prompts"
      then {| latency := 0;
              outcome := Ok {| raise_for_status :=
                                 Raise (Exn "HTTPStatusError"
                                          (JStr "Server error '500 Internal Server Error'"));
                               json_body := Ok JNull |} |}
      else answer (JObj [("tools", JList [JObj [("name", JStr "search_notes")]]);
                         ("resources", JList [])])
  | POST _ _ => refused
  end.

(** A manager that knows the base URL of the knowledge-base server and
    holds an earlier capability set for it. *)
Definition stale_world (K : ConnectionClass)
           (net : list event -> request -> reply) : World (K := K) :=
  {| self := {| connections := [];
                base_urls := [("knowledge_base", "http://127.0.0.1:8002")];
                capabilities_cache :=
                  [("knowledge_base",
                    capability_set (JList [JObj [("name", JStr "old_tool")]])
                                   (JList []) (JList []))];
                http_client := None; _current_loop_id := None;
                _client_initialized := false |};
     trace := []; clock := 0; running_loop := 1;
     network := net; entropy := fun _ => 0; draws := 0;
     get_config := Ok load_config_servers |}.

(** [RetryConfig(max_attempts=3, base_delay=1.0, max_delay=cap,
    exponential_base=2.0, jitter=False)] *)
Definition retry_policy (cap : Q) : RetryConfig :=
  {| max_attempts := 3; base_delay := 1; max_delay := cap;
     exponential_base := 2; jitter := false |}.

(** [RetryConfig(max_attempts=3, base_delay=1.0, exponential_base=2.0,
    jitter=False)]: [max_delay] keeps its default of 30 seconds. *)
Definition three_attempts_no_jitter : RetryConfig := retry_policy 30.

(** An operation that performs one GET and returns its JSON body. *)
Definition probe {K : ConnectionClass} (url : string) : M (World (K := K)) json :=
  response <- send (GET url) ;;
  lift (raise_for_status response) ;;
  lift (json_body response).

(** A breaker with threshold 3 and timeout 30 s that opened at time 0. *)
Definition opened_at_zero : CircuitBreaker :=
  {| failure_threshold := 3; recovery_timeout := 30;
     expected_exception := fun _ => true;
     failure_count := 3; last_failure_time := Some 0; state := OPEN |}.

Definition boom : exn := Exn "RuntimeError" (JStr "boom").

(** A fresh process in which [get_config()] raises, as it does when
    [GOOGLE_API_KEY] is not set. *)
Definition no_api_key (K : ConnectionClass) : World (K := K) :=
  {| self := HTTPMCPManager_init; trace := []; clock := 0; running_loop := 1;
     network := first_server_down; entropy := fun _ => 0; draws := 0;
     get_config :=
       Raise (Exn "ValueError"
                (JStr "GOOGLE_API_KEY environment variable is required")) |}.

(** A network on which every GET answers a document whose [tools] value
    is a number. *)
Definition tools_is_a_number (tr : list event) (r : request) : reply :=
  match r with
  | GET _ => answer (JObj [("tools", JInt 3)])
  | POST _ _ => refused
  end.

(** A manager of the dataclass of [shared/models.py] that holds a record
    for the knowledge-base server, put there by hand with the keyword
    arguments the class accepts, its base URL and a cached capability
    set. *)
Definition hand_made_record : World (K := models_MCPConnection) :=
  {| self := {| connections :=
                  match Models.__init__ [("name", PStr "knowledge_base");
                                         ("host", PStr "127.0.0.1");
                                         ("port", PInt 8002)] with
                  | Ok c => [("knowledge_base", c : @conn models_MCPConnection)]
                  | Raise _ => []
                  end;
                base_urls := [("knowledge_base", "http://127.0.0.1:8002")];
                capabilities_cache :=
                  [("knowledge_base",
                    capability_set (JList [JObj [("name", JStr "search_notes")]])
                                   (JList []) (JList []))];
                http_client := None; _current_loop_id := None;
                _client_initialized := false |};
     trace := []; clock := 0; running_loop := 1;
     network := first_server_down; entropy := fun _ => 0; draws := 0;
     get_config := Ok load_config_servers |}.

(** An operating system on which the directory cannot be made, as for a
    path without a directory part, whose [dirname] is the empty string. *)
Definition no_directory : os_answers :=
  {| makedirs := Raise (Exn "FileNotFoundError"
                          (JStr "[Errno 2] No such file or directory: ''"));
     dump := Ok tt; replace := Ok tt; temp_exists := false; remove := Ok tt |}.

(** An operating system on which the temporary file is written but cannot
    be moved over the target, and cannot be removed either. *)
Definition stuck_temp_file : os_answers :=
  {| makedirs := Ok tt; dump := Ok tt;
     replace := Raise (Exn "PermissionError" (JStr "[Errno 13] Permission denied"));
     temp_exists := true;
     remove := Raise (Exn "PermissionError" (JStr "[Errno 13] Permission denied")) |}.

(** A calendar that numbers the evaluations of the clock. *)
Definition numbered : Tasks.Calendar :=
  {| Tasks.isoformat := fun n => "t" ++ fmt_int (Z.of_nat n); Tasks.taken := 0 |}.

(** An environment with nothing set; [float] and [int] read the two
    defaults. *)
Definition empty_environ : Environ :=
  {| getenv := fun _ => None;
     float_of := fun _ => Ok (7 # 10);
     int_of := fun _ => Ok 8501%Z |}.

(** A manager of the dataclass of [shared/models.py] that holds, for the
    knowledge-base server, a record made by hand whose [status] field says
    [CONNECTED], the base URL of the server and a cached capability set. *)
Definition connected_by_hand : World (K := models_MCPConnection) :=
  {| self := {| connections :=
                  match Models.__init__ [("name", PStr "knowledge_base");
                                         ("host", PStr "127.0.0.1");
                                         ("port", PInt 8002);
                                         ("status", PEnum "ConnectionStatus" "CONNECTED")] with
                  | Ok c => [("knowledge_base", c : @conn models_MCPConnection)]
                  | Raise _ => []
                  end;
                base_urls := [("knowledge_base", "http://127.0.0.1:8002")];
                capabilities_cache :=
                  [("knowledge_base",
                    capability_set (JList [JObj [("name", JStr "search_notes")]])
                                   (JList []) (JList []))];
                http_client := None; _current_loop_id := None;
                _client_initialized := false |};
     trace := []; clock := 0; running_loop := 1;
     network := application_error; entropy := fun _ => 0; draws := 0;
     get_config := Ok load_config_servers |}.

(** [isinstance(e, ConnectionError)]: the class and its built-in
    subclasses. *)
Definition is_ConnectionError (e : exn) : bool :=
  existsb (String.eqb (exn_class e))
          ["ConnectionError"; "BrokenPipeError"; "ConnectionAbortedError";
           "ConnectionRefusedError"; "ConnectionResetError"].

(** [CircuitBreaker(failure_threshold=3, recovery_timeout=30.0,
    expected_exception=ConnectionError)] after it opened at time 0. *)
Definition picky_opened_at_zero : CircuitBreaker :=
  {| failure_threshold := 3; recovery_timeout := 30;
     expected_exception := is_ConnectionError;
     failure_count := 3; last_failure_time := Some 0; state := OPEN |}.

(** An operation that performs one GET and then raises a plain
    [Exception] with the message of the breaker. *)
Definition impostor {K : ConnectionClass} (url : string) : M (World (K := K)) json :=
  try_except (probe url) (fun _ => ret JNull) ;;
  raise (Exn "Exception" (JStr "Circuit breaker is OPEN")).

(** An operation that performs one GET and then raises a [RuntimeError]. *)
Definition crash {K : ConnectionClass} (url : string) : M (World (K := K)) json :=
  try_except (probe url) (fun _ => ret JNull) ;;
  raise boom.

(** A text of [n] letters [a] with a space after the first [k] of them. *)
Definition spaced (k n : nat) : ustr :=
  (repeat 97%N k ++ 32%N :: repeat 97%N (n - k - 1))%list.

(** A manager of the dataclass of [shared/models.py] that knows the base
    URLs of both servers and holds a cached set for both, and a record, made
    by hand, for the knowledge-base server only. *)
Definition one_record_two_servers : World (K := models_MCPConnection) :=
  {| self := {| connections := connections (self connected_by_hand);
                base_urls := [("personal_assistant", "http://127.0.0.1:8001");
                              ("knowledge_base", "http://127.0.0.1:8002")];
                capabilities_cache :=
                  [("personal_assistant",
                    capability_set (JList [JObj [("name", JStr "add_task")]])
                                   (JList []) (JList []));
                   ("knowledge_base",
                    capability_set (JList [JObj [("name", JStr "search_notes")]])
                                   (JList []) (JList []))];
                http_client := Some false; _current_loop_id := Some 1%nat;
                _client_initialized := true |};
     trace := []; clock := 0; running_loop := 1;
     network := first_server_down; entropy := fun _ => 0; draws := 0;
     get_config := Ok load_config_servers |}.

(** * Properties *)

Unset Implicit Arguments.

(** ** Dictionaries *)

Lemma dict_get_set_eq {V} (k : string) (v : V) (d : dict V) :
  dict_get k (dict_set k v d) = Some v.
Proof.
  induction d as [|[k' v'] d IH]; simpl.
  - now rewrite String.eqb_refl.
  - destruct (String.eqb k k') eqn:E; simpl.
    + now rewrite String.eqb_refl.
    + now rewrite E.
Qed.

Lemma dict_get_set_ne {V} (k k0 : string) (v : V) (d : dict V) :
  k0 <> k -> dict_get k0 (dict_set k v d) = dict_get k0 d.
Proof.
  intros Hne. induction d as [|[k' v'] d IH]; simpl.
  - destruct (String.eqb_spec k0 k); [contradiction | reflexivity].
  - destruct (String.eqb_spec k k') as [->|Hkk']; simpl.
    + destruct (String.eqb_spec k0 k'); [contradiction | reflexivity].
    + destruct (String.eqb k0 k'); [reflexivity | exact IH].
Qed.

Lemma dict_get_del_eq {V} (k : string) (d : dict V) :
  dict_get k (dict_del k d) = None.
Proof.
  induction d as [|[k' v'] d IH]; simpl; [reflexivity|].
  destruct (String.eqb k k') eqn:E; simpl; [exact IH|].
  now rewrite E.
Qed.

Lemma dict_get_del_ne {V} (k k0 : string) (d : dict V) :
  k0 <> k -> dict_get k0 (dict_del k d) = dict_get k0 d.
Proof.
  intros Hne. induction d as [|[k' v'] d IH]; simpl; [reflexivity|].
  destruct (String.eqb_spec k k') as [->|Hkk']; simpl.
  - destruct (String.eqb_spec k0 k'); [contradiction | exact IH].
  - destruct (String.eqb k0 k'); [reflexivity | exact IH].
Qed.

Lemma dict_mem_keys {V} (k : string) (d : dict V) :
  dict_mem k d = true <-> In k (dict_keys d).
Proof.
  unfold dict_mem, dict_keys.
  induction d as [|[k' v'] d IH]; simpl.
  - split; [discriminate | tauto].
  - destruct (String.eqb_spec k k') as [->|Hne].
    + split; auto.
    + rewrite IH. split; [auto | intros [H|H]; [congruence | exact H]].
Qed.


(** ** The retry decorator *)

Lemma Qmin_left (x y : Q) : x <= y -> Qmin x y = x.
Proof.
  intros Hle. unfold Qmin, GenericMinMax.gmin.
  destruct (x ?= y)%Q eqn:E; try reflexivity.
  exfalso. apply Qgt_alt in E. exact (Qlt_not_le _ _ E Hle).
Qed.

Section RetryFacts.
Context {S : Type} {RT : Runtime S} {A : Type}.
Variable func : M S A.
Variable cap : Q.
Hypothesis cap_large : 2 <= cap.

Lemma backoff_delay_first : backoff_delay (retry_policy cap) 0 = 1.
Proof.
  unfold backoff_delay. cbn [base_delay exponential_base max_delay retry_policy].
  change (1 * 2 ^ 0) with 1. apply Qmin_left.
  apply Qle_trans with (y := 2); [discriminate | exact cap_large].
Qed.

Lemma backoff_delay_second : backoff_delay (retry_policy cap) 1 = 2.
Proof.
  unfold backoff_delay. cbn [base_delay exponential_base max_delay retry_policy].
  change (1 * 2 ^ 1) with 2. apply Qmin_left. exact cap_large.
Qed.

Lemma retry_unfolded (s0 : S) :
  retry_with_exponential_backoff (retry_policy cap) func s0 =
  match func s0 with
  | (Ok v, s1) => (Ok v, s1)
  | (Raise e1, s1) =>
      match func (pause 0 e1 1 s1) with
      | (Ok v, s2) => (Ok v, s2)
      | (Raise e2, s2) =>
          match func (pause 1 e2 2 s2) with
          | (Ok v, s3) => (Ok v, s3)
          | (Raise e3, s3) => (Raise e3, s3)
          end
      end
  end.
Proof.
  unfold retry_with_exponential_backoff.
  change (Z.to_nat (max_attempts (retry_policy cap))) with 3%nat.
  cbn [retry_loop].
  destruct (func s0) as [[v|e1] s1]; [reflexivity|].
  change (0 =? max_attempts (retry_policy cap) - 1)%Z with false.
  change (jitter (retry_policy cap)) with false. cbv iota.
  rewrite backoff_delay_first. fold (pause 0 e1 1 s1).
  destruct (func (pause 0 e1 1 s1)) as [[v|e2] s2]; [reflexivity|].
  change (0 + 1 =? max_attempts (retry_policy cap) - 1)%Z with false.
  change (jitter (retry_policy cap)) with false. cbv iota.
  change (0 + 1)%Z with 1%Z.
  rewrite backoff_delay_second. fold (pause 1 e2 2 s2).
  destruct (func (pause 1 e2 2 s2)) as [[v|e3] s3]; reflexivity.
Qed.
End RetryFacts.

(** C2. With [max_attempts=3, base_delay=1.0, exponential_base=2.0,
    jitter=False] and a [max_delay] of at least 2 seconds (the default is
    30): an attempt that succeeds returns its result at once, with no
    further attempt; when all three attempts fail, exactly two pauses
    separate them, a sleep of 1.0 then a sleep of 2.0, and the exception of
    the third attempt is raised as it is. *)
Theorem retry_three_attempts_two_sleeps :
  forall (S A : Type) (RT : Runtime S) (func : M S A) (cap : Q) (s0 : S),
    2 <= cap ->
    let run := retry_with_exponential_backoff (retry_policy cap) func in
    (forall v s1, func s0 = (Ok v, s1) -> run s0 = (Ok v, s1)) /\
    (forall e1 s1 v s2,
        func s0 = (Raise e1, s1) ->
        func (pause 0 e1 1 s1) = (Ok v, s2) ->
        run s0 = (Ok v, s2)) /\
    (forall e1 s1 e2 s2 v s3,
        func s0 = (Raise e1, s1) ->
        func (pause 0 e1 1 s1) = (Raise e2, s2) ->
        func (pause 1 e2 2 s2) = (Ok v, s3) ->
        run s0 = (Ok v, s3)) /\
    (forall e1 s1 e2 s2 e3 s3,
        func s0 = (Raise e1, s1) ->
        func (pause 0 e1 1 s1) = (Raise e2, s2) ->
        func (pause 1 e2 2 s2) = (Raise e3, s3) ->
        run s0 = (Raise e3, s3)).
Proof.
  intros S A RT func cap s0 Hcap run. unfold run.
  repeat split; intros; rewrite (retry_unfolded func cap Hcap);
    repeat match goal with H : func _ = _ |- _ => rewrite H; clear H end;
    reflexivity.
Qed.

(** On a network that refuses every request the probe is attempted three
    times, with sleeps of 1 and 2 seconds in between and nothing else, and
    the refusal of the last attempt comes out. *)
Lemma retry_three_attempts_two_sleeps_witness :
  let w0 := fresh_world models_MCPConnection dead_network in
  let func := probe "http://127.0.0.1:8001/health" in
  let e := Exn "ConnectError" (JStr "All connection attempts failed") in
  let w1 := snd (func w0) in
  let w2 := snd (func (pause 0 e 1 w1)) in
  let w3 := snd (func (pause 1 e 2 w2)) in
  retry_with_exponential_backoff three_attempts_no_jitter func w0 = (Raise e, w3) /\
  filter (fun e => match e with EvLog _ _ => false | _ => true end) (trace w3) =
  [EvRequest (GET "http://127.0.0.1:8001/health"); EvSleep 1;
   EvRequest (GET "http://127.0.0.1:8001/health"); EvSleep 2;
   EvRequest (GET "http://127.0.0.1:8001/health")].
Proof.
  intros w0 func e w1 w2 w3. split.
  - assert (Hcap : 2 <= 30) by discriminate.
    apply (proj2 (proj2 (proj2 (retry_three_attempts_two_sleeps
                                  _ _ _ func 30 w0 Hcap)))
             e w1 e w2 e w3); vm_compute; reflexivity.
  - vm_compute; reflexivity.
Defined.

(** ** The circuit breaker *)

Section BreakerFacts.
Context {S : Type} {RT : Runtime S} {A : Type}.
Variable func : M S A.

Lemma breaker_rejects (b : CircuitBreaker) (s : S) (t : Q) :
  state b = OPEN -> last_failure_time b = Some t ->
  time_time s - t < recovery_timeout b ->
  breaker_call func (b, s) = (Raise CircuitOpenError, (b, s)).
Proof.
  intros Hst Ht Hlt. unfold breaker_call, _should_attempt_reset.
  rewrite Hst, Ht.
  destruct (Qle_bool (recovery_timeout b) (time_time s - t)) eqn:E.
  - apply Qle_bool_iff in E. exfalso. exact (Qlt_not_le _ _ Hlt E).
  - reflexivity.
Qed.

Lemma breaker_trial_call (b : CircuitBreaker) (s : S) (t : Q) :
  state b = OPEN -> last_failure_time b = Some t ->
  recovery_timeout b <= time_time s - t ->
  breaker_call func (b, s) =
  match func s with
  | (Ok v, s1) => (Ok v, (_on_success (set_state HALF_OPEN b), s1))
  | (Raise e, s1) =>
      if expected_exception b e
      then (Raise e, (_on_failure (set_state HALF_OPEN b) s1, s1))
      else (Raise e, (set_state HALF_OPEN b, s1))
  end.
Proof.
  intros Hst Ht Hle. unfold breaker_call, _should_attempt_reset.
  rewrite Hst, Ht.
  apply Qle_bool_iff in Hle. rewrite Hle. reflexivity.
Qed.

Lemma breaker_passes (b : CircuitBreaker) (s : S) :
  state b <> OPEN ->
  breaker_call func (b, s) =
  match func s with
  | (Ok v, s1) => (Ok v, (_on_success b, s1))
  | (Raise e, s1) =>
      if expected_exception b e
      then (Raise e, (_on_failure b s1, s1))
      else (Raise e, (b, s1))
  end.
Proof.
  intros Hst. unfold breaker_call.
  destruct (state b); [reflexivity | contradiction | reflexivity].
Qed.

Lemma on_success_inv (b : CircuitBreaker) : breaker_inv (_on_success b).
Proof. intros H. now simpl in H. Qed.

Lemma on_failure_inv (b : CircuitBreaker) (s : S) :
  (state b <> CLOSED -> (failure_threshold b <= failure_count b)%Z) ->
  breaker_inv (_on_failure b s).
Proof.
  intros Hb Hst. simpl in *. split; [|discriminate].
  destruct (failure_threshold b <=? failure_count b + 1)%Z eqn:E.
  - now apply Z.leb_le.
  - specialize (Hb Hst). lia.
Qed.

(** The settings of a breaker never change, and the invariant is kept by
    every call. *)
Lemma breaker_call_inv (b b' : CircuitBreaker) (s s' : S) (r : result A) :
  catches_all b -> breaker_inv b ->
  breaker_call func (b, s) = (r, (b', s')) ->
  catches_all b' /\ breaker_inv b' /\
  failure_threshold b' = failure_threshold b /\
  recovery_timeout b' = recovery_timeout b.
Proof.
  intros Hall Hinv. unfold breaker_call.
  assert (Hb : state b <> CLOSED -> (failure_threshold b <= failure_count b)%Z)
    by (intros H; apply Hinv; exact H).
  assert (Hsame : forall r0 s0,
             (r0, (b, s0)) = (r, (b', s')) ->
             catches_all b' /\ breaker_inv b' /\
             failure_threshold b' = failure_threshold b /\
             recovery_timeout b' = recovery_timeout b).
  { intros r0 s0 [= <- <- <-]. auto. }
  assert (Hrun : forall b1,
             expected_exception b1 = expected_exception b ->
             failure_threshold b1 = failure_threshold b ->
             recovery_timeout b1 = recovery_timeout b ->
             (state b1 <> CLOSED -> (failure_threshold b1 <= failure_count b1)%Z) ->
             match func s with
             | (Ok v, s1) => (Ok v, (_on_success b1, s1))
             | (Raise e, s1) =>
                 if expected_exception b1 e
                 then (Raise e, (_on_failure b1 s1, s1))
                 else (Raise e, (b1, s1))
             end = (r, (b', s')) ->
             catches_all b' /\ breaker_inv b' /\
             failure_threshold b' = failure_threshold b /\
             recovery_timeout b' = recovery_timeout b).
  { intros b1 He Ht Hr Hc. destruct (func s) as [[v|e] s1].
    - intros [= <- <- <-]. split; [|split; [apply on_success_inv|split; assumption]].
      intros e. simpl. rewrite He. apply Hall.
    - rewrite He, Hall. intros [= <- <- <-].
      split; [|split; [apply on_failure_inv; exact Hc|split; assumption]].
      intros e0. simpl. rewrite He. apply Hall. }
  destruct (state b) eqn:Hst.
  - apply Hrun; auto.
  - destruct (_should_attempt_reset b s).
    + apply Hrun; auto. intros _. simpl. apply Hb. discriminate.
    + apply Hsame.
  - apply Hrun; auto. intros _. apply Hb. discriminate.
Qed.
End BreakerFacts.

(** C3, as the code has it.  A breaker with [failure_threshold=3], called
    one call at a time.
    - Three consecutive failures that the breaker counts (exceptions that
      are instances of its [expected_exception]), from a closed breaker with
      no failure counted, leave it open; it is the third that opens it.
    - While it is open and less than [recovery_timeout] has passed since the
      last counted failure, a call raises a plain [Exception] with the
      message "Circuit breaker is OPEN"; breaker and state are what they
      were, whatever the wrapped function is, so it has not run.
    - Once the timeout has passed, the next call sets the state to
      half-open and runs the wrapped function as the trial.  A trial that
      returns closes the breaker with the count back at 0.  A trial that
      fails with a counted exception opens the breaker again and records the
      time, so that the following calls are rejected until the timeout has
      passed anew.  A trial that ends with an exception the breaker does not
      count leaves it half-open, and a half-open breaker lets every call
      through, whatever the time. *)
Theorem breaker_threshold_three :
  forall (S A : Type) (RT : Runtime S) (func : M S A) (b : CircuitBreaker),
    failure_threshold b = 3%Z ->
    breaker_inv b ->
    (state b = CLOSED -> failure_count b = 0%Z ->
     forall s0 e1 s1 s1' e2 s2 s2' e3 s3,
       func s0 = (Raise e1, s1) ->
       func s1' = (Raise e2, s2) ->
       func s2' = (Raise e3, s3) ->
       expected_exception b e1 = true ->
       expected_exception b e2 = true ->
       expected_exception b e3 = true ->
       let b1 := _on_failure b s1 in
       let b2 := _on_failure b1 s2 in
       let b3 := _on_failure b2 s3 in
       breaker_call func (b, s0) = (Raise e1, (b1, s1)) /\
       breaker_call func (b1, s1') = (Raise e2, (b2, s2)) /\
       breaker_call func (b2, s2') = (Raise e3, (b3, s3)) /\
       state b1 = CLOSED /\ state b2 = CLOSED /\ state b3 = OPEN /\
       failure_count b3 = 3%Z /\
       last_failure_time b3 = Some (time_time s3)) /\
    (forall s t,
       state b = OPEN -> last_failure_time b = Some t ->
       time_time s - t < recovery_timeout b ->
       breaker_call func (b, s)
       = (Raise (Exn "Exception" (JStr "Circuit breaker is OPEN")), (b, s))) /\
    (forall s t,
       state b = OPEN -> last_failure_time b = Some t ->
       recovery_timeout b <= time_time s - t ->
       let half := set_state HALF_OPEN b in
       (forall v s1,
          func s = (Ok v, s1) ->
          breaker_call func (b, s) = (Ok v, (_on_success half, s1)) /\
          state (_on_success half) = CLOSED /\
          failure_count (_on_success half) = 0%Z) /\
       (forall e s1,
          func s = (Raise e, s1) ->
          expected_exception b e = true ->
          let b' := _on_failure half s1 in
          breaker_call func (b, s) = (Raise e, (b', s1)) /\
          state b' = OPEN /\
          last_failure_time b' = Some (time_time s1) /\
          forall s',
            time_time s' - time_time s1 < recovery_timeout b ->
            breaker_call func (b', s')
            = (Raise (Exn "Exception" (JStr "Circuit breaker is OPEN")), (b', s'))) /\
       (forall e s1,
          func s = (Raise e, s1) ->
          expected_exception b e = false ->
          breaker_call func (b, s) = (Raise e, (half, s1)) /\
          state half = HALF_OPEN /\
          forall s',
            breaker_call func (half, s') =
            match func s' with
            | (Ok v, s2) => (Ok v, (_on_success half, s2))
            | (Raise e', s2) =>
                if expected_exception b e'
                then (Raise e', (_on_failure half s2, s2))
                else (Raise e', (half, s2))
            end)).
Proof.
  intros S A RT func b Hthr Hinv. split; [|split].
  - intros Hst Hcnt s0 e1 s1 s1' e2 s2 s2' e3 s3 H1 H2 H3 X1 X2 X3 b1 b2 b3.
    assert (St1 : state b1 = CLOSED)
      by (unfold b1; simpl; rewrite Hthr, Hcnt, Hst; reflexivity).
    assert (St2 : state b2 = CLOSED)
      by (unfold b2, b1; simpl; rewrite Hthr, Hcnt, Hst; reflexivity).
    split; [rewrite breaker_passes by congruence; now rewrite H1, X1|].
    split.
    { rewrite breaker_passes by congruence. rewrite H2.
      change (expected_exception b1 e2) with (expected_exception b e2).
      now rewrite X2. }
    split.
    { rewrite breaker_passes by congruence. rewrite H3.
      change (expected_exception b2 e3) with (expected_exception b e3).
      now rewrite X3. }
    split; [exact St1|]. split; [exact St2|].
    unfold b3, b2, b1. simpl. rewrite Hthr, Hcnt. repeat split.
  - intros s t Hst Ht Hlt. now apply breaker_rejects with (t := t).
  - intros s t Hst Ht Hle half.
    destruct (Hinv ltac:(congruence)) as [Hge _].
    split; [|split].
    + intros v s1 Hf.
      rewrite (breaker_trial_call func b s t Hst Ht Hle), Hf. auto.
    + intros e s1 Hf He b'.
      rewrite (breaker_trial_call func b s t Hst Ht Hle), Hf, He.
      assert (Hopen : state b' = OPEN).
      { unfold b', half. simpl.
        destruct (failure_threshold b <=? failure_count b + 1)%Z eqn:E;
          [reflexivity | apply Z.leb_gt in E; lia]. }
      split; [reflexivity|]. split; [exact Hopen|]. split; [reflexivity|].
      intros s' Hlt.
      apply breaker_rejects with (t := time_time s1); auto.
    + intros e s1 Hf He.
      rewrite (breaker_trial_call func b s t Hst Ht Hle), Hf, He.
      split; [reflexivity|]. split; [reflexivity|].
      intros s'. rewrite breaker_passes by (unfold half; simpl; discriminate).
      reflexivity.
Qed.

(** The breaker of a decorator with threshold 3 and a timeout of 30 s, on
    a network that refuses every request.  Three failed probes from the new
    breaker open it.  A breaker that opened at time 0 turns a probe away at
    time 10, and nothing is sent; at time 40 the probe is sent as the
    trial, fails and the breaker is open again, so that a probe at time 50
    is turned away.  A breaker that counts only [ConnectionError] stays
    half-open when the trial raises a [RuntimeError]. *)
Lemma breaker_threshold_three_witness :
  let w := fresh_world models_MCPConnection dead_network in
  let func := probe "http://127.0.0.1:8001/health" in
  let new := CircuitBreaker_init 3 30 in
  let s1 := snd (breaker_call func (new, w)) in
  let s2 := snd (breaker_call func s1) in
  let s3 := snd (breaker_call func s2) in
  let trial := breaker_call func (opened_at_zero, with_clock 40 w) in
  let picky := breaker_call (crash "http://127.0.0.1:8001/health")
                            (picky_opened_at_zero, with_clock 40 w) in
  (failure_threshold new = 3%Z /\ breaker_inv new /\
   state (fst s1) = CLOSED /\ state (fst s2) = CLOSED /\ state (fst s3) = OPEN) /\
  (failure_threshold opened_at_zero = 3%Z /\ breaker_inv opened_at_zero /\
   breaker_call func (opened_at_zero, with_clock 10 w)
   = (Raise CircuitOpenError, (opened_at_zero, with_clock 10 w)) /\
   state (fst (snd trial)) = OPEN /\
   requests (trace (snd (snd trial))) = [EvRequest (GET "http://127.0.0.1:8001/health")] /\
   breaker_call func (fst (snd trial), with_clock 50 w)
   = (Raise CircuitOpenError, (fst (snd trial), with_clock 50 w))) /\
  (failure_threshold picky_opened_at_zero = 3%Z /\ breaker_inv picky_opened_at_zero /\
   fst picky = Raise boom /\ state (fst (snd picky)) = HALF_OPEN).
Proof.
  intros w func new s1 s2 s3 trial picky.
  assert (Inew : breaker_inv new) by (intros H; now elim H).
  assert (Iopen : breaker_inv opened_at_zero)
    by (intros _; split; [vm_compute; discriminate | discriminate]).
  assert (Ipicky : breaker_inv picky_opened_at_zero)
    by (intros _; split; [vm_compute; discriminate | discriminate]).
  pose (e := Exn "ConnectError" (JStr "All connection attempts failed")).
  split; [|split].
  - split; [reflexivity|]. split; [exact Inew|].
    destruct (proj1 (@breaker_threshold_three (World (K := models_MCPConnection)) json World_Runtime func new eq_refl Inew)
                    eq_refl eq_refl
                    w e (snd s1) (snd s1) e (snd s2) (snd s2) e (snd s3))
      as (H1 & H2 & H3 & C1 & C2 & C3 & _);
      try (vm_compute; reflexivity).
    unfold s1 at 1. rewrite H1. cbn [fst snd].
    split; [exact C1|].
    assert (E1 : s1 = (_on_failure new (snd s1), snd s1))
      by (unfold s1 at 1; rewrite H1; reflexivity).
    unfold s2 at 1. rewrite E1, H2. cbn [fst snd].
    split; [exact C2|].
    assert (E2 : s2 = (_on_failure (_on_failure new (snd s1)) (snd s2), snd s2))
      by (unfold s2 at 1; rewrite E1, H2; reflexivity).
    unfold s3 at 1. rewrite E2, H3. exact C3.
  - split; [reflexivity|]. split; [exact Iopen|].
    destruct (@breaker_threshold_three (World (K := models_MCPConnection)) json World_Runtime func opened_at_zero eq_refl Iopen)
      as (_ & Hrej & Htrial).
    split; [apply (Hrej (with_clock 10 w) 0%Q eq_refl eq_refl); vm_compute; reflexivity|].
    destruct (Htrial (with_clock 40 w) 0%Q eq_refl eq_refl
                     ltac:(vm_compute; discriminate))
      as (_ & Hfail & _).
    destruct (Hfail e (snd (func (with_clock 40 w))) ltac:(vm_compute; reflexivity)
                    eq_refl) as (Hrun & Hopen & _ & Hnext).
    unfold trial. rewrite Hrun. cbn [fst snd].
    split; [exact Hopen|]. split; [vm_compute; reflexivity|].
    apply Hnext. vm_compute. reflexivity.
  - split; [reflexivity|]. split; [exact Ipicky|].
    destruct (@breaker_threshold_three (World (K := models_MCPConnection)) json World_Runtime
                (crash "http://127.0.0.1:8001/health")
                picky_opened_at_zero eq_refl Ipicky)
      as (_ & _ & Htrial).
    destruct (Htrial (with_clock 40 w) 0%Q eq_refl eq_refl
                     ltac:(vm_compute; discriminate))
      as (_ & _ & Hskip).
    destruct (Hskip boom (snd (crash "http://127.0.0.1:8001/health" (with_clock 40 w)))
                    ltac:(vm_compute; reflexivity) eq_refl) as (Hrun & Hhalf & _).
    unfold picky. rewrite Hrun. cbn [fst snd]. split; [reflexivity|exact Hhalf].
Defined.

(** C3 as stated fails in two places.  The error of an open breaker is no
    class of its own: it is a plain [Exception], and a wrapped operation
    that raises the same exception, here after it has sent its request
    through a closed breaker, gives the caller the same result.  And not
    exactly one trial is allowed: a breaker that counts only
    [ConnectionError] and whose trial ended with a [RuntimeError] is
    half-open, and a second call, made at once, runs the operation
    again. *)
Lemma breaker_error_not_distinct_counterexample :
  let w := fresh_world models_MCPConnection dead_network in
  let url := "http://127.0.0.1:8001/health" in
  let rejected := breaker_call (impostor url) (opened_at_zero, with_clock 10 w) in
  let ran := breaker_call (impostor url) (CircuitBreaker_init 3 30, with_clock 10 w) in
  let trial := breaker_call (crash url) (picky_opened_at_zero, with_clock 40 w) in
  let again := breaker_call (crash url) (snd trial) in
  (exn_class CircuitOpenError = "Exception" /\
   fst rejected = Raise CircuitOpenError /\
   requests (trace (snd (snd rejected))) = [] /\
   fst ran = fst rejected /\
   requests (trace (snd (snd ran))) = [EvRequest (GET url)]) /\
  (state (fst (snd trial)) = HALF_OPEN /\
   requests (trace (snd (snd trial))) = [EvRequest (GET url)] /\
   clock (snd (snd trial)) == 40 /\
   fst again = Raise boom /\
   requests (trace (snd (snd again))) = [EvRequest (GET url); EvRequest (GET url)] /\
   state (fst (snd again)) = HALF_OPEN).
Proof.
  vm_compute. repeat split; discriminate.
Qed.

(** ** The manager: small steps *)

Ltac unfold_m :=
  repeat (progress (unfold bind, ret, raise, try_except, lift, gets, modify,
                      when_, logger, on_self, has_connection in *;
                    cbv beta in *)).

Lemma requests_emit (tr : list event) (e : event) :
  requests (tr ++ [e]) = (requests tr ++ if is_request e then [e] else [])%list.
Proof.
  unfold requests. rewrite filter_app. simpl. now destruct (is_request e).
Qed.

Lemma requests_emit_log (tr : list event) (l : level) (msg : text) :
  requests (tr ++ [EvLog l msg]) = requests tr.
Proof. rewrite requests_emit. simpl. apply app_nil_r. Qed.

Section ManagerSteps.
Context {K : ConnectionClass}.

(** [_ensure_http_client] returns normally, sends nothing and touches
    neither the three tables nor the surroundings. *)
Lemma ensure_http_client_frame (w : World) :
  exists w1,
    _ensure_http_client w = (Ok tt, w1) /\
    connections (self w1) = connections (self w) /\
    base_urls (self w1) = base_urls (self w) /\
    capabilities_cache (self w1) = capabilities_cache (self w) /\
    requests (trace w1) = requests (trace w) /\
    network w1 = network w /\
    clock w1 = clock w /\
    get_config w1 = get_config w.
Proof.
  unfold _ensure_http_client.
  destruct (need_new_client w).
  - unfold_m. destruct (http_client (self w)) as [[|]|]; simpl;
      eexists; (split; [reflexivity|]); simpl;
      repeat rewrite requests_emit; simpl; repeat rewrite app_nil_r; auto 10.
  - exists w. auto 10.
Qed.


Lemma is_server_connected_pure (w w' : World) (server_name : string) (r : result bool) :
  is_server_connected server_name w = (r, w') -> w' = w.
Proof.
  unfold is_server_connected.
  destruct (dict_get server_name (connections (self w))); now intros [= _ <-].
Qed.
End ManagerSteps.

(** ** The record class of shared/models.py *)

Lemma models_init_rejects (a b c d e : pyval) :
  Models.__init__ [("server_name", a); ("transport_type", b);
                   ("connection_status", c); ("host", d); ("port", e)]
  = Raise (Exn "TypeError"
             (JStr "MCPConnection.__init__() got an unexpected keyword argument 'server_name'")).
Proof. reflexivity. Qed.

Lemma models_no_method {A} (c : Models.MCPConnection) (m : string) :
  exists e, @Models.call_method A c m = Raise e.
Proof.
  unfold Models.call_method. destruct (Models.getattr c m); eexists; reflexivity.
Qed.

(** With the dataclass of [shared/models.py], [connect_server] raises
    and leaves the manager and the request log as they were. *)
Lemma connect_server_models_raises
      (w : World (K := models_MCPConnection))
      (server_name : string) (server_config : ServerConfig) :
  exists e w',
    connect_server server_name server_config w = (Raise e, w') /\
    self w' = self w /\
    requests (trace w') = requests (trace w) /\
    get_config w' = get_config w /\
    match get_connection_status server_name w with
    | None =>
        e = Exn "TypeError"
              (JStr "MCPConnection.__init__() got an unexpected keyword argument 'server_name'")
    | Some _ => True
    end.
Proof.
  unfold connect_server, get_connection_status. unfold_m.
  cbn [conn_new models_MCPConnection]. rewrite models_init_rejects.
  unfold dict_mem.
  destruct (dict_get server_name (connections (self w))) as [c|] eqn:Hc.
  - unfold connection_update_status. rewrite Hc.
    cbn [conn_update_status models_MCPConnection].
    destruct (@models_no_method Models.MCPConnection c "update_status") as [e He].
    rewrite He. exists e, w. auto.
  - simpl. eexists. eexists. split; [reflexivity|]. simpl.
    rewrite requests_emit_log. auto.
Qed.

Lemma connect_each_models_no_record
      (servers : dict ServerConfig) (w : World (K := models_MCPConnection)) :
  exists w',
    connect_each servers w = (Ok tt, w') /\
    self w' = self w /\
    requests (trace w') = requests (trace w).
Proof.
  revert w. induction servers as [|[server_name server_config] rest IH]; intros w.
  - exists w. auto.
  - destruct (connect_server_models_raises w server_name server_config)
      as (e & w1 & Hrun & Hself & Hreq & _).
    cbn [connect_each]. unfold_m. rewrite Hrun.
    destruct (IH (emit (EvLog LError
                          ([Lit "Failed to connect to server "; Lit server_name;
                            Lit ": "] ++ str_exn e)%list) w1))
      as (w' & Hrest & Hself' & Hreq').
    exists w'. split; [exact Hrest|]. split.
    + rewrite Hself'. exact Hself.
    + rewrite Hreq'. simpl. rewrite requests_emit_log. exact Hreq.
Qed.

(** With the dataclass of [shared/models.py], whatever the configured
    servers and the network, [initialize] returns normally, sends no
    request, and the [connections] map is what it was: a fresh manager has a
    record for no server. *)
Lemma initialize_models_no_record
      (w : World (K := models_MCPConnection)) (servers : dict ServerConfig) :
  get_config w = Ok servers ->
  exists w',
    initialize w = (Ok tt, w') /\
    connections (self w') = connections (self w) /\
    requests (trace w') = requests (trace w).
Proof.
  intros Hcfg. unfold initialize.
  destruct (ensure_http_client_frame w)
    as (w1 & Hrun & Hconn & _ & _ & Hreq & _ & _ & Hcfg1).
  unfold bind at 1. rewrite Hrun. unfold bind. rewrite Hcfg1, Hcfg.
  destruct (connect_each_models_no_record servers w1) as (w' & Hall & Hself & Hreq').
  exists w'. split; [exact Hall|]. split.
  - now rewrite Hself.
  - now rewrite Hreq'.
Qed.

(** C9. The dataclass of [shared/models.py] has the eight fields [name],
    [host], [port], [status], [error_message], [tools], [resources],
    [prompts] and no member called [update_status], [is_connected] or
    [last_ping]; its constructor rejects the keyword arguments that
    [connect_server] passes, so every [connect_server] call raises, sends no
    request and leaves the manager, its [connections] map included, as it
    was; with no earlier record for the server the exception is the
    constructor's [TypeError]. *)
Theorem connect_server_fails_at_construction :
  forall (w : World (K := models_MCPConnection))
         (server_name : string) (server_config : ServerConfig),
    Models.fields = ["name"; "host"; "port"; "status"; "error_message";
                     "tools"; "resources"; "prompts"] /\
    Models.mem "update_status" Models.members = false /\
    Models.mem "is_connected" Models.members = false /\
    Models.mem "last_ping" Models.members = false /\
    is_raise (Models.__init__
                [("server_name", PStr server_name);
                 ("transport_type", PStr "http");
                 ("connection_status", PStr "connecting");
                 ("host", opt_str (cfg_host server_config));
                 ("port", opt_int (cfg_port server_config))]) = true /\
    exists e w',
      connect_server server_name server_config w = (Raise e, w') /\
      self w' = self w /\
      requests (trace w') = requests (trace w) /\
      match get_connection_status server_name w with
      | None =>
          e = Exn "TypeError"
                (JStr "MCPConnection.__init__() got an unexpected keyword argument 'server_name'")
      | Some _ => True
      end.
Proof.
  intros w server_name server_config.
  repeat (split; [reflexivity|]).
  destruct (connect_server_models_raises w server_name server_config)
    as (e & w' & H1 & H2 & H3 & _ & H4).
  exists e, w'. auto.
Qed.

(** C1, evaluated on the code.  The manager is fresh, [get_config()]
    returns the two servers of [load_config], the network is arbitrary.
    [initialize] returns normally and has logged a failed connect for both
    servers, so the failure of the first did not stop the second; but no
    request was sent and neither server has a connection record, hence no
    status at all. *)
Theorem initialize_leaves_no_connection_record :
  forall net : list event -> request -> reply,
    let w' := snd (initialize (fresh_world models_MCPConnection net)) in
    let failed (server_name : string) :=
      EvLog LError
        [Lit "Failed to connect to server "; Lit server_name; Lit ": ";
         StrOf (JStr "MCPConnection.__init__() got an unexpected keyword argument 'server_name'")] in
    fst (initialize (fresh_world models_MCPConnection net)) = Ok tt /\
    connections (self w') = [] /\
    get_connection_status "personal_assistant" w' = None /\
    get_connection_status "knowledge_base" w' = None /\
    requests (trace w') = [] /\
    In (failed "personal_assistant") (trace w') /\
    In (failed "knowledge_base") (trace w').
Proof.
  intros net. cbv zeta. vm_compute. repeat split; auto 10.
Qed.

(** ** Retrying keeps what every attempt keeps *)

Section RetryInvariant.
Context {S : Type} {RT : Runtime S} {A : Type}.
Variable config : RetryConfig.
Variable func : M S A.
Variable P : S -> Prop.
Hypothesis func_keeps : forall s, P s -> P (snd (func s)).
Hypothesis sleep_keeps : forall s d, P s -> P (asyncio_sleep d s).
Hypothesis warning_keeps : forall s m, P s -> P (logging_warning m s).
Hypothesis random_keeps : forall s, P s -> P (snd (random_random s)).

Lemma retry_loop_keeps (todo : nat) :
  forall attempt last s, P s -> P (snd (retry_loop config func todo attempt last s)).
Proof.
  induction todo as [|todo IH]; intros attempt last s Hs.
  - simpl. destruct last; exact Hs.
  - simpl. specialize (func_keeps s Hs).
    destruct (func s) as [[v|e] s1]; simpl in func_keeps; [exact func_keeps|].
    destruct (attempt =? max_attempts config - 1)%Z; [exact func_keeps|].
    destruct (jitter config).
    + specialize (random_keeps s1 func_keeps).
      destruct (random_random s1) as [r s2]. simpl in random_keeps.
      apply IH. apply sleep_keeps, warning_keeps, random_keeps.
    + apply IH. apply sleep_keeps, warning_keeps, func_keeps.
Qed.

Lemma retry_loop_raises (todo : nat) :
  (forall s, P s -> is_raise (fst (func s)) = true) ->
  forall attempt last s,
    P s -> is_raise (fst (retry_loop config func todo attempt last s)) = true.
Proof.
  intros Hfail. induction todo as [|todo IH]; intros attempt last s Hs.
  - simpl. destruct last; reflexivity.
  - simpl. specialize (func_keeps s Hs). specialize (Hfail s Hs).
    destruct (func s) as [[v|e] s1]; simpl in *; [discriminate|].
    destruct (attempt =? max_attempts config - 1)%Z; [reflexivity|].
    destruct (jitter config).
    + specialize (random_keeps s1 func_keeps).
      destruct (random_random s1) as [r s2]. simpl in random_keeps.
      apply IH. apply sleep_keeps, warning_keeps, random_keeps.
    + apply IH. apply sleep_keeps, warning_keeps, func_keeps.
Qed.
End RetryInvariant.

(** ** Introspection *)

Section Introspection.
Context {K : ConnectionClass}.

Lemma fetch_list_frame (url key : string) (w : World) :
  self (snd (fetch_list url key w)) = self w /\
  network (snd (fetch_list url key w)) = network w.
Proof.
  unfold fetch_list. unfold_m. unfold send.
  destruct (outcome (network w (trace w) (GET url))) as [resp|e]; simpl; auto.
  destruct (raise_for_status resp); simpl; auto.
  destruct (json_body resp); simpl; auto.
Qed.

Lemma fetch_all_frame (u : string) (w : World) :
  self (snd (fetch_all u w)) = self w /\
  network (snd (fetch_all u w)) = network w.
Proof.
  unfold fetch_all. unfold bind.
  destruct (fetch_list_frame (u ++ "/tools") "tools" w) as [S1 N1].
  destruct (fetch_list (u ++ "/tools") "tools" w) as [[t|e] w2]; simpl in *; auto.
  destruct (fetch_list_frame (u ++ "/resources") "resources" w2) as [S2 N2].
  destruct (fetch_list (u ++ "/resources") "resources" w2) as [[r|e] w3];
    simpl in *; [|split; congruence].
  destruct (fetch_list_frame (u ++ "/prompts") "prompts" w3) as [S3 N3].
  destruct (fetch_list (u ++ "/prompts") "prompts" w3) as [[p|e] w4];
    simpl in *; split; congruence.
Qed.

(** A failure of any of the three calls is a failure of the sequence, and
    conversely. *)
Lemma fetch_all_fails_iff (u : string) (w : World) (e : exn) (w' : World) :
  fetch_all u w = (Raise e, w') <->
  fetch_list (u ++ "/tools") "tools" w = (Raise e, w') \/
  (exists t w2,
      fetch_list (u ++ "/tools") "tools" w = (Ok t, w2) /\
      fetch_list (u ++ "/resources") "resources" w2 = (Raise e, w')) \/
  (exists t w2 r w3,
      fetch_list (u ++ "/tools") "tools" w = (Ok t, w2) /\
      fetch_list (u ++ "/resources") "resources" w2 = (Ok r, w3) /\
      fetch_list (u ++ "/prompts") "prompts" w3 = (Raise e, w')).
Proof.
  unfold fetch_all. unfold bind, ret.
  destruct (fetch_list (u ++ "/tools") "tools" w) as [[t|e1] w2].
  2:{ split; [intros [= -> ->]; left; reflexivity|].
      intros [H|[(t & w2' & H & _)|(t & w2' & r & w3 & H & _)]];
        [injection H as -> ->; reflexivity | discriminate | discriminate]. }
  destruct (fetch_list (u ++ "/resources") "resources" w2) as [[r|e2] w3] eqn:E2.
  2:{ split.
      - intros [= -> ->]. right. left. exists t, w2. split; [reflexivity|exact E2].
      - intros [H|[(t' & w2' & H & H')|(t' & w2' & r & w3' & H & H' & _)]].
        + discriminate.
        + injection H as <- <-. rewrite E2 in H'. injection H' as -> ->.
          reflexivity.
        + injection H as <- <-. rewrite E2 in H'. discriminate. }
  destruct (fetch_list (u ++ "/prompts") "prompts" w3) as [[p|e3] w4] eqn:E3.
  - split; [discriminate|].
    intros [H|[(t' & w2' & H & H')|(t' & w2' & r' & w3' & H & H' & H'')]].
    + discriminate.
    + injection H as <- <-. rewrite E2 in H'. discriminate.
    + injection H as <- <-. rewrite E2 in H'. injection H' as <- <-.
      rewrite E3 in H''. discriminate.
  - split.
    + intros [= -> ->]. right. right. exists t, w2, r, w3.
      split; [reflexivity|]. split; [exact E2|exact E3].
    + intros [H|[(t' & w2' & H & H')|(t' & w2' & r' & w3' & H & H' & H'')]].
      * discriminate.
      * injection H as <- <-. rewrite E2 in H'. discriminate.
      * injection H as <- <-. rewrite E2 in H'. injection H' as <- <-.
        rewrite E3 in H''. injection H'' as -> ->. reflexivity.
Qed.

(** The body of [_introspect_server], seen as: make sure of the client,
    look up the base URL, run the three calls, then either log the failure
    and re-raise, or store the complete set. *)
Lemma introspect_body_unfolded (server_name : string) (w : World) :
  _introspect_server_body server_name w =
  let w1 := snd (_ensure_http_client w) in
  match dict_get server_name (base_urls (self w1)) with
  | None => (Raise (Exn "KeyError" (JStr server_name)), w1)
  | Some u =>
      match fetch_all u w1 with
      | (Raise e, w4) =>
          (Raise e, emit (EvLog LError
                            ([Lit "Failed to introspect server "; Lit server_name;
                              Lit ": "] ++ str_exn e)%list) w4)
      | (Ok (t, r, p), w4) =>
          match store_capabilities server_name (capability_set t r p) w4 with
          | (Ok tt, w5) => (Ok tt, w5)
          | (Raise e, w5) =>
              (Raise e, emit (EvLog LError
                                ([Lit "Failed to introspect server "; Lit server_name;
                                  Lit ": "] ++ str_exn e)%list) w5)
          end
      end
  end.
Proof.
  destruct (ensure_http_client_frame w) as (w1 & Hrun & _).
  unfold _introspect_server_body, base_url_of, try_except.
  unfold bind at 1. rewrite Hrun. cbn [snd].
  unfold bind at 1.
  destruct (dict_get server_name (base_urls (self w1))) as [u|]; [|reflexivity].
  unfold bind at 1.
  destruct (fetch_all u w1) as [[[[t r] p]|e] w4]; [|reflexivity].
  destruct (store_capabilities server_name (capability_set t r p) w4)
    as [[[]|e] w5]; reflexivity.
Qed.

Lemma store_capabilities_frame (server_name : string) (capabilities : json)
      (w : World) :
  let w' := snd (store_capabilities server_name capabilities w) in
  base_urls (self w') = base_urls (self w) /\
  network w' = network w /\
  capabilities_cache (self w') =
    dict_set server_name capabilities (capabilities_cache (self w)) /\
  forall k, k <> server_name ->
            dict_get k (connections (self w')) = dict_get k (connections (self w)).
Proof.
  unfold store_capabilities, connection_assign. unfold_m. simpl.
  unfold dict_mem.
  destruct (dict_get server_name (connections (self w))) as [c|] eqn:Hc; simpl;
    rewrite ?Hc; simpl;
    destruct (count_of "tools" capabilities); simpl;
    try destruct (count_of "resources" capabilities); simpl;
    try destruct (count_of "prompts" capabilities); simpl;
    repeat split; auto; intros k Hk; now apply dict_get_set_ne.
Qed.

(** An introspection of one server changes nothing that belongs to
    another server, and never the base URLs or the network. *)
Lemma introspect_body_frame (server_name : string) (w : World) :
  let w' := snd (_introspect_server_body server_name w) in
  base_urls (self w') = base_urls (self w) /\
  network w' = network w /\
  forall k, k <> server_name ->
    dict_get k (capabilities_cache (self w'))
      = dict_get k (capabilities_cache (self w)) /\
    dict_get k (connections (self w')) = dict_get k (connections (self w)).
Proof.
  rewrite introspect_body_unfolded.
  destruct (ensure_http_client_frame w)
    as (w1 & Hrun & Hconn & Hurl & Hcache & _ & Hnet & _).
  rewrite Hrun. cbn [snd].
  destruct (dict_get server_name (base_urls (self w1))) as [u|].
  2:{ simpl. rewrite Hconn, Hurl, Hcache, Hnet. auto. }
  destruct (fetch_all_frame u w1) as [Hs Hn].
  destruct (fetch_all u w1) as [[[[t r] p]|e] w4]; simpl in Hs, Hn.
  2:{ simpl. rewrite Hs, Hn, Hconn, Hurl, Hcache, Hnet. auto. }
  destruct (store_capabilities_frame server_name (capability_set t r p) w4)
    as (Su & Sn & Sc & Sk).
  assert (Hgoal :
            base_urls (self (snd (store_capabilities server_name
                                    (capability_set t r p) w4)))
              = base_urls (self w) /\
            network (snd (store_capabilities server_name
                            (capability_set t r p) w4)) = network w /\
            forall k, k <> server_name ->
              dict_get k (capabilities_cache
                            (self (snd (store_capabilities server_name
                                          (capability_set t r p) w4))))
                = dict_get k (capabilities_cache (self w)) /\
              dict_get k (connections
                            (self (snd (store_capabilities server_name
                                          (capability_set t r p) w4))))
                = dict_get k (connections (self w))).
  { rewrite Su, Sn, Sc, Hs, Hn, Hurl, Hnet, Hcache. repeat split; auto.
    - now apply dict_get_set_ne.
    - rewrite Sk by assumption. now rewrite Hs, Hconn. }
  destruct (store_capabilities server_name (capability_set t r p) w4)
    as [[[]|e] w5]; simpl in *; exact Hgoal.
Qed.

(** When one of the three calls fails, the introspection raises that
    failure and neither the cache nor the records have changed. *)
Lemma introspect_body_failed_fetch (server_name u : string) (w : World)
      (e : exn) (w4 : World) :
  dict_get server_name (base_urls (self w)) = Some u ->
  fetch_all u (snd (_ensure_http_client w)) = (Raise e, w4) ->
  exists w',
    _introspect_server_body server_name w = (Raise e, w') /\
    capabilities_cache (self w') = capabilities_cache (self w) /\
    connections (self w') = connections (self w) /\
    base_urls (self w') = base_urls (self w) /\
    network w' = network w.
Proof.
  intros Hu Hf. rewrite introspect_body_unfolded.
  destruct (ensure_http_client_frame w)
    as (w1 & Hrun & Hconn & Hurl & Hcache & _ & Hnet & _).
  rewrite Hrun in *. cbn [snd] in *. rewrite Hurl, Hu.
  destruct (fetch_all_frame u w1) as [Hs Hn]. rewrite Hf in *. cbn [snd] in *.
  eexists. split; [reflexivity|]. simpl. rewrite Hs, Hn. auto.
Qed.

(** With [GET /prompts] failing whatever has happened before, every
    attempt of the decorated [_introspect_server] fails, and the three
    attempts together leave cache and records as they were. *)
Lemma introspect_prompts_down (server_name u : string) (w : World) :
  dict_get server_name (base_urls (self w)) = Some u ->
  (forall w0, network w0 = network w ->
              is_raise (fst (fetch_list (u ++ "/prompts") "prompts" w0)) = true) ->
  is_raise (fst (_introspect_server server_name w)) = true /\
  capabilities_cache (self (snd (_introspect_server server_name w)))
    = capabilities_cache (self w) /\
  connections (self (snd (_introspect_server server_name w)))
    = connections (self w).
Proof.
  intros Hu Hdown.
  set (P := fun w0 : World =>
              network w0 = network w /\
              base_urls (self w0) = base_urls (self w) /\
              capabilities_cache (self w0) = capabilities_cache (self w) /\
              connections (self w0) = connections (self w)).
  assert (Hstep : forall w0, P w0 ->
            P (snd (_introspect_server_body server_name w0)) /\
            is_raise (fst (_introspect_server_body server_name w0)) = true).
  { intros w0 (Hn & Hb & Hc & Hk).
    destruct (ensure_http_client_frame w0)
      as (w1 & Hrun & Hconn & Hurl & Hcache & _ & Hnet & _).
    assert (Hfail : exists e w4, fetch_all u w1 = (Raise e, w4)).
    { unfold fetch_all. unfold bind.
      destruct (fetch_list_frame (u ++ "/tools") "tools" w1) as [_ N1].
      destruct (fetch_list (u ++ "/tools") "tools" w1) as [[t|e] w2];
        [|eauto]. cbn [snd] in N1.
      destruct (fetch_list_frame (u ++ "/resources") "resources" w2) as [_ N2].
      destruct (fetch_list (u ++ "/resources") "resources" w2) as [[r|e] w3];
        [|eauto]. cbn [snd] in N2.
      specialize (Hdown w3 ltac:(congruence)).
      destruct (fetch_list (u ++ "/prompts") "prompts" w3) as [[p|e] w4];
        [discriminate|eauto]. }
    destruct Hfail as (e & w4 & Hf).
    destruct (@introspect_body_failed_fetch server_name u w0 e w4) as
      (w' & Hbody & Hc' & Hk' & Hb' & Hn').
    - now rewrite Hb.
    - now rewrite Hrun.
    - rewrite Hbody. simpl. split; [|reflexivity].
      unfold P. rewrite Hn', Hb', Hc', Hk'. auto. }
  assert (P0 : P w) by (unfold P; auto).
  unfold _introspect_server, retry_with_exponential_backoff.
  split.
  - apply retry_loop_raises with (P := P).
    + intros s0 Hs. now apply Hstep.
    + intros s0 d Hs. exact Hs.
    + intros s0 m Hs. exact Hs.
    + intros s0 Hs. exact Hs.
    + intros s0 Hs. now apply Hstep.
    + exact P0.
  - apply (retry_loop_keeps (with_max_attempts 3 RetryConfig_default)
             (_introspect_server_body server_name) P).
    + intros s0 Hs. now apply Hstep.
    + intros s0 d Hs. exact Hs.
    + intros s0 m Hs. exact Hs.
    + intros s0 Hs. exact Hs.
    + exact P0.
Qed.
(** Whatever the three attempts do, the cache entry of the server is
    afterwards what it was or a complete set: tools, resources and prompts. *)
Lemma introspect_never_partial (server_name : string) (w : World) :
  let w' := snd (_introspect_server server_name w) in
  dict_get server_name (capabilities_cache (self w'))
    = dict_get server_name (capabilities_cache (self w)) \/
  exists t r p,
    dict_get server_name (capabilities_cache (self w'))
      = Some (capability_set t r p).
Proof.
  cbv zeta. unfold _introspect_server, retry_with_exponential_backoff.
  apply (retry_loop_keeps (with_max_attempts 3 RetryConfig_default)
           (_introspect_server_body server_name)
           (fun w0 =>
              dict_get server_name (capabilities_cache (self w0))
                = dict_get server_name (capabilities_cache (self w)) \/
              exists t r p,
                dict_get server_name (capabilities_cache (self w0))
                  = Some (capability_set t r p))).
  - intros s Hs. rewrite introspect_body_unfolded.
    destruct (ensure_http_client_frame s) as (w1 & Hrun & _ & _ & Hcache & _).
    rewrite Hrun. cbn [snd].
    destruct (dict_get server_name (base_urls (self w1))) as [u|];
      [|cbn [snd]; now rewrite Hcache].
    destruct (fetch_all_frame u w1) as [Hs1 _].
    destruct (fetch_all u w1) as [[[[t r] p]|e] w4]; cbn [snd] in Hs1.
    2:{ cbn [snd self emit]. now rewrite Hs1, Hcache. }
    destruct (store_capabilities_frame server_name (capability_set t r p) w4)
      as (_ & _ & Sc & _).
    right. exists t, r, p.
    destruct (store_capabilities server_name (capability_set t r p) w4)
      as [[[]|e] w5]; cbn [snd self emit] in *; rewrite Sc; apply dict_get_set_eq.
  - intros s d Hs. exact Hs.
  - intros s m Hs. exact Hs.
  - intros s Hs. exact Hs.
  - now left.
Qed.
End Introspection.

(** C4. Replacing a server's cached capability set is all or nothing.  For
    a server with a base URL: when any of the three calls of an
    introspection fails, the introspection raises that failure and the
    capability cache, hence the entry of the server, present or absent, is
    what it was before; so it is in particular when tools and resources
    were fetched and the third call, prompts, fails; with the prompts call
    failing every time, the decorated [_introspect_server] raises after its
    three attempts with the cache still unchanged; and whatever the
    attempts do, the entry of the server is afterwards what it was or a
    complete set, never tools and resources alone. *)
Theorem introspection_all_or_nothing :
  forall (K : ConnectionClass) (w : World) (server_name u : string),
    dict_get server_name (base_urls (self w)) = Some u ->
    let w1 := snd (_ensure_http_client w) in
    (forall e w4,
        fetch_all u w1 = (Raise e, w4) ->
        exists w',
          _introspect_server_body server_name w = (Raise e, w') /\
          capabilities_cache (self w') = capabilities_cache (self w) /\
          connections (self w') = connections (self w)) /\
    (forall t w2 r w3 e w4,
        fetch_list (u ++ "/tools") "tools" w1 = (Ok t, w2) ->
        fetch_list (u ++ "/resources") "resources" w2 = (Ok r, w3) ->
        fetch_list (u ++ "/prompts") "prompts" w3 = (Raise e, w4) ->
        exists w',
          _introspect_server_body server_name w = (Raise e, w') /\
          capabilities_cache (self w') = capabilities_cache (self w) /\
          dict_get server_name (capabilities_cache (self w'))
            = dict_get server_name (capabilities_cache (self w))) /\
    ((forall w0, network w0 = network w ->
                 is_raise (fst (fetch_list (u ++ "/prompts") "prompts" w0)) = true) ->
     is_raise (fst (_introspect_server server_name w)) = true /\
     capabilities_cache (self (snd (_introspect_server server_name w)))
       = capabilities_cache (self w)) /\
    (dict_get server_name
       (capabilities_cache (self (snd (_introspect_server server_name w))))
     = dict_get server_name (capabilities_cache (self w)) \/
     exists t r p,
       dict_get server_name
         (capabilities_cache (self (snd (_introspect_server server_name w))))
       = Some (capability_set t r p)).
Proof.
  intros K w server_name u Hu w1. split; [|split; [|split]].
  - intros e w4 Hf.
    destruct (@introspect_body_failed_fetch K server_name u w e w4 Hu Hf)
      as (w' & H1 & H2 & H3 & _).
    exists w'. auto.
  - intros t w2 r w3 e w4 Ht Hr Hp.
    assert (Hf : fetch_all u w1 = (Raise e, w4)).
    { apply fetch_all_fails_iff. right. right. exists t, w2, r, w3. auto. }
    destruct (@introspect_body_failed_fetch K server_name u w e w4 Hu Hf)
      as (w' & H1 & H2 & _).
    exists w'. rewrite H2. auto.
  - intros Hdown.
    destruct (@introspect_prompts_down K server_name u w Hu Hdown) as (H1 & H2 & _).
    auto.
  - exact (introspect_never_partial server_name w).
Qed.

(** The knowledge-base server holds an earlier capability set and its
    [/prompts] endpoint answers 500: the decorated introspection raises and
    the cache still holds the earlier set. *)
Lemma introspection_all_or_nothing_witness :
  let w := stale_world models_MCPConnection prompts_down in
  dict_get "knowledge_base" (base_urls (self w)) = Some "http://127.0.0.1:8002" /\
  is_raise (fst (_introspect_server "knowledge_base" w)) = true /\
  capabilities_cache (self (snd (_introspect_server "knowledge_base" w)))
  = [("knowledge_base",
      capability_set (JList [JObj [("name", JStr "old_tool")]]) (JList []) (JList []))].
Proof.
  intros w. split; [reflexivity|].
  apply (proj1 (proj2 (proj2 (@introspection_all_or_nothing
                                models_MCPConnection w "knowledge_base"
                                "http://127.0.0.1:8002" eq_refl)))).
  intros w0 Hnet. unfold fetch_list, bind, lift, send. rewrite Hnet. reflexivity.
Defined.

(** ** The breaker, case by case *)

Section BreakerCases.
Context {S : Type} {RT : Runtime S} {A : Type}.
Variable func : M S A.

Lemma breaker_call_cases (b : CircuitBreaker) (s : S) :
  breaker_call func (b, s) =
  if breaker_blocks b s then (Raise CircuitOpenError, (b, s))
  else match func s with
       | (Ok v, s1) => (Ok v, (_on_success (let_through b), s1))
       | (Raise e, s1) =>
           if expected_exception b e
           then (Raise e, (_on_failure (let_through b) s1, s1))
           else (Raise e, (let_through b, s1))
       end.
Proof.
  unfold breaker_call, breaker_blocks, let_through.
  destruct (state b); try reflexivity.
  destruct (_should_attempt_reset b s); reflexivity.
Qed.

(** A failed call leaves a good breaker good; the breaker is then open,
    or it was closed, is still closed and has counted one more failure
    without reaching the threshold. *)
Lemma breaker_failure_step (b b' : CircuitBreaker) (s s' : S) (e : exn) :
  good_breaker b ->
  breaker_call func (b, s) = (Raise e, (b', s')) ->
  good_breaker b' /\
  recovery_timeout b' = recovery_timeout b /\
  (state b' = OPEN \/
   (state b = CLOSED /\ state b' = CLOSED /\
    failure_count b' = (failure_count b + 1)%Z /\ (failure_count b' < 3)%Z)).
Proof.
  intros (Hthr & Hall & Hinv & Hpos) Hcall.
  destruct (@breaker_call_inv _ _ _ func b b' s s' (Raise e) Hall Hinv Hcall)
    as (Hall' & Hinv' & Hthr' & Hto').
  rewrite breaker_call_cases in Hcall.
  destruct (breaker_blocks b s) eqn:Hblk.
  - injection Hcall as _ <- <-.
    split; [unfold good_breaker; auto|]. split; [reflexivity|]. left.
    unfold breaker_blocks in Hblk. destruct (state b); congruence.
  - destruct (func s) as [[v|e0] s1]; [discriminate|].
    rewrite Hall in Hcall. injection Hcall as _ <- <-.
    assert (Hcnt : failure_count (let_through b) = failure_count b)
      by (unfold let_through; destruct (state b); reflexivity).
    assert (Hthr1 : failure_threshold (let_through b) = failure_threshold b)
      by (unfold let_through; destruct (state b); reflexivity).
    split.
    { unfold good_breaker. split; [now rewrite Hthr'|].
      split; [assumption|]. split; [assumption|].
      simpl. rewrite Hcnt. lia. }
    split; [assumption|].
    simpl. rewrite Hcnt, Hthr1, Hthr.
    destruct (3 <=? failure_count b + 1)%Z eqn:E; [left; reflexivity|].
    apply Z.leb_gt in E.
    unfold let_through.
    destruct (state b) eqn:Hst; simpl.
    + right. repeat split; auto.
    + destruct (Hinv ltac:(congruence)) as [Hge _]. lia.
    + destruct (Hinv ltac:(congruence)) as [Hge _]. lia.
Qed.
End BreakerCases.

(** Three failed calls in a row through one good breaker, whatever the
    wrapped functions, leave it open with the time of the last failure
    recorded. *)
Lemma three_failures_open {S : Type} {RT : Runtime S} {A : Type}
      (f1 f2 f3 : M S A) (b0 b1 b2 b3 : CircuitBreaker)
      (s0 s1 s1' s2 s2' s3 : S) (e1 e2 e3 : exn) :
  good_breaker b0 ->
  breaker_call f1 (b0, s0) = (Raise e1, (b1, s1)) ->
  breaker_call f2 (b1, s1') = (Raise e2, (b2, s2)) ->
  breaker_call f3 (b2, s2') = (Raise e3, (b3, s3)) ->
  good_breaker b3 /\
  recovery_timeout b3 = recovery_timeout b0 /\
  state b3 = OPEN /\
  exists t, last_failure_time b3 = Some t.
Proof.
  intros G0 H1 H2 H3.
  destruct (@breaker_failure_step _ _ _ f1 b0 b1 s0 s1 e1 G0 H1) as (G1 & T1 & C1).
  destruct (@breaker_failure_step _ _ _ f2 b1 b2 s1' s2 e2 G1 H2) as (G2 & T2 & C2).
  destruct (@breaker_failure_step _ _ _ f3 b2 b3 s2' s3 e3 G2 H3) as (G3 & T3 & C3).
  assert (Hopen : state b3 = OPEN).
  { destruct C3 as [C3|(S2 & S3 & N3 & L3)]; [exact C3|].
    destruct C2 as [C2|(S1 & _ & N2 & _)]; [congruence|].
    destruct C1 as [C1|(_ & _ & N1 & _)]; [congruence|].
    destruct G0 as (_ & _ & _ & Hpos). lia. }
  split; [exact G3|]. split; [congruence|]. split; [exact Hopen|].
  destruct G3 as (_ & _ & Hinv & _).
  destruct (Hinv ltac:(congruence)) as [_ Hlast].
  destruct (last_failure_time b3) as [t|]; [eauto|contradiction].
Qed.

(** ** Calls against a server that is not connected *)

Section NotConnected.
Context {K : ConnectionClass}.

Lemma is_server_connected_same (w w1 : World) (server_name : string) (r : result bool) :
  connections (self w1) = connections (self w) ->
  is_server_connected server_name w = (r, w) ->
  is_server_connected server_name w1 = (r, w1).
Proof.
  unfold is_server_connected. intros ->.
  destruct (dict_get server_name (connections (self w))); now intros [= ->].
Qed.

(** [_ensure_http_client] neither waits nor uses the network, and the
    clock does not move. *)
Lemma ensure_http_client_quiet (w : World) :
  acts (trace (snd (_ensure_http_client w))) = acts (trace w) /\
  clock (snd (_ensure_http_client w)) = clock w.
Proof.
  unfold _ensure_http_client.
  destruct (need_new_client w); [|split; reflexivity].
  unfold_m. unfold acts.
  destruct (http_client (self w)) as [[|]|]; cbn [fst snd trace clock emit with_self];
    rewrite ?filter_app; cbn [filter is_request is_sleep orb];
    rewrite ?app_nil_r; split; reflexivity.
Qed.

(** The shared body of the three methods stops at the connection test, on
    the world that [_ensure_http_client] left. *)
Lemma rpc_stops_not_connected (server_name path : string) (payload : json)
      (key : string) (what : text) (w : World) :
  is_server_connected server_name w = (Ok false, w) ->
  rpc server_name path payload key what w
  = (Raise (NotConnectedError server_name), snd (_ensure_http_client w)).
Proof.
  intros Hnc.
  destruct (ensure_http_client_frame w) as (w1 & Hrun & Hconn & _).
  unfold rpc. unfold bind at 1. rewrite Hrun. cbn [snd].
  unfold bind at 1.
  rewrite (is_server_connected_same w w1 server_name (Ok false) Hconn Hnc).
  reflexivity.
Qed.

(** A call through a breaker of a body that stops at the connection test:
    either the breaker turns it away, and nothing at all changes, or the
    "not connected" error comes out of the body, and the breaker counts it
    when it is one of its expected exceptions. *)
Lemma guarded_rpc_not_connected (server_name path : string) (payload : json)
      (key : string) (what : text) (b : CircuitBreaker) (w : World) :
  is_server_connected server_name w = (Ok false, w) ->
  expected_exception b (NotConnectedError server_name) = true ->
  breaker_call (rpc server_name path payload key what) (b, w) =
  if breaker_blocks b w
  then (Raise CircuitOpenError, (b, w))
  else (Raise (NotConnectedError server_name),
        (_on_failure (let_through b) (snd (_ensure_http_client w)),
         snd (_ensure_http_client w))).
Proof.
  intros Hnc Hexp. rewrite breaker_call_cases.
  destruct (breaker_blocks b w); [reflexivity|].
  rewrite (rpc_stops_not_connected _ _ _ _ _ _ Hnc), Hexp. reflexivity.
Qed.
End NotConnected.

(** C5, as the code has it.  For a server that [is_server_connected]
    reports as not connected (one without a record, for instance),
    [call_tool], [read_resource] and [get_prompt] raise at once.  When the
    breaker of the method is open and its recovery timeout has not passed,
    the breaker's error comes out and the process is exactly what it was.
    Otherwise the "not connected" [ConnectionError] comes out; the world is
    the one [_ensure_http_client] leaves, in which no request has been
    sent, nothing has slept, the clock has not moved and the three tables
    of the manager are untouched; the breaker of the method has counted one
    more failure, and the other two breakers are what they were.  Nothing
    else is kept of the call. *)
Theorem not_connected_fails_without_request :
  forall (K : ConnectionClass) (p : Process) (server_name : string),
    is_server_connected server_name (world p) = (Ok false, world p) ->
    expected_exception (call_tool_breaker p) (NotConnectedError server_name) = true ->
    expected_exception (read_resource_breaker p) (NotConnectedError server_name) = true ->
    expected_exception (get_prompt_breaker p) (NotConnectedError server_name) = true ->
    let w1 := snd (_ensure_http_client (world p)) in
    let counted_by (b : CircuitBreaker) := _on_failure (let_through b) w1 in
    (acts (trace w1) = acts (trace (world p)) /\
     clock w1 = clock (world p) /\
     connections (self w1) = connections (self (world p)) /\
     base_urls (self w1) = base_urls (self (world p)) /\
     capabilities_cache (self w1) = capabilities_cache (self (world p))) /\
    (forall b, failure_count (counted_by b) = (failure_count b + 1)%Z) /\
    (forall tool_name arguments,
        call_tool server_name tool_name arguments p =
        if breaker_blocks (call_tool_breaker p) (world p)
        then (Raise CircuitOpenError, p)
        else (Raise (NotConnectedError server_name),
              {| world := w1;
                 call_tool_breaker := counted_by (call_tool_breaker p);
                 read_resource_breaker := read_resource_breaker p;
                 get_prompt_breaker := get_prompt_breaker p |})) /\
    (forall uri,
        read_resource server_name uri p =
        if breaker_blocks (read_resource_breaker p) (world p)
        then (Raise CircuitOpenError, p)
        else (Raise (NotConnectedError server_name),
              {| world := w1;
                 call_tool_breaker := call_tool_breaker p;
                 read_resource_breaker := counted_by (read_resource_breaker p);
                 get_prompt_breaker := get_prompt_breaker p |})) /\
    (forall prompt_name arguments,
        get_prompt server_name prompt_name arguments p =
        if breaker_blocks (get_prompt_breaker p) (world p)
        then (Raise CircuitOpenError, p)
        else (Raise (NotConnectedError server_name),
              {| world := w1;
                 call_tool_breaker := call_tool_breaker p;
                 read_resource_breaker := read_resource_breaker p;
                 get_prompt_breaker := counted_by (get_prompt_breaker p) |})).
Proof.
  intros K p server_name Hnc Hc Hr Hg w1 counted_by.
  destruct (ensure_http_client_frame (world p))
    as (w1' & Hrun & Hconn & Hurl & Hcache & _).
  destruct (ensure_http_client_quiet (world p)) as [Hacts Hclk].
  assert (Ew : w1' = w1) by (unfold w1; now rewrite Hrun). subst w1'.
  split; [auto 6|].
  split.
  { intros b. unfold counted_by. cbn [failure_count _on_failure].
    unfold let_through. destruct (state b); reflexivity. }
  destruct p as [w bc br bg].
  cbn [world call_tool_breaker read_resource_breaker get_prompt_breaker] in *.
  split; [|split].
  - intros tool_name arguments. unfold call_tool, call_tool_body.
    cbn [world call_tool_breaker read_resource_breaker get_prompt_breaker].
    rewrite (guarded_rpc_not_connected _ _ _ _ _ _ _ Hnc Hc).
    now destruct (breaker_blocks bc w).
  - intros uri. unfold read_resource, read_resource_body.
    cbn [world call_tool_breaker read_resource_breaker get_prompt_breaker].
    rewrite (guarded_rpc_not_connected _ _ _ _ _ _ _ Hnc Hr).
    now destruct (breaker_blocks br w).
  - intros prompt_name arguments. unfold get_prompt, get_prompt_body.
    cbn [world call_tool_breaker read_resource_breaker get_prompt_breaker].
    rewrite (guarded_rpc_not_connected _ _ _ _ _ _ _ Hnc Hg).
    now destruct (breaker_blocks bg w).
Qed.

(** A fresh manager with the dataclass of [shared/models.py]: the
    knowledge-base server has no record.  The first [call_tool] against it
    raises the "not connected" error: the trace holds no request and no
    sleep, the clock still shows 0 and the breaker has counted one
    failure. *)
Lemma not_connected_fails_without_request_witness :
  let p := start (fresh_world models_MCPConnection first_server_down) in
  let out := call_tool "knowledge_base" "search_notes" (JObj []) p in
  is_server_connected "knowledge_base" (world p) = (Ok false, world p) /\
  fst out = Raise (NotConnectedError "knowledge_base") /\
  acts (trace (world (snd out))) = [] /\
  clock (world (snd out)) = 0 /\
  failure_count (call_tool_breaker (snd out)) = 1%Z.
Proof.
  intros p out.
  destruct (not_connected_fails_without_request
              models_MCPConnection p "knowledge_base" eq_refl eq_refl eq_refl eq_refl)
    as ((Hacts & Hclk & _) & Hcount & Hcall & _).
  split; [reflexivity|].
  unfold out. rewrite (Hcall "search_notes" (JObj [])).
  change (breaker_blocks (call_tool_breaker p) (world p)) with false.
  cbn [fst snd world call_tool_breaker].
  split; [reflexivity|]. split; [rewrite Hacts; reflexivity|].
  split; [rewrite Hclk; reflexivity|]. rewrite Hcount. reflexivity.
Defined.

(** C5 as stated fails.  A fresh manager, the knowledge-base server never
    connected: the first three [call_tool] calls against it raise the "not
    connected" error, which opens the breaker of [call_tool]; the fourth
    call, made at once, raises the breaker's error instead. *)
Lemma not_connected_error_counterexample :
  let call := call_tool "knowledge_base" "search_notes" (JObj []) in
  let p0 := start (fresh_world models_MCPConnection dead_network) in
  let p1 := snd (call p0) in
  let p2 := snd (call p1) in
  let p3 := snd (call p2) in
  get_connection_status "knowledge_base" (world p3) = None /\
  fst (call p0) = Raise (NotConnectedError "knowledge_base") /\
  fst (call p1) = Raise (NotConnectedError "knowledge_base") /\
  fst (call p2) = Raise (NotConnectedError "knowledge_base") /\
  fst (call p3) = Raise CircuitOpenError /\
  fst (call p3) <> Raise (NotConnectedError "knowledge_base").
Proof.
  vm_compute. repeat split; discriminate.
Qed.

(** ** One breaker for all servers *)

Section SharedBreaker.
Context {K : ConnectionClass}.

Lemma call_tool_as_breaker_call (server_name tool_name : string) (arguments : json)
      (p : Process) :
  call_tool server_name tool_name arguments p =
  let out := breaker_call (call_tool_body server_name tool_name arguments)
                          (call_tool_breaker p, world p) in
  (fst out, {| world := snd (snd out); call_tool_breaker := fst (snd out);
               read_resource_breaker := read_resource_breaker p;
               get_prompt_breaker := get_prompt_breaker p |}).
Proof.
  unfold call_tool. cbv zeta.
  destruct (breaker_call _ _) as [r [b w]]. reflexivity.
Qed.

Lemma call_tool_failure (server_name tool_name : string) (arguments : json)
      (p p' : Process) (e : exn) :
  call_tool server_name tool_name arguments p = (Raise e, p') ->
  breaker_call (call_tool_body server_name tool_name arguments)
               (call_tool_breaker p, world p)
  = (Raise e, (call_tool_breaker p', world p')).
Proof.
  rewrite call_tool_as_breaker_call. cbv zeta.
  destruct (breaker_call _ _) as [r [b w]]. simpl. now intros [= -> <-].
Qed.
End SharedBreaker.

(** C6. The breaker belongs to the method, not to a server.  Three
    [call_tool] calls in a row that fail against a server [A], with
    anything happening to the world in between as long as the breaker of
    [call_tool] is not touched, leave that breaker open; and then a
    [call_tool] against any server [B], made before the recovery timeout has
    passed since the last failure, raises the breaker's error with the
    whole process unchanged: no request is sent. *)
Theorem breaker_shared_across_servers :
  forall (K : ConnectionClass) (A B : string)
         (tool_name : string) (arguments : json)
         (tool_name_B : string) (arguments_B : json)
         (p0 p1 p1' p2 p2' p3 : Process) (e1 e2 e3 : exn),
    good_breaker (call_tool_breaker p0) ->
    call_tool A tool_name arguments p0 = (Raise e1, p1) ->
    call_tool_breaker p1' = call_tool_breaker p1 ->
    call_tool A tool_name arguments p1' = (Raise e2, p2) ->
    call_tool_breaker p2' = call_tool_breaker p2 ->
    call_tool A tool_name arguments p2' = (Raise e3, p3) ->
    state (call_tool_breaker p3) = OPEN /\
    exists t,
      last_failure_time (call_tool_breaker p3) = Some t /\
      forall p4,
        call_tool_breaker p4 = call_tool_breaker p3 ->
        clock (world p4) - t < recovery_timeout (call_tool_breaker p3) ->
        call_tool B tool_name_B arguments_B p4 = (Raise CircuitOpenError, p4).
Proof.
  intros K A B tool_name arguments tool_name_B arguments_B
         p0 p1 p1' p2 p2' p3 e1 e2 e3 G0 H1 E1 H2 E2 H3.
  apply call_tool_failure in H1, H2, H3.
  rewrite E1 in H2. rewrite E2 in H3.
  destruct (three_failures_open _ _ _ _ _ _ _ _ _ _ _ _ _ _ _ _ G0 H1 H2 H3)
    as (G3 & _ & Hopen & t & Ht).
  split; [exact Hopen|]. exists t. split; [exact Ht|].
  intros p4 E4 Hlt.
  rewrite call_tool_as_breaker_call. cbv zeta.
  rewrite (breaker_rejects _ (call_tool_breaker p4) (world p4) t);
    try (rewrite E4; assumption).
  destruct p4; reflexivity.
Qed.

(** A fresh manager after [initialize]: neither server has a record.
    Three [call_tool] calls against the personal-assistant server fail, and
    a call against the knowledge-base server, made at once, is turned away
    by the breaker: the process is what it was, so nothing was sent. *)
Lemma breaker_shared_across_servers_witness :
  let call_A := call_tool "personal_assistant" "add_task" (JObj []) in
  let p0 := start (snd (initialize (fresh_world models_MCPConnection first_server_down))) in
  let p1 := snd (call_A p0) in
  let p2 := snd (call_A p1) in
  let p3 := snd (call_A p2) in
  fst (call_A p0) = Raise (NotConnectedError "personal_assistant") /\
  fst (call_A p1) = Raise (NotConnectedError "personal_assistant") /\
  fst (call_A p2) = Raise (NotConnectedError "personal_assistant") /\
  call_tool "knowledge_base" "search_notes" (JObj []) p3
  = (Raise CircuitOpenError, p3).
Proof.
  intros call_A p0 p1 p2 p3.
  split; [vm_compute; reflexivity|].
  split; [vm_compute; reflexivity|].
  split; [vm_compute; reflexivity|].
  assert (G0 : good_breaker (call_tool_breaker p0)).
  { split; [reflexivity|]. split; [intros e; reflexivity|].
    split; [intros H; exfalso; apply H; reflexivity|]. vm_compute. discriminate. }
  pose (ex := fun r : result json * Process (K := models_MCPConnection) =>
                match fst r with Raise e => e | Ok _ => boom end).
  assert (H1 : call_A p0 = (Raise (ex (call_A p0)), p1)) by (vm_compute; reflexivity).
  assert (H2 : call_A p1 = (Raise (ex (call_A p1)), p2)) by (vm_compute; reflexivity).
  assert (H3 : call_A p2 = (Raise (ex (call_A p2)), p3)) by (vm_compute; reflexivity).
  destruct (breaker_shared_across_servers
              models_MCPConnection "personal_assistant" "knowledge_base"
              "add_task" (JObj []) "search_notes" (JObj [])
              p0 p1 p1 p2 p2 p3 _ _ _ G0 H1 eq_refl H2 eq_refl H3)
    as (_ & t & Ht & Hrej).
  apply Hrej; [reflexivity|].
  assert (Et : last_failure_time (call_tool_breaker p3) = Some 0)
    by (vm_compute; reflexivity).
  rewrite Et in Ht. injection Ht as <-. vm_compute. reflexivity.
Defined.

(** ** Refreshing capabilities *)

Section Refresh.
Context {K : ConnectionClass}.


End Refresh.



(** ** Method calls on the records of shared/models.py *)





(** ** Disconnecting *)



(** ** Calls with the records of shared/models.py *)



(** A fresh manager after [initialize], on a network whose servers answer
    every tool call with a 200 that says [success: false]: the call raises
    the "not connected" error and no request has been sent. *)
Lemma call_tool_after_initialize :
  let w := snd (initialize (fresh_world models_MCPConnection application_error)) in
  let out := call_tool "personal_assistant" "complete_task" (JObj []) (start w) in
  outcome (application_error (trace w)
             (POST "http://127.0.0.1:8001/tools/call"
                   (JObj [("name", JStr "complete_task"); ("arguments", JObj [])])))
  = Ok (ok_response (JObj [("success", JBool false);
                           ("error", JStr "Task not found: 42")])) /\
  fst out = Raise (NotConnectedError "personal_assistant") /\
  requests (trace (world (snd out))) = [] /\
  get_connection_status "personal_assistant" (world (snd out)) = None.
Proof.
  vm_compute. repeat split.
Qed.

(** * Further properties of the manager *)

(** ** Health checks *)

Lemma dict_keys_set_present {V} (k : string) (v v0 : V) (d : dict V) :
  dict_get k d = Some v0 -> dict_keys (dict_set k v d) = dict_keys d.
Proof.
  induction d as [|[k' v'] d IH]; simpl; [discriminate|].
  destruct (String.eqb_spec k k') as [->|Hne]; simpl; [reflexivity|].
  intros H. now rewrite (IH H).
Qed.

Section HealthCheck.
Context {K : ConnectionClass}.

(** The three tables as far as a probe can see them. *)
Lemma health_check_server_tables (server_name : string) (w : World) :
  let w' := snd (_health_check_server server_name w) in
  connections (self w') = connections (self w) /\
  base_urls (self w') = base_urls (self w) /\
  capabilities_cache (self w') = capabilities_cache (self w) /\
  network w' = network w.
Proof.
  destruct (ensure_http_client_frame w)
    as (w1 & Hrun & Hconn & Hurl & Hcache & _ & Hnet & _).
  unfold _health_check_server, base_url_of, try_except, send. unfold_m.
  rewrite Hrun.
  destruct (dict_get server_name (base_urls (self w1))); [|simpl; auto].
  destruct (outcome (network w1 (trace w1) (GET (s ++ "/health")))) as [resp|e];
    [|simpl; auto].
  destruct (raise_for_status resp); [|simpl; auto].
  destruct (json_body resp); simpl; auto.
Qed.

Lemma health_check_one_tables (server_name : string) (w : World) :
  let w' := snd (health_check_one server_name w) in
  dict_keys (connections (self w')) = dict_keys (connections (self w)) /\
  base_urls (self w') = base_urls (self w) /\
  capabilities_cache (self w') = capabilities_cache (self w) /\
  network w' = network w.
Proof.
  cbv zeta.
  enough (G : forall X, health_check_one server_name w = X ->
              dict_keys (connections (self (snd X)))
              = dict_keys (connections (self w)) /\
              base_urls (self (snd X)) = base_urls (self w) /\
              capabilities_cache (self (snd X)) = capabilities_cache (self w) /\
              network (snd X) = network w) by exact (G _ eq_refl).
  intros X HX. unfold health_check_one in HX. unfold bind at 1 in HX.
  destruct (dict_get server_name (connections (self w))) as [c|] eqn:Hc;
    [|subst X; simpl; auto].
  destruct (conn_is_connected c) as [[|]|e];
    [|subst X; simpl; auto|subst X; simpl; auto].
  unfold when_, try_except in HX. unfold bind at 1 in HX.
  destruct (health_check_server_tables server_name w) as (Hconn & Hurl & Hcache & Hnet).
  destruct (_health_check_server server_name w) as [[[]|e] w1]; cbn [snd] in *.
  - unfold bind, gets, connection_assign in HX. rewrite Hconn, Hc in HX.
    subst X. cbn [snd self with_self connections base_urls capabilities_cache
                  set_connections network].
    rewrite (dict_keys_set_present _ _ _ _ Hc). auto.
  - unfold bind, logger, modify, connection_update_status in HX.
    cbn [self emit] in HX. rewrite Hconn, Hc in HX.
    destruct (conn_update_status c (Models.value Models.ERROR) (Some (str_exn e)));
      subst X;
      cbn [snd self with_self emit connections base_urls capabilities_cache
           set_connections network].
    + rewrite (dict_keys_set_present _ _ _ _ Hc). auto.
    + rewrite Hconn. auto.
Qed.

Lemma health_check_each_tables (names : list string) :
  forall w : World,
    let w' := snd (health_check_each names w) in
    dict_keys (connections (self w')) = dict_keys (connections (self w)) /\
    base_urls (self w') = base_urls (self w) /\
    capabilities_cache (self w') = capabilities_cache (self w) /\
    network w' = network w.
Proof.
  induction names as [|n rest IH]; intros w; [simpl; auto|].
  cbn [health_check_each]. unfold bind. cbv zeta.
  destruct (health_check_one_tables n w) as (H1 & H2 & H3 & H4).
  destruct (health_check_one n w) as [[[]|e] w1]; cbn [snd] in *; [|auto].
  destruct (IH w1) as (I1 & I2 & I3 & I4).
  rewrite I1, I2, I3, I4. auto.
Qed.
End HealthCheck.

(** X1. Whatever the record class and whatever the probes answer, and
    also when it raises, [health_check] adds and removes no server: the
    keys of [connections], all base URLs and the whole capability cache
    are what they were. *)
Theorem health_check_keeps_servers :
  forall (K : ConnectionClass) (w : World),
    let w' := snd (health_check w) in
    dict_keys (connections (self w')) = dict_keys (connections (self w)) /\
    base_urls (self w') = base_urls (self w) /\
    capabilities_cache (self w') = capabilities_cache (self w).
Proof.
  intros K w. unfold health_check. unfold bind.
  destruct (ensure_http_client_frame w) as (w1 & Hrun & Hconn & Hurl & Hcache & _).
  rewrite Hrun.
  destruct (health_check_each_tables (dict_keys (connections (self w1))) w1)
    as (H1 & H2 & H3 & _).
  cbv zeta in *. rewrite H1, H2, H3, Hconn, Hurl, Hcache. auto.
Qed.

(** ** What a health check does to the records *)

Section HealthCheckRecords.
Context {K : ConnectionClass}.



End HealthCheckRecords.



(** ** Disconnecting: the error path, and all servers at once *)

(** X4. [disconnect_server] never raises, whatever the record class and
    the state of the manager: a failure inside it is logged and swallowed.
    When the [update_status] call on the record raises, the handler is
    entered before anything is removed: the manager is exactly what it was,
    base URL and cache entry of the server included. *)
Theorem disconnect_server_never_raises :
  forall (K : ConnectionClass) (w : World) (server_name : string),
    fst (disconnect_server server_name w) = Ok tt /\
    forall c e,
      get_connection_status server_name w = Some c ->
      conn_update_status c "disconnected" None = Raise e ->
      self (snd (disconnect_server server_name w)) = self w.
Proof.
  intros K w server_name.
  enough (G : forall X, disconnect_server server_name w = X ->
              fst X = Ok tt /\
              forall c e,
                get_connection_status server_name w = Some c ->
                conn_update_status c "disconnected" None = Raise e ->
                self (snd X) = self w) by exact (G _ eq_refl).
  intros X HX.
  unfold disconnect_server, connection_update_status, get_connection_status in *.
  unfold_m. unfold dict_mem in HX.
  change (Models.value Models.DISCONNECTED) with "disconnected" in HX.
  destruct (dict_get server_name (connections (self w))) as [c|] eqn:Hc;
    cbv beta iota in HX; rewrite ?Hc in HX.
  - destruct (conn_update_status c "disconnected" None) as [c'|e'] eqn:Hup.
    + simpl in HX.
      destruct (dict_get server_name (base_urls (self w))); simpl in HX;
        destruct (dict_get server_name (capabilities_cache (self w)));
        simpl in HX; subst X; (split; [reflexivity|]);
        intros c0 e0 [= <-] H; congruence.
    + subst X. split; [reflexivity|]. intros c0 e0 _ _. reflexivity.
  - simpl in HX.
    destruct (dict_get server_name (base_urls (self w))); simpl in HX;
      destruct (dict_get server_name (capabilities_cache (self w)));
      simpl in HX; subst X; (split; [reflexivity|]); intros c0 e0 H; discriminate.
Qed.

(** A record of the dataclass of [shared/models.py], which has no
    [update_status]: disconnecting returns normally and removes nothing. *)
Lemma disconnect_server_never_raises_witness :
  let w := hand_made_record in
  let w' := snd (disconnect_server "knowledge_base" w) in
  fst (disconnect_server "knowledge_base" w) = Ok tt /\
  self w' = self w /\
  dict_get "knowledge_base" (base_urls (self w')) = Some "http://127.0.0.1:8002".
Proof.
  intros w w'.
  destruct (disconnect_server_never_raises models_MCPConnection w "knowledge_base")
    as [Hok Hkeep].
  split; [exact Hok|].
  assert (Hsame : self w' = self w).
  { destruct (get_connection_status "knowledge_base" w) as [c|] eqn:Hc;
      [|vm_compute in Hc; discriminate].
    apply (Hkeep c (AttributeError "MCPConnection" "update_status") eq_refl).
    vm_compute in Hc. injection Hc as <-. vm_compute. reflexivity. }
  split; [exact Hsame|]. rewrite Hsame. reflexivity.
Defined.

(** ** Disconnecting all servers *)

Section DisconnectAll.
Context {K : ConnectionClass}.

Lemma after_disconnect_ext (k : string) (w w1 : World) :
  entries k w1 = entries k w -> after_disconnect k w1 = after_disconnect k w.
Proof.
  unfold after_disconnect, entries. intros [= Hc Hu Hk]. rewrite Hc.
  destruct (dict_get k (connections (self w))) as [c|]; [|reflexivity].
  destruct (conn_update_status c (Models.value Models.DISCONNECTED) None);
    [reflexivity|]. now rewrite Hu, Hk, <- Hc.
Qed.

(** One [disconnect_server]: it returns, leaves the HTTP client and the
    other servers alone, and does to the server what [after_disconnect]
    says. *)
Lemma disconnect_server_step (n : string) (w : World) :
  exists w',
    disconnect_server n w = (Ok tt, w') /\
    http_client (self w') = http_client (self w) /\
    entries n w' = after_disconnect n w /\
    forall k, k <> n -> entries k w' = entries k w.
Proof.
  unfold disconnect_server, connection_update_status, after_disconnect, entries.
  unfold_m. unfold dict_mem.
  destruct (dict_get n (connections (self w))) as [c|] eqn:Hc;
    cbv beta iota; rewrite ?Hc.
  - destruct (conn_update_status c (Models.value Models.DISCONNECTED) None)
      as [c'|e] eqn:Hup.
    + cbn [self with_self set_connections base_urls capabilities_cache].
      destruct (dict_get n (base_urls (self w))) eqn:Hu;
        cbn [self with_self set_connections set_base_urls base_urls
             capabilities_cache connections];
        destruct (dict_get n (capabilities_cache (self w))) eqn:Hk;
        cbn [self with_self set_connections set_base_urls set_capabilities_cache
             base_urls capabilities_cache connections emit http_client];
        eexists; (split; [reflexivity|]);
        cbn [self with_self set_connections set_base_urls set_capabilities_cache
             base_urls capabilities_cache connections emit http_client];
        (split; [reflexivity|]);
        rewrite ?dict_get_set_eq, ?dict_get_del_eq, ?Hu, ?Hk;
        (split; [reflexivity|]);
        intros k Hne;
        rewrite ?(dict_get_set_ne _ _ _ _ Hne), ?(dict_get_del_ne _ _ _ Hne);
        reflexivity.
    + eexists. split; [reflexivity|].
      cbn [self emit http_client connections base_urls capabilities_cache].
      rewrite Hc. auto.
  - destruct (dict_get n (base_urls (self w))) eqn:Hu;
      cbn [self with_self set_connections set_base_urls base_urls
           capabilities_cache connections];
      destruct (dict_get n (capabilities_cache (self w))) eqn:Hk;
      cbn [self with_self set_connections set_base_urls set_capabilities_cache
           base_urls capabilities_cache connections emit http_client];
      eexists; (split; [reflexivity|]);
      cbn [self with_self set_connections set_base_urls set_capabilities_cache
           base_urls capabilities_cache connections emit http_client];
      (split; [reflexivity|]);
      rewrite ?dict_get_del_eq, ?Hc, ?Hu, ?Hk;
      (split; [reflexivity|]);
      intros k Hne; rewrite ?(dict_get_del_ne _ _ _ Hne); reflexivity.
Qed.

Lemma disconnect_each_outcome (names : list string) :
  NoDup names ->
  forall w : World,
  exists w',
    disconnect_each names w = (Ok tt, w') /\
    http_client (self w') = http_client (self w) /\
    forall k, entries k w' = if existsb (String.eqb k) names
                             then after_disconnect k w else entries k w.
Proof.
  induction names as [|n rest IH]; intros Hnd w.
  - exists w. repeat (split; [reflexivity|]). reflexivity.
  - inversion Hnd as [|? ? Hnot Hrest]; subst.
    destruct (disconnect_server_step n w) as (w1 & Hrun & Hh & Hn & Hother).
    destruct (IH Hrest w1) as (w' & Hrun' & Hh' & Hall).
    exists w'. cbn [disconnect_each]. unfold bind. rewrite Hrun.
    split; [exact Hrun'|]. split; [congruence|].
    intros k. rewrite Hall. cbn [existsb].
    destruct (String.eqb_spec k n) as [->|Hne]; cbn [orb].
    + assert (Hout : existsb (String.eqb n) rest = false).
      { destruct (existsb (String.eqb n) rest) eqn:E; [|reflexivity].
        apply existsb_exists in E. destruct E as (x & Hin & Hx).
        apply String.eqb_eq in Hx. subst x. contradiction. }
      rewrite Hout. exact Hn.
    + rewrite (Hother k Hne).
      destruct (existsb (String.eqb k) rest); [|reflexivity].
      apply after_disconnect_ext. exact (Hother k Hne).
Qed.
End DisconnectAll.

(** X5. [disconnect_all], whatever the record class, returns normally
    and holds no open HTTP client afterwards.  A server without a base URL
    is not visited: its record and its cached set are what they were.  For
    a server with a base URL the outcome is that of [disconnect_server]:
    when the [update_status] call on its record raises, the record, the base
    URL and the cached set all stay; otherwise the base URL and the cached
    set are gone and the record, if the server has one, is the updated one.
    With the dataclass of [shared/models.py] the servers that have a record
    are therefore the ones that keep their base URL. *)
Theorem disconnect_all_outcome :
  forall (K : ConnectionClass) (w : World),
    NoDup (dict_keys (base_urls (self w))) ->
    exists w',
      disconnect_all w = (Ok tt, w') /\
      http_client (self w') <> Some false /\
      forall k, entries k w' = if dict_mem k (base_urls (self w))
                               then after_disconnect k w else entries k w.
Proof.
  intros K w Hnd.
  destruct (disconnect_each_outcome (dict_keys (base_urls (self w))) Hnd w)
    as (w1 & Hrun & Hh & Hall).
  assert (Hmem : forall k, existsb (String.eqb k) (dict_keys (base_urls (self w)))
                           = dict_mem k (base_urls (self w))).
  { intros k. destruct (dict_mem k (base_urls (self w))) eqn:E.
    - apply dict_mem_keys in E. apply existsb_exists. exists k.
      split; [exact E|apply String.eqb_refl].
    - destruct (existsb _ _) eqn:X; [|reflexivity].
      apply existsb_exists in X. destruct X as (x & Hin & Hx).
      apply String.eqb_eq in Hx. subst x. apply dict_mem_keys in Hin. congruence. }
  unfold disconnect_all. unfold bind at 1. rewrite Hrun.
  destruct (http_client (self w1)) as [[|]|] eqn:Hc.
  - exists w1. split; [reflexivity|]. split; [rewrite Hc; discriminate|].
    intros k. now rewrite Hall, Hmem.
  - unfold_m. eexists. split; [reflexivity|].
    cbn [self with_self emit drop_client http_client].
    split; [discriminate|]. intros k. rewrite <- Hmem, <- Hall. reflexivity.
  - exists w1. split; [reflexivity|]. split; [rewrite Hc; discriminate|].
    intros k. now rewrite Hall, Hmem.
Qed.

(** Two servers with a base URL and a cached set, the knowledge-base
    server with a record of the dataclass: after [disconnect_all] the
    personal-assistant server has neither base URL nor cached set, the
    knowledge-base server has kept both, and the client is gone. *)
Lemma disconnect_all_outcome_witness :
  let w := one_record_two_servers in
  let w' := snd (disconnect_all w) in
  NoDup (dict_keys (base_urls (self w))) /\
  fst (disconnect_all w) = Ok tt /\
  http_client (self w') = None /\
  entries "personal_assistant" w' = (None, None, None) /\
  entries "knowledge_base" w' = entries "knowledge_base" w /\
  dict_get "knowledge_base" (base_urls (self w')) = Some "http://127.0.0.1:8002".
Proof.
  intros w w'.
  assert (Hnd : NoDup (dict_keys (base_urls (self w)))).
  { repeat constructor; simpl; intuition discriminate. }
  destruct (disconnect_all_outcome models_MCPConnection w Hnd)
    as (w1 & Hrun & Hclient & Hall).
  split; [exact Hnd|]. unfold w'. rewrite Hrun. cbn [fst snd].
  split; [reflexivity|].
  assert (E1 : w1 = snd (disconnect_all w)) by now rewrite Hrun.
  split; [rewrite E1; vm_compute; reflexivity|].
  split; [rewrite (Hall "personal_assistant"); vm_compute; reflexivity|].
  assert (Hk : entries "knowledge_base" w1 = entries "knowledge_base" w)
    by (rewrite (Hall "knowledge_base"); vm_compute; reflexivity).
  split; [exact Hk|].
  unfold entries in Hk. injection Hk as _ Hu _. rewrite Hu. reflexivity.
Defined.

(** ** Looking up the provider of a tool, a resource or a prompt *)

Lemma py_eq_str_true (v : json) (s : string) :
  py_eq_str v s = true <-> v = JStr s.
Proof.
  destruct v; simpl; try (split; [discriminate|intros [=]]).
  split.
  - intros H. apply String.eqb_eq in H. now subst.
  - intros [= ->]. apply String.eqb_refl.
Qed.

Lemma scan_true (field target : string) (items : list json) :
  scan field target items = Ok true ->
  exists item, In item items /\ json_get field JNull item = Ok (JStr target).
Proof.
  induction items as [|item rest IH]; simpl; [discriminate|].
  destruct (json_get field JNull item) as [v|e] eqn:Hg; [|discriminate].
  destruct (py_eq_str v target) eqn:Hv.
  - intros _. apply py_eq_str_true in Hv. subst v. exists item. auto.
  - intros H. destruct (IH H) as (it & Hin & Hit). exists it. auto.
Qed.

Lemma scan_false (field target : string) (items : list json) :
  scan field target items = Ok false ->
  forall item, In item items -> json_get field JNull item <> Ok (JStr target).
Proof.
  induction items as [|item rest IH]; simpl; [intros _ it []|].
  destruct (json_get field JNull item) as [v|e] eqn:Hg; [|discriminate].
  destruct (py_eq_str v target) eqn:Hv; [discriminate|].
  intros H it [<-|Hin].
  - rewrite Hg. intros [= ->]. simpl in Hv. rewrite String.eqb_refl in Hv.
    discriminate.
  - now apply IH.
Qed.

Section Lookup.
Context {K : ConnectionClass}.

Lemma find_provider_sound (key field target : string) (items : dict json) :
  forall (w w' : World) (r : option string),
    find_provider key field target items w = (Ok r, w') ->
    w' = w /\
    match r with
    | Some s =>
        exists before capabilities after,
          items = (before ++ (s, capabilities) :: after)%list /\
          is_server_connected s w = (Ok true, w) /\
          offers key field target capabilities /\
          forall s' capabilities',
            In (s', capabilities') before ->
            is_server_connected s' w = (Ok true, w) ->
            ~ offers key field target capabilities'
    | None =>
        forall s capabilities,
          In (s, capabilities) items ->
          is_server_connected s w = (Ok true, w) ->
          ~ offers key field target capabilities
    end.
Proof.
  induction items as [|[server_name capabilities] rest IH]; intros w w' r Hrun.
  - injection Hrun as <- <-. split; [reflexivity|]. intros s c [].
  - cbn [find_provider] in Hrun. unfold bind at 1 in Hrun.
    destruct (is_server_connected server_name w) as [[connected|e] w0] eqn:Hc;
      [|discriminate].
    pose proof (is_server_connected_pure _ _ _ _ Hc) as ->.
    assert (Hskip :
              ~ offers key field target capabilities \/ connected = false ->
              find_provider key field target rest w = (Ok r, w') ->
              w' = w /\
              match r with
              | Some s =>
                  exists before capabilities0 after,
                    (server_name, capabilities) :: rest
                    = (before ++ (s, capabilities0) :: after)%list /\
                    is_server_connected s w = (Ok true, w) /\
                    offers key field target capabilities0 /\
                    forall s' capabilities',
                      In (s', capabilities') before ->
                      is_server_connected s' w = (Ok true, w) ->
                      ~ offers key field target capabilities'
              | None =>
                  forall s capabilities0,
                    In (s, capabilities0) ((server_name, capabilities) :: rest) ->
                    is_server_connected s w = (Ok true, w) ->
                    ~ offers key field target capabilities0
              end).
    { intros Hno Hrest. destruct (IH _ _ _ Hrest) as [-> Hr].
      split; [reflexivity|].
      assert (Hhere : is_server_connected server_name w = (Ok true, w) ->
                      ~ offers key field target capabilities).
      { intros Hc'. destruct Hno as [Hno| ->]; [exact Hno|].
        rewrite Hc in Hc'. discriminate. }
      destruct r as [s|].
      - destruct Hr as (before & caps & after & -> & Hs & Hoff & Hbefore).
        exists ((server_name, capabilities) :: before), caps, after.
        split; [reflexivity|]. split; [exact Hs|]. split; [exact Hoff|].
        intros s' c' [[= <- <-]|Hin] Hs'; [now apply Hhere|].
        now apply (Hbefore s' c').
      - intros s c [[= <- <-]|Hin] Hs; [now apply Hhere|].
        now apply (Hr s c). }
    destruct connected; [|apply Hskip; [now right|exact Hrun]].
    unfold bind, lift, ret in Hrun.
    destruct (json_get key (JList []) capabilities) as [listed|e] eqn:Hl;
      [|discriminate].
    destruct (py_iter listed) as [elements|e] eqn:Hi; [|discriminate].
    destruct (scan field target elements) as [[|]|e] eqn:Hs; [| |discriminate].
    + injection Hrun as <- <-. split; [reflexivity|].
      destruct (scan_true _ _ _ Hs) as (item & Hin & Hit).
      exists [], capabilities, rest. split; [reflexivity|].
      split; [exact Hc|]. split.
      * exists listed, elements, item. auto.
      * intros s' c' [].
    + apply Hskip; [left|exact Hrun].
      intros (listed' & elements' & item & Hl' & Hi' & Hin & Hit).
      rewrite Hl in Hl'. injection Hl' as <-.
      rewrite Hi in Hi'. injection Hi' as <-.
      exact (scan_false _ _ _ Hs item Hin Hit).
Qed.
End Lookup.

(** X6. When [find_tool], [find_resource] or [find_prompt] returns, it
    has changed nothing, and its answer is the first provider in the order
    of the cache: a returned server is connected, its cached set lists an
    item with the wanted name (or URI), and no connected server before it
    does; [None] means that no connected server of the cache lists such an
    item.  A cached server that is not connected is never returned. *)
Theorem find_returns_first_provider :
  forall (K : ConnectionClass) (w w' : World) (target : string) (r : option string),
    (find_tool target w = (Ok r, w') ->
     w' = w /\ first_provider "tools" "name" target w r) /\
    (find_resource target w = (Ok r, w') ->
     w' = w /\ first_provider "resources" "uri" target w r) /\
    (find_prompt target w = (Ok r, w') ->
     w' = w /\ first_provider "prompts" "name" target w r).
Proof.
  intros K w w' target r.
  unfold find_tool, find_resource, find_prompt, first_provider.
  split; [|split]; intros Hrun;
    destruct (find_provider_sound _ _ _ _ _ _ _ Hrun) as [-> Hr];
    (split; [reflexivity|]); destruct r; exact Hr.
Qed.

(** A manager that holds a cached capability set for the knowledge-base
    server but no record of it: the server is not connected, so it is not
    the answer although its set lists the tool. *)
Lemma find_returns_first_provider_witness :
  let w := stale_world models_MCPConnection dead_network in
  find_tool "old_tool" w = (Ok None, w) /\
  first_provider "tools" "name" "old_tool" w None.
Proof.
  intros w.
  assert (H : find_tool "old_tool" w = (Ok None, w))
    by (vm_compute; reflexivity).
  split; [exact H|].
  exact (proj2 (proj1 (find_returns_first_provider
                         models_MCPConnection w w "old_tool" None) H)).
Defined.

(** ** The listings *)

Section Listings.
Context {K : ConnectionClass}.

Lemma collect_returns (key : string) (items : dict json) :
  forall (acc : dict json) (w w' : World) (found : dict json),
    collect key items acc w = (Ok found, w') ->
    w' = w /\
    (forall n v,
        dict_get n found = Some v ->
        dict_get n acc = Some v \/
        exists capabilities,
          In (n, capabilities) items /\
          is_server_connected n w = (Ok true, w) /\
          json_get key (JList []) capabilities = Ok v) /\
    (forall n, dict_get n acc <> None -> dict_get n found <> None) /\
    (forall n capabilities,
        In (n, capabilities) items ->
        is_server_connected n w = (Ok true, w) ->
        dict_get n found <> None).
Proof.
  induction items as [|[server_name capabilities] rest IH];
    intros acc w w' found Hrun.
  - injection Hrun as <- <-. split; [reflexivity|]. split; [auto|].
    split; [auto|]. intros n c [].
  - cbn [collect] in Hrun. unfold bind in Hrun.
    destruct (is_server_connected server_name w) as [[c|e] w0] eqn:Hc;
      [|discriminate].
    pose proof (is_server_connected_pure _ _ _ _ Hc) as ->.
    destruct c.
    + unfold lift in Hrun.
      destruct (json_get key (JList []) capabilities) as [v0|e] eqn:Hv;
        [|discriminate].
      destruct (IH _ _ _ _ Hrun) as (-> & Hsound & Hacc & Hfull).
      split; [reflexivity|]. split; [|split].
      * intros n v Hn. destruct (Hsound n v Hn) as [Hset|(c & Hin & Hcon & Hget)].
        -- destruct (String.eqb_spec n server_name) as [->|Hne].
           ++ rewrite dict_get_set_eq in Hset. injection Hset as <-.
              right. exists capabilities. split; [now left|]. split; assumption.
           ++ left. now rewrite dict_get_set_ne in Hset.
        -- right. exists c. split; [now right|]. split; assumption.
      * intros n Hn. apply Hacc.
        destruct (String.eqb_spec n server_name) as [->|Hne].
        -- rewrite dict_get_set_eq. discriminate.
        -- now rewrite dict_get_set_ne.
      * intros n c [[= <- <-]|Hin] Hcon.
        -- apply Hacc. rewrite dict_get_set_eq. discriminate.
        -- exact (Hfull n c Hin Hcon).
    + destruct (IH _ _ _ _ Hrun) as (-> & Hsound & Hacc & Hfull).
      split; [reflexivity|]. split; [|split].
      * intros n v Hn. destruct (Hsound n v Hn) as [Hset|(c & Hin & Hcon & Hget)].
        -- now left.
        -- right. exists c. split; [now right|]. split; assumption.
      * exact Hacc.
      * intros n c [[= <- <-]|Hin] Hcon; [congruence|].
        exact (Hfull n c Hin Hcon).
Qed.

Lemma collect_raises (key : string) (items : dict json) :
  forall (acc : dict json) (w w' : World) (e : exn),
    collect key items acc w = (Raise e, w') ->
    w' = w /\
    exists n capabilities,
      In (n, capabilities) items /\
      (is_server_connected n w = (Raise e, w) \/
       (is_server_connected n w = (Ok true, w) /\
        json_get key (JList []) capabilities = Raise e)).
Proof.
  induction items as [|[server_name capabilities] rest IH];
    intros acc w w' e Hrun; [discriminate|].
  cbn [collect] in Hrun. unfold bind in Hrun.
  destruct (is_server_connected server_name w) as [[c|e0] w0] eqn:Hc.
  - pose proof (is_server_connected_pure _ _ _ _ Hc) as ->.
    destruct c.
    + unfold lift in Hrun.
      destruct (json_get key (JList []) capabilities) as [v0|e0] eqn:Hv.
      * destruct (IH _ _ _ _ Hrun) as (-> & n & c & Hin & Hwhy).
        split; [reflexivity|]. exists n, c. split; [now right|exact Hwhy].
      * injection Hrun as <- <-. split; [reflexivity|].
        exists server_name, capabilities. split; [now left|]. right. now split.
    + destruct (IH _ _ _ _ Hrun) as (-> & n & c & Hin & Hwhy).
      split; [reflexivity|]. exists n, c. split; [now right|exact Hwhy].
  - pose proof (is_server_connected_pure _ _ _ _ Hc) as ->.
    injection Hrun as <- <-. split; [reflexivity|].
    exists server_name, capabilities. split; [now left|]. now left.
Qed.

Lemma collect_outcome (key : string) (w : World) :
  let out := collect key (capabilities_cache (self w)) [] w in
  snd out = w /\
  match fst out with
  | Ok listing => lists_exactly key w listing
  | Raise e =>
      exists n capabilities,
        In (n, capabilities) (capabilities_cache (self w)) /\
        (is_server_connected n w = (Raise e, w) \/
         (is_server_connected n w = (Ok true, w) /\
          json_get key (JList []) capabilities = Raise e))
  end.
Proof.
  cbv zeta.
  destruct (collect key (capabilities_cache (self w)) [] w) as [[listing|e] w'] eqn:Hrun;
    cbn [fst snd].
  - destruct (collect_returns _ _ _ _ _ _ Hrun) as (-> & Hsound & _ & Hfull).
    split; [reflexivity|]. split; [|exact Hfull].
    intros n v Hn. destruct (Hsound n v Hn) as [H|H]; [discriminate|exact H].
  - destruct (collect_raises _ _ _ _ _ _ Hrun) as (-> & H).
    split; [reflexivity|exact H].
Qed.
End Listings.

(** X7. [get_available_tools], [get_available_resources] and
    [get_available_prompts], whatever the record class, change nothing.
    When one of them returns, its listing holds exactly the connected
    servers of the cache: a listed server is one whose record answered
    [True] to [is_connected], with the list its cached set holds under the
    key (the empty list when the key is absent), and every such server is
    listed; a cached server without a record, or whose record answered
    [False], is never listed.  When it raises, the exception is the one of
    an [is_connected] call on a record of a cached server, or the one of
    [get] on the cached set of a connected server. *)
Theorem listings_show_connected_servers :
  forall (K : ConnectionClass) (w : World),
    let verdict (key : string) (out : result (dict json) * World) :=
      snd out = w /\
      match fst out with
      | Ok listing => lists_exactly key w listing
      | Raise e =>
          exists n capabilities,
            In (n, capabilities) (capabilities_cache (self w)) /\
            (is_server_connected n w = (Raise e, w) \/
             (is_server_connected n w = (Ok true, w) /\
              json_get key (JList []) capabilities = Raise e))
      end in
    verdict "tools" (get_available_tools w) /\
    verdict "resources" (get_available_resources w) /\
    verdict "prompts" (get_available_prompts w).
Proof.
  intros K w verdict. unfold verdict, get_available_tools, get_available_resources,
    get_available_prompts.
  split; [|split]; apply collect_outcome.
Qed.

(** With the dataclass of [shared/models.py]: a cached server without a
    record is not listed, and a cached server with a record makes the
    listing raise. *)
Lemma listings_of_the_dataclass :
  get_available_tools (stale_world models_MCPConnection dead_network)
  = (Ok [], stale_world models_MCPConnection dead_network) /\
  get_available_prompts one_record_two_servers
  = (Raise (AttributeError "MCPConnection" "is_connected"), one_record_two_servers).
Proof.
  split; vm_compute; reflexivity.
Qed.

(** ** Calls against a server whose record cannot be asked *)

Section BrokenRecord.
Context {K : ConnectionClass}.

(** When the connection test raises, the shared body of the three methods
    raises that exception, on the world that [_ensure_http_client] left. *)
Lemma rpc_stops_at_failed_test (server_name path : string) (payload : json)
      (key : string) (what : text) (w : World) (e : exn) :
  is_server_connected server_name w = (Raise e, w) ->
  rpc server_name path payload key what w
  = (Raise e, snd (_ensure_http_client w)).
Proof.
  intros Hnc.
  destruct (ensure_http_client_frame w) as (w1 & Hrun & Hconn & _).
  unfold rpc. unfold bind at 1. rewrite Hrun. cbn [snd].
  unfold bind at 1.
  rewrite (is_server_connected_same w w1 server_name (Raise e) Hconn Hnc).
  reflexivity.
Qed.

Lemma guarded_rpc_failed_test (server_name path : string) (payload : json)
      (key : string) (what : text) (b : CircuitBreaker) (w : World) (e : exn) :
  is_server_connected server_name w = (Raise e, w) ->
  breaker_call (rpc server_name path payload key what) (b, w) =
  if breaker_blocks b w
  then (Raise CircuitOpenError, (b, w))
  else (Raise e,
        (if expected_exception b e
         then _on_failure (let_through b) (snd (_ensure_http_client w))
         else let_through b,
         snd (_ensure_http_client w))).
Proof.
  intros Hnc. rewrite breaker_call_cases.
  destruct (breaker_blocks b w); [reflexivity|].
  rewrite (rpc_stops_at_failed_test _ _ _ _ _ _ _ Hnc).
  now destruct (expected_exception b e).
Qed.
End BrokenRecord.

(** X8. When the [is_connected] call on the record of a server raises,
    whatever the record class, [call_tool], [read_resource] and
    [get_prompt] against that server raise the same exception before any
    request: unless the breaker of the method turns the call away, the
    exception of the record comes out, the world is the one
    [_ensure_http_client] leaves (no request, no sleep, the clock and the
    three tables untouched), and the breaker of the method counts the
    exception as a failure when it is one of its expected exceptions.  With
    the dataclass of [shared/models.py] this is what happens for every
    server that has a record. *)
Theorem connection_test_error_comes_out :
  forall (K : ConnectionClass) (p : Process) (server_name : string) (e : exn),
    is_server_connected server_name (world p) = (Raise e, world p) ->
    let w1 := snd (_ensure_http_client (world p)) in
    let counted_by (b : CircuitBreaker) :=
      if expected_exception b e then _on_failure (let_through b) w1
      else let_through b in
    (acts (trace w1) = acts (trace (world p)) /\
     clock w1 = clock (world p) /\
     connections (self w1) = connections (self (world p)) /\
     base_urls (self w1) = base_urls (self (world p)) /\
     capabilities_cache (self w1) = capabilities_cache (self (world p))) /\
    (forall tool_name arguments,
        call_tool server_name tool_name arguments p =
        if breaker_blocks (call_tool_breaker p) (world p)
        then (Raise CircuitOpenError, p)
        else (Raise e,
              {| world := w1;
                 call_tool_breaker := counted_by (call_tool_breaker p);
                 read_resource_breaker := read_resource_breaker p;
                 get_prompt_breaker := get_prompt_breaker p |})) /\
    (forall uri,
        read_resource server_name uri p =
        if breaker_blocks (read_resource_breaker p) (world p)
        then (Raise CircuitOpenError, p)
        else (Raise e,
              {| world := w1;
                 call_tool_breaker := call_tool_breaker p;
                 read_resource_breaker := counted_by (read_resource_breaker p);
                 get_prompt_breaker := get_prompt_breaker p |})) /\
    (forall prompt_name arguments,
        get_prompt server_name prompt_name arguments p =
        if breaker_blocks (get_prompt_breaker p) (world p)
        then (Raise CircuitOpenError, p)
        else (Raise e,
              {| world := w1;
                 call_tool_breaker := call_tool_breaker p;
                 read_resource_breaker := read_resource_breaker p;
                 get_prompt_breaker := counted_by (get_prompt_breaker p) |})).
Proof.
  intros K p server_name e Hnc w1 counted_by.
  destruct (ensure_http_client_frame (world p))
    as (w1' & Hrun & Hconn & Hurl & Hcache & _).
  destruct (ensure_http_client_quiet (world p)) as [Hacts Hclk].
  assert (Ew : w1' = w1) by (unfold w1; now rewrite Hrun). subst w1'.
  split; [auto 6|].
  destruct p as [w bc br bg].
  cbn [world call_tool_breaker read_resource_breaker get_prompt_breaker] in *.
  split; [|split].
  - intros tool_name arguments. unfold call_tool, call_tool_body.
    cbn [world call_tool_breaker read_resource_breaker get_prompt_breaker].
    rewrite (guarded_rpc_failed_test _ _ _ _ _ _ _ _ Hnc).
    now destruct (breaker_blocks bc w).
  - intros uri. unfold read_resource, read_resource_body.
    cbn [world call_tool_breaker read_resource_breaker get_prompt_breaker].
    rewrite (guarded_rpc_failed_test _ _ _ _ _ _ _ _ Hnc).
    now destruct (breaker_blocks br w).
  - intros prompt_name arguments. unfold get_prompt, get_prompt_body.
    cbn [world call_tool_breaker read_resource_breaker get_prompt_breaker].
    rewrite (guarded_rpc_failed_test _ _ _ _ _ _ _ _ Hnc).
    now destruct (breaker_blocks bg w).
Qed.

(** The knowledge-base server has a record of the dataclass, made by
    hand, a base URL and a cached set: reading a resource from it raises
    the [AttributeError] of the missing [is_connected]; nothing was sent
    and the breaker of [read_resource] has counted one failure. *)
Lemma connection_test_error_comes_out_witness :
  let p := start connected_by_hand in
  let e := AttributeError "MCPConnection" "is_connected" in
  let out := read_resource "knowledge_base" "notes://all" p in
  is_server_connected "knowledge_base" (world p) = (Raise e, world p) /\
  fst out = Raise e /\
  acts (trace (world (snd out))) = [] /\
  failure_count (read_resource_breaker (snd out)) = 1%Z /\
  failure_count (call_tool_breaker (snd out)) = 0%Z.
Proof.
  intros p e out.
  assert (Hnc : is_server_connected "knowledge_base" (world p) = (Raise e, world p))
    by (vm_compute; reflexivity).
  destruct (connection_test_error_comes_out
              models_MCPConnection p "knowledge_base" e Hnc)
    as ((Hacts & _) & _ & Hread & _).
  split; [exact Hnc|].
  unfold out. rewrite (Hread "notes://all").
  change (breaker_blocks (read_resource_breaker p) (world p)) with false.
  cbn [fst snd world call_tool_breaker read_resource_breaker].
  split; [reflexivity|]. split; [rewrite Hacts; reflexivity|].
  split; reflexivity.
Defined.

(** ** The global manager *)

(** X10. [get_http_mcp_manager] initializes at most once, also when the
    initialization fails.  The global is assigned before [initialize] is
    awaited, so after a first call, whatever its outcome, every later call
    returns the manager as it is and does nothing else.  In particular,
    when [get_config()] raised during the first call, that call raises the
    same exception, and the second call returns, without raising, a manager
    that knows no server. *)
Theorem global_manager_initialized_once :
  forall (K : ConnectionClass) (w : World),
    let first := get_http_mcp_manager (false, w) in
    get_http_mcp_manager (snd first)
    = (Ok (self (snd (snd first))), snd first) /\
    forall e,
      get_config w = Raise e ->
      fst first = Raise e /\
      connections (self (snd (snd first))) = [] /\
      base_urls (self (snd (snd first))) = [] /\
      requests (trace (snd (snd first))) = requests (trace w).
Proof.
  intros K w first.
  assert (Hfirst : fst (snd first) = true).
  { unfold first, get_http_mcp_manager.
    destruct (initialize (with_self HTTPMCPManager_init w)) as [[[]|e] w1];
      reflexivity. }
  split.
  - destruct (snd first) as [assigned w1]. cbn [fst snd] in *. subst assigned.
    reflexivity.
  - intros e Hcfg.
    destruct (ensure_http_client_frame (with_self HTTPMCPManager_init w))
      as (w1 & Hrun & Hconn & Hurl & _ & Hreq & _ & _ & Hcfg1).
    assert (Hinit : initialize (with_self HTTPMCPManager_init w) = (Raise e, w1)).
    { unfold initialize. unfold bind. rewrite Hrun.
      cbn [get_config with_self] in Hcfg1. now rewrite Hcfg1, Hcfg. }
    unfold first, get_http_mcp_manager. rewrite Hinit.
    cbn [fst snd]. rewrite Hconn, Hurl, Hreq. auto.
Qed.

(** Without an API key the first call raises the [ValueError] of the
    configuration; the second returns a manager without servers. *)
Lemma global_manager_initialized_once_witness :
  let w := no_api_key models_MCPConnection in
  let first := get_http_mcp_manager (false, w) in
  let second := get_http_mcp_manager (snd first) in
  fst first = Raise (Exn "ValueError"
                       (JStr "GOOGLE_API_KEY environment variable is required")) /\
  is_raise (fst second) = false /\
  connections (self (snd (snd first))) = [].
Proof.
  intros w first second.
  destruct (global_manager_initialized_once models_MCPConnection w) as [Hsecond Hfail].
  destruct (Hfail _ eq_refl) as (H1 & H2 & _).
  split; [exact H1|]. split; [|exact H2].
  unfold second, first. rewrite Hsecond. reflexivity.
Defined.

(** * Further properties of client/utils.py *)

(** ** The retry decorator for any policy *)

Section RetryAny.
Context {S : Type} {RT : Runtime S} {A : Type}.
Variable config : RetryConfig.
Variable func : M S A.

End RetryAny.



Section RetryCount.
Context {S : Type} {RT : Runtime S} {A : Type}.
Variable config : RetryConfig.
Variable func : M S A.

End RetryCount.



(** ** The circuit breaker for any threshold *)

Section BreakerAny.
Context {S : Type} {RT : Runtime S}.

(** What holds of a breaker between two calls, whatever exceptions it
    counts: closed below its threshold, or not closed at or above it with
    the time of the last failure known; and it is half-open only if some
    exception is not counted. *)
Lemma breaker_step_shape {A : Type} (func : M S A) (n : Z) (b b' : CircuitBreaker)
      (s s' : S) (r : result A) :
  (1 <= n)%Z ->
  failure_threshold b = n ->
  (0 <= failure_count b)%Z ->
  (state b = CLOSED /\ (failure_count b < n)%Z) \/
  (state b <> CLOSED /\ (n <= failure_count b)%Z /\ last_failure_time b <> None) ->
  (catches_all b -> state b <> HALF_OPEN) ->
  breaker_call func (b, s) = (r, (b', s')) ->
  expected_exception b' = expected_exception b /\
  failure_threshold b' = n /\
  recovery_timeout b' = recovery_timeout b /\
  (0 <= failure_count b')%Z /\
  ((state b' = CLOSED /\ (failure_count b' < n)%Z) \/
   (state b' <> CLOSED /\ (n <= failure_count b')%Z /\ last_failure_time b' <> None)) /\
  (catches_all b' -> state b' <> HALF_OPEN).
Proof.
  intros Hone Hn Hpos Hshape Hhalf Hcall.
  rewrite breaker_call_cases in Hcall.
  destruct (breaker_blocks b s).
  - injection Hcall as <- <- <-. auto 6.
  - assert (Ht : failure_threshold (let_through b) = n)
      by (unfold let_through; destruct (state b); exact Hn).
    assert (Hc : failure_count (let_through b) = failure_count b)
      by (unfold let_through; destruct (state b); reflexivity).
    assert (Ho : recovery_timeout (let_through b) = recovery_timeout b)
      by (unfold let_through; destruct (state b); reflexivity).
    assert (He : expected_exception (let_through b) = expected_exception b)
      by (unfold let_through; destruct (state b); reflexivity).
    assert (Hl : last_failure_time (let_through b) = last_failure_time b)
      by (unfold let_through; destruct (state b); reflexivity).
    assert (Hs : state (let_through b) = CLOSED <-> state b = CLOSED)
      by (unfold let_through; destruct (state b) eqn:E; simpl; rewrite ?E; split; congruence).
    destruct (func s) as [[v|e] s1].
    + injection Hcall as <- <- <-. cbn [_on_success expected_exception
        failure_threshold recovery_timeout failure_count state last_failure_time].
      split; [exact He|]. split; [exact Ht|]. split; [exact Ho|].
      split; [lia|]. split; [left; split; [reflexivity|lia]|]. discriminate.
    + destruct (expected_exception b e) eqn:Hexp.
      * injection Hcall as <- <- <-. cbn [_on_failure expected_exception
          failure_threshold recovery_timeout failure_count state last_failure_time].
        rewrite Ht, Hc.
        split; [exact He|]. split; [reflexivity|]. split; [exact Ho|].
        split; [lia|].
        destruct (n <=? failure_count b + 1)%Z eqn:E.
        -- split; [|discriminate]. right.
           split; [discriminate|]. apply Z.leb_le in E.
           split; [exact E|discriminate].
        -- apply Z.leb_gt in E.
           destruct Hshape as [[Hst Hlt]|[Hst [Hge _]]]; [|lia].
           assert (Hst' : state (let_through b) = CLOSED) by now apply Hs.
           rewrite Hst'. split; [left; split; [reflexivity|exact E]|discriminate].
      * injection Hcall as <- <- <-.
        split; [exact He|]. split; [exact Ht|]. split; [exact Ho|].
        split; [lia|]. split.
        -- rewrite Hc, Hl.
           destruct Hshape as [[Hst Hlt]|[Hst Hrest]].
           ++ left. split; [now apply Hs|exact Hlt].
           ++ right. split; [|exact Hrest]. intros H. apply Hst. now apply Hs.
        -- intros Hall. exfalso.
           assert (Hx : expected_exception b e = true)
             by (rewrite <- He; apply Hall).
           congruence.
Qed.
End BreakerAny.

(** X13. A breaker built with a threshold of at least one and any
    [expected_exception], after any number of calls of whatever functions
    at whatever times, one call at a time.  Its settings are the original
    ones.  It is closed with fewer counted failures than the threshold, or
    it is open or half-open with at least as many and knows the time of the
    last counted failure.  When it is not closed, every call made at least
    [recovery_timeout] after that time, and every call at all when it is
    half-open, runs the wrapped function: the breaker cannot stay shut for
    good.  It can be left half-open, by a trial that ended with an
    exception it does not count, but never when it counts every exception
    (exits that are no [Exception], such as a cancellation, are not
    modelled). *)
Theorem breaker_reachable_states :
  forall (S : Type) (RT : Runtime S) (threshold : Z) (timeout : Q)
         (expected : exn -> bool) (b : CircuitBreaker),
    (1 <= threshold)%Z ->
    reachable (CircuitBreaker_with threshold timeout expected) b ->
    failure_threshold b = threshold /\
    recovery_timeout b = timeout /\
    expected_exception b = expected /\
    (0 <= failure_count b)%Z /\
    ((state b = CLOSED /\ (failure_count b < threshold)%Z) \/
     (state b <> CLOSED /\ (threshold <= failure_count b)%Z /\
      exists t, last_failure_time b = Some t /\
                forall (A : Type) (func : M S A) (s : S),
                  state b = HALF_OPEN \/ timeout <= time_time s - t ->
                  exists b', breaker_call func (b, s)
                             = (fst (func s), (b', snd (func s))))) /\
    ((forall e, expected e = true) -> state b <> HALF_OPEN).
Proof.
  intros S RT threshold timeout expected b Hthr Hreach.
  assert (Hinv : expected_exception b = expected /\
                 failure_threshold b = threshold /\
                 recovery_timeout b = timeout /\
                 (0 <= failure_count b)%Z /\
                 ((state b = CLOSED /\ (failure_count b < threshold)%Z) \/
                  (state b <> CLOSED /\ (threshold <= failure_count b)%Z /\
                   last_failure_time b <> None)) /\
                 (catches_all b -> state b <> HALF_OPEN)).
  { induction Hreach as [|A func b b' s s' r Hreach IH Hcall].
    - cbn [CircuitBreaker_with expected_exception failure_threshold
             recovery_timeout failure_count state last_failure_time].
      split; [reflexivity|]. split; [reflexivity|]. split; [reflexivity|].
      split; [lia|]. split; [left; split; [reflexivity|lia]|discriminate].
    - destruct IH as (He & Hn & Ho & Hpos & Hshape & Hhalf).
      destruct (breaker_step_shape func threshold b b' s s' r Hthr Hn Hpos Hshape
                  Hhalf Hcall)
        as (He' & Hn' & Ho' & Hpos' & Hshape' & Hhalf').
      split; [congruence|]. split; [exact Hn'|]. split; [congruence|].
      split; [exact Hpos'|]. split; [exact Hshape'|exact Hhalf']. }
  destruct Hinv as (He & Hn & Ho & Hpos & Hshape & Hhalf).
  split; [exact Hn|]. split; [exact Ho|]. split; [exact He|]. split; [exact Hpos|].
  split.
  - destruct Hshape as [Hc|(Hst & Hge & Hlast)]; [now left|right].
    split; [exact Hst|]. split; [exact Hge|].
    destruct (last_failure_time b) as [t|] eqn:Ht; [|now elim Hlast].
    exists t. split; [reflexivity|].
    intros A func s Hwhen.
    assert (Hrun : breaker_call func (b, s) =
                   match func s with
                   | (Ok v, s1) => (Ok v, (_on_success (let_through b), s1))
                   | (Raise e, s1) =>
                       if expected_exception b e
                       then (Raise e, (_on_failure (let_through b) s1, s1))
                       else (Raise e, (let_through b, s1))
                   end).
    { rewrite breaker_call_cases.
      assert (Hb : breaker_blocks b s = false).
      { unfold breaker_blocks, _should_attempt_reset. rewrite Ht.
        destruct (state b) eqn:Hs; try reflexivity.
        destruct Hwhen as [Hw|Hw]; [discriminate|].
        rewrite <- Ho in Hw. apply Qle_bool_iff in Hw. now rewrite Hw. }
      now rewrite Hb. }
    rewrite Hrun.
    destruct (func s) as [[v|e] s1]; cbn [fst snd].
    + eexists. reflexivity.
    + destruct (expected_exception b e); eexists; reflexivity.
  - intros Hall. apply Hhalf. intros e. rewrite He. apply Hall.
Qed.

(** A breaker with threshold 3 that counts every exception, after three
    refused calls: it is open and it has the settings it was built with. *)
Lemma breaker_reachable_states_witness :
  let w := fresh_world models_MCPConnection dead_network in
  let f := probe (K := models_MCPConnection) "http://127.0.0.1:8001/tools/call" in
  let new := CircuitBreaker_with 3 30 (fun _ => true) in
  let s1 := snd (breaker_call f (new, w)) in
  let s2 := snd (breaker_call f s1) in
  let s3 := snd (breaker_call f s2) in
  (1 <= 3)%Z /\
  reachable (S := World (K := models_MCPConnection)) new (fst s3) /\
  state (fst s3) = OPEN /\
  failure_threshold (fst s3) = 3%Z.
Proof.
  intros w f new s1 s2 s3.
  assert (Hreach : reachable (S := World (K := models_MCPConnection)) new (fst s3)).
  { apply (@reach_call _ _ new _ f (fst s2) (fst s3)
             (snd s2) (snd s3) (fst (breaker_call f s2))).
    - apply (@reach_call _ _ new _ f (fst s1) (fst s2)
               (snd s1) (snd s2) (fst (breaker_call f s1))).
      + apply (@reach_call _ _ new _ f new (fst s1) w (snd s1)
                 (fst (breaker_call f (new, w)))).
        * apply reach_start.
        * vm_compute. reflexivity.
      + vm_compute. reflexivity.
    - vm_compute. reflexivity. }
  split; [lia|]. split; [exact Hreach|].
  split; [vm_compute; reflexivity|].
  exact (proj1 (breaker_reachable_states _ _ 3%Z 30 (fun _ => true) (fst s3)
                  ltac:(lia) Hreach)).
Defined.

(** X14. For any threshold [n] of at least one: after [k] calls in a
    row that each ended with an exception, counted from a new breaker and
    with [k] not above [n], the breaker has counted exactly [k] failures;
    it is closed while [k] is below [n] and open once [k] is [n].  So the
    wrapped function was run at each of these calls, and it is the [n]-th
    consecutive failure, no earlier one, that opens the breaker. *)
Theorem breaker_opens_at_threshold :
  forall (S : Type) (RT : Runtime S) (n : Z) (timeout : Q) (k : nat)
         (b : CircuitBreaker),
    (1 <= n)%Z ->
    failures_in_a_row (CircuitBreaker_init n timeout) k b ->
    (Z.of_nat k <= n)%Z ->
    failure_count b = Z.of_nat k /\
    state b = (if (Z.of_nat k <? n)%Z then CLOSED else OPEN).
Proof.
  intros S RT n timeout k b Hn Hrow.
  assert (G : (Z.of_nat k <= n)%Z ->
              catches_all b /\ failure_threshold b = n /\
              failure_count b = Z.of_nat k /\
              state b = (if (Z.of_nat k <? n)%Z then CLOSED else OPEN)).
  { induction Hrow as [|A func k b b' s s' e Hrow IH Hcall]; intros Hk.
    - split; [intros e; reflexivity|]. split; [reflexivity|].
      split; [reflexivity|].
      simpl. destruct (0 <? n)%Z eqn:E; [reflexivity|]. apply Z.ltb_ge in E. lia.
    - destruct (IH ltac:(lia)) as (Hall & Hthr & Hcnt & Hst).
      assert (Hlt : (Z.of_nat k <? n)%Z = true) by (apply Z.ltb_lt; lia).
      rewrite Hlt in Hst.
      rewrite (breaker_passes func b s) in Hcall by (rewrite Hst; discriminate).
      destruct (func s) as [[v|e1] s1]; [discriminate|].
      rewrite Hall in Hcall. injection Hcall as _ <- _.
      split; [exact Hall|]. simpl. rewrite Hthr, Hcnt, Hst.
      split; [reflexivity|]. split; [lia|].
      replace (Z.of_nat k + 1)%Z with (Z.of_nat (Datatypes.S k)) by lia.
      change (Z.pos (Pos.of_succ_nat k)) with (Z.of_nat (Datatypes.S k)).
      destruct (Z.ltb_spec (Z.of_nat (Datatypes.S k)) n);
        destruct (Z.leb_spec n (Z.of_nat (Datatypes.S k)));
        try reflexivity; lia. }
  intros Hk. destruct (G Hk) as (_ & _ & H1 & H2). auto.
Qed.

(** Two refused calls through a breaker with threshold 5: two failures
    counted, still closed. *)
Lemma breaker_opens_at_threshold_witness :
  let w := fresh_world models_MCPConnection dead_network in
  let f := probe (K := models_MCPConnection) "http://127.0.0.1:8001/tools/call" in
  let e := Exn "ConnectError" (JStr "All connection attempts failed") in
  let s1 := snd (breaker_call f (CircuitBreaker_init 5 30, w)) in
  let s2 := snd (breaker_call f s1) in
  (1 <= 5)%Z /\ (Z.of_nat 2 <= 5)%Z /\
  failures_in_a_row (S := World (K := models_MCPConnection))
    (CircuitBreaker_init 5 30) 2 (fst s2) /\
  failure_count (fst s2) = 2%Z /\ state (fst s2) = CLOSED.
Proof.
  intros w f e s1 s2.
  assert (Hrow : failures_in_a_row (S := World (K := models_MCPConnection))
    (CircuitBreaker_init 5 30) 2 (fst s2)).
  { apply (@row_call _ _ (CircuitBreaker_init 5 30) _ f 1 (fst s1) (fst s2)
             (snd s1) (snd s2) e).
    - apply (@row_call _ _ (CircuitBreaker_init 5 30) _ f 0
               (CircuitBreaker_init 5 30) (fst s1) w (snd s1) e).
      + apply row_start.
      + vm_compute. reflexivity.
    - vm_compute. reflexivity. }
  split; [lia|]. split; [lia|]. split; [exact Hrow|].
  exact (breaker_opens_at_threshold _ _ 5%Z 30 2%nat (fst s2)
           ltac:(lia) Hrow ltac:(lia)).
Defined.

(** ** The rate limiter *)

Lemma Qltb_lt (x y : Q) : Qltb x y = true <-> x < y.
Proof.
  unfold Qltb. rewrite negb_true_iff. split.
  - intros H. apply Qnot_le_lt. intros Hle. apply Qle_bool_iff in Hle. congruence.
  - intros H. destruct (Qle_bool y x) eqn:E; [|reflexivity].
    apply Qle_bool_iff in E. exfalso. exact (Qlt_not_le _ _ H E).
Qed.

Lemma Qltb_ge (x y : Q) : Qltb x y = false <-> y <= x.
Proof.
  unfold Qltb. rewrite negb_false_iff. apply Qle_bool_iff.
Qed.

(** [min] of a non-empty list is one of its items and none is smaller. *)
Lemma fold_min_spec (rest : list Q) :
  forall x,
    let m := fold_left (fun m y => if Qltb y m then y else m) rest x in
    (m = x \/ In m rest) /\ m <= x /\ forall t, In t rest -> m <= t.
Proof.
  induction rest as [|y rest IH]; intros x; cbn [fold_left].
  - split; [now left|]. split; [apply Qle_refl|intros t []].
  - destruct (Qltb y x) eqn:E.
    + apply Qltb_lt in E. destruct (IH y) as (Hin & Hle & Hall). cbv zeta in *.
      split; [right; destruct Hin as [->|H]; [now left|now right]|].
      split; [apply Qle_trans with y; [exact Hle|now apply Qlt_le_weak]|].
      intros t [<-|Ht]; [exact Hle|now apply Hall].
    + apply Qltb_ge in E. destruct (IH x) as (Hin & Hle & Hall). cbv zeta in *.
      split; [destruct Hin as [->|H]; [now left|right; now right]|].
      split; [exact Hle|].
      intros t [<-|Ht]; [apply Qle_trans with x; assumption|now apply Hall].
Qed.

Lemma py_min_spec (l : list Q) :
  l <> [] ->
  exists m, py_min l = Ok m /\ In m l /\ forall t, In t l -> m <= t.
Proof.
  destruct l as [|x rest]; [intros H; now elim H|]. intros _.
  destruct (fold_min_spec rest x) as (Hin & Hle & Hall). cbv zeta in *.
  eexists. split; [reflexivity|]. split.
  - destruct Hin as [->|H]; [now left|now right].
  - intros t [<-|Ht]; [exact Hle|now apply Hall].
Qed.

Section AcquireCases.
Context {S : Type} {RT : Runtime S}.

(** The window is not full: the call is admitted at once. *)
Lemma acquire_not_full (rl : RateLimiter) (s : S) :
  let now := time_time s in
  let kept := filter (recent now (time_window rl)) (calls rl) in
  (Z.of_nat (List.length kept) < max_calls rl)%Z ->
  acquire (rl, s) = (Ok tt, (with_calls (kept ++ [now]) rl, s)).
Proof.
  intros now kept Hlt. unfold acquire. fold now. fold kept.
  apply Z.leb_gt in Hlt. now rewrite Hlt.
Qed.

(** The window is full: one sleep, until the oldest stamp leaves it. *)
Lemma acquire_full (rl : RateLimiter) (s : S) :
  let now := time_time s in
  let kept := filter (recent now (time_window rl)) (calls rl) in
  (max_calls rl <= Z.of_nat (List.length kept))%Z ->
  kept <> [] ->
  exists oldest,
    In oldest (calls rl) /\ now - oldest < time_window rl /\
    (forall t, In t kept -> oldest <= t) /\
    0 < time_window rl - (now - oldest) /\
    acquire (rl, s)
    = (Ok tt, (with_calls (kept ++ [now]) rl,
               asyncio_sleep (time_window rl - (now - oldest)) s)).
Proof.
  intros now kept Hge Hne.
  destruct (py_min_spec kept Hne) as (m & Hmin & Hin & Hall).
  exists m. unfold kept in Hin. apply filter_In in Hin. destruct Hin as [Hin Hrec].
  apply Qltb_lt in Hrec.
  split; [exact Hin|]. split; [exact Hrec|]. split; [exact Hall|].
  split; [now apply (proj1 (Qlt_minus_iff _ _))|].
  unfold acquire. fold now. fold kept.
  apply Z.leb_le in Hge. rewrite Hge, Hmin. reflexivity.
Qed.
End AcquireCases.

(** X15. [RateLimiter.acquire], for any limiter and at any time.  Stamps
    that have left the window are dropped, the others kept in order.  With
    fewer than [max_calls] stamps in the window the call is admitted at
    once: nothing sleeps.  With the window full the task sleeps once, for
    the time the oldest stamp of the window still has to stay in it, which
    is more than zero.  In both cases the stamp that is appended is the
    time at entry, also when the call then waited.  A limiter with
    [max_calls] of zero or less and no stamp in the window raises the
    [ValueError] of [min] on an empty list and records nothing; with
    [max_calls] of one or more [acquire] never raises. *)
Theorem acquire_outcome :
  forall (S : Type) (RT : Runtime S) (rl : RateLimiter) (s : S),
    let now := time_time s in
    let kept := filter (recent now (time_window rl)) (calls rl) in
    ((Z.of_nat (List.length kept) < max_calls rl)%Z ->
     acquire (rl, s) = (Ok tt, (with_calls (kept ++ [now]) rl, s))) /\
    ((max_calls rl <= Z.of_nat (List.length kept))%Z ->
     kept <> [] ->
     exists oldest,
       In oldest (calls rl) /\ now - oldest < time_window rl /\
       (forall t, In t kept -> oldest <= t) /\
       0 < time_window rl - (now - oldest) /\
       acquire (rl, s)
       = (Ok tt, (with_calls (kept ++ [now]) rl,
                  asyncio_sleep (time_window rl - (now - oldest)) s))) /\
    ((max_calls rl <= 0)%Z ->
     kept = [] ->
     exists e, exn_class e = "ValueError" /\
               acquire (rl, s) = (Raise e, (with_calls [] rl, s))) /\
    ((1 <= max_calls rl)%Z -> is_raise (fst (acquire (rl, s))) = false).
Proof.
  intros S RT rl s now kept.
  assert (Hfull := acquire_full rl s). cbv zeta in Hfull.
  fold now in Hfull. fold kept in Hfull.
  split; [|split; [exact Hfull|split]].
  - exact (acquire_not_full rl s).
  - intros Hzero Hempty. unfold acquire. fold now. fold kept.
    rewrite Hempty. cbn [List.length py_min].
    assert (Hle : (max_calls rl <=? Z.of_nat 0)%Z = true) by (apply Z.leb_le; lia).
    rewrite Hle. eexists. split; [|reflexivity]. reflexivity.
  - intros Hpos.
    destruct (Z.leb_spec (max_calls rl) (Z.of_nat (List.length kept))) as [Hge|Hlt].
    + assert (Hne : kept <> []) by (intros E; rewrite E in Hge; simpl in Hge; lia).
      destruct (Hfull Hge Hne) as (m & _ & _ & _ & _ & Hrun).
      now rewrite Hrun.
    + unfold acquire. fold now. fold kept.
      apply Z.leb_gt in Hlt. now rewrite Hlt.
Qed.

(** The default limiter of [APIClient], full: sixty calls at time 0, the
    next one at time 10 waits fifty seconds and is stamped 10. *)
Lemma acquire_outcome_witness :
  let rl := with_calls (repeat 0 60) (RateLimiter_init 60 60) in
  let w := with_clock 10 (fresh_world models_MCPConnection dead_network) in
  let out := acquire (rl, w) in
  (max_calls rl <= Z.of_nat (List.length (filter (recent (clock w) 60) (calls rl))))%Z /\
  fst out = Ok tt /\
  last (trace (snd (snd out))) EvClientClose = EvSleep (60 - (10 - 0)) /\
  last (calls (fst (snd out))) 0 = 10.
Proof.
  intros rl w out.
  assert (Hge : (max_calls rl
                 <= Z.of_nat (List.length (filter (recent (time_time w)
                                                     (time_window rl)) (calls rl))))%Z)
    by (vm_compute; discriminate).
  split; [exact Hge|].
  destruct (proj1 (proj2 (acquire_outcome _ World_Runtime rl w)) Hge)
    as (oldest & Hin & _ & _ & _ & Hrun).
  { vm_compute. discriminate. }
  assert (Ho : oldest = 0).
  { clear Hrun. vm_compute in Hin.
    repeat (destruct Hin as [Hin|Hin]; [now symmetry|]). destruct Hin. }
  subst oldest. unfold out. rewrite Hrun. cbn [fst snd].
  split; [reflexivity|]. split; [reflexivity|].
  vm_compute. reflexivity.
Defined.

Lemma filter_length_lt {X} (f : X -> bool) (l : list X) (x : X) :
  In x l -> f x = false -> (List.length (filter f l) < List.length l)%nat.
Proof.
  induction l as [|y l IH]; intros Hin Hf; [destruct Hin|].
  pose proof (filter_length_le f l) as Hle.
  simpl. destruct Hin as [->|Hin].
  - rewrite Hf. lia.
  - specialize (IH Hin Hf). destruct (f y); simpl; lia.
Qed.

Lemma filter_length_mono {X} (f g : X -> bool) (l : list X) :
  (forall x, In x l -> f x = true -> g x = true) ->
  (List.length (filter f l) <= List.length (filter g l))%nat.
Proof.
  induction l as [|y l IH]; intros H; [reflexivity|].
  assert (IH' := IH (fun x Hx => H x (or_intror Hx))).
  simpl. destruct (f y) eqn:Ef.
  - rewrite (H y (or_introl eq_refl) Ef). simpl. lia.
  - destruct (g y); simpl; lia.
Qed.

Lemma filter_idem {X} (f : X -> bool) (l : list X) :
  filter f (filter f l) = filter f l.
Proof.
  induction l as [|y l IH]; [reflexivity|].
  simpl. destruct (f y) eqn:E; [|exact IH]. simpl. now rewrite E, IH.
Qed.

(** Time that passes keeps the condition of the limiter. *)
Lemma limiter_ok_later (rl : RateLimiter) (t t' : Q) :
  t <= t' -> limiter_ok rl t -> limiter_ok rl t'.
Proof.
  intros Hle [Hpast Hcount]. split.
  - intros x Hx. apply Qle_trans with t; [now apply Hpast|exact Hle].
  - assert (H : (List.length (filter (recent t' (time_window rl)) (calls rl))
                 <= List.length (filter (recent t (time_window rl)) (calls rl)))%nat).
    { apply filter_length_mono. intros x _ Hx. unfold recent in *.
      apply Qltb_lt in Hx. apply Qltb_lt. lra. }
    lia.
Qed.

(** X16. In a sequential run the limiter keeps its limit on the stamps.
    A limiter with [max_calls] of at least one that holds no stamp of the
    future and at most [max_calls] stamps inside the window ending now (a
    new limiter does) is in the same condition after [acquire], which
    returns normally, and at every later time; the clock has not moved
    backwards.  So at no time does the list hold more than [max_calls]
    stamps of the current window. *)
Theorem limiter_keeps_limit :
  forall (K : ConnectionClass) (w : World) (rl : RateLimiter),
    (1 <= max_calls rl)%Z ->
    limiter_ok rl (clock w) ->
    exists rl' (w' : World),
      acquire (rl, w) = (Ok tt, (rl', w')) /\
      max_calls rl' = max_calls rl /\
      time_window rl' = time_window rl /\
      clock w <= clock w' /\
      forall later, clock w' <= later -> limiter_ok rl' later.
Proof.
  intros K w rl Hpos [Hpast Hcount].
  set (now := clock w) in *.
  set (kept := filter (recent now (time_window rl)) (calls rl)) in *.
  assert (Hkept : forall t, In t kept -> t <= now).
  { intros t Ht. apply Hpast. unfold kept in Ht. apply filter_In in Ht. tauto. }
  destruct (Z.leb_spec (max_calls rl) (Z.of_nat (List.length kept))) as [Hge|Hlt].
  - assert (Hne : kept <> []) by (intros E; rewrite E in Hge; simpl in Hge; lia).
    destruct (acquire_full (RT := World_Runtime) rl w Hge Hne)
      as (oldest & Hin & Hrec & Hall & Hwait & Hrun).
    change (time_time w) with now in Hrec, Hwait, Hrun, Hall.
    fold kept in Hrun, Hall.
    eexists. eexists. split; [exact Hrun|].
    split; [reflexivity|]. split; [reflexivity|].
    cbn [asyncio_sleep World_Runtime clock emit with_clock]. fold now.
    split; [lra|].
    intros later Hlater.
    apply (limiter_ok_later _ (now + (time_window rl - (now - oldest))) later Hlater).
    split; cbn [calls with_calls max_calls time_window].
    + intros t Ht. apply in_app_or in Ht.
      destruct Ht as [Ht|[<-|[]]]; [specialize (Hkept t Ht)|]; lra.
    + rewrite filter_app, length_app.
      assert (Hold : In oldest kept).
      { unfold kept. apply filter_In. split; [exact Hin|]. now apply Qltb_lt. }
      assert (Hdrop : recent (now + (time_window rl - (now - oldest)))
                             (time_window rl) oldest = false).
      { unfold recent. apply Qltb_ge. lra. }
      pose proof (filter_length_lt _ kept oldest Hold Hdrop) as H1.
      assert (H2 : (List.length (filter (recent (now + (time_window rl
                                                         - (now - oldest)))
                                                (time_window rl)) [now]) <= 1)%nat)
        by (simpl; destruct (recent _ _ now); simpl; lia).
      lia.
  - assert (Hrun := acquire_not_full (RT := World_Runtime) rl w Hlt).
    change (time_time w) with now in Hrun. fold kept in Hrun.
    eexists. eexists. split; [exact Hrun|].
    split; [reflexivity|]. split; [reflexivity|].
    split; [apply Qle_refl|].
    intros later Hlater. apply (limiter_ok_later _ now later Hlater).
    split; cbn [calls with_calls max_calls time_window].
    + intros t Ht. apply in_app_or in Ht.
      destruct Ht as [Ht|[<-|[]]]; [now apply Hkept|apply Qle_refl].
    + rewrite filter_app, length_app. unfold kept at 1. rewrite filter_idem.
      fold kept.
      assert (H2 : (List.length (filter (recent now (time_window rl)) [now]) <= 1)%nat)
        by (simpl; destruct (recent _ _ now); simpl; lia).
      lia.
Qed.

(** A limiter of one call per minute that admitted a call at time 0: the
    call at time 1 waits, and the condition holds afterwards. *)
Lemma limiter_keeps_limit_witness :
  let rl := with_calls [0] (RateLimiter_init 1 60) in
  let w := with_clock 1 (fresh_world models_MCPConnection dead_network) in
  (1 <= max_calls rl)%Z /\
  limiter_ok rl (clock w) /\
  exists rl' (w' : World (K := models_MCPConnection)),
    acquire (rl, w) = (Ok tt, (rl', w')) /\
    limiter_ok rl' (clock w').
Proof.
  intros rl w.
  assert (Hok : limiter_ok rl (clock w)).
  { split.
    - intros t [<-|[]]. vm_compute. discriminate.
    - vm_compute. discriminate. }
  split; [vm_compute; discriminate|]. split; [exact Hok|].
  destruct (limiter_keeps_limit models_MCPConnection w rl ltac:(vm_compute; discriminate) Hok)
    as (rl' & w' & Hrun & _ & _ & _ & Hlater).
  exists rl', w'. split; [exact Hrun|]. apply Hlater. apply Qle_refl.
Defined.

(** ** Sanitizing and truncating text *)

Lemma py_slice_to_prefix {X} (k : Z) (l : list X) :
  exists rest, l = (py_slice_to k l ++ rest)%list.
Proof.
  unfold py_slice_to. destruct (k <? 0)%Z; eexists; symmetry; apply firstn_skipn.
Qed.

Lemma py_slice_to_length {X} (k : Z) (l : list X) :
  (0 <= k)%Z -> (Z.of_nat (List.length (py_slice_to k l)) <= k)%Z.
Proof.
  intros Hk. unfold py_slice_to.
  destruct (Z.ltb_spec k 0); [lia|]. rewrite length_firstn. lia.
Qed.

Lemma py_slice_to_shorter {X} (k : Z) (l : list X) :
  (List.length (py_slice_to k l) <= List.length l)%nat.
Proof.
  unfold py_slice_to. destruct (k <? 0)%Z; rewrite length_firstn; lia.
Qed.

Lemma py_slice_to_all {X} (k : Z) (l : list X) :
  (Z.of_nat (List.length l) <= k)%Z -> py_slice_to k l = l.
Proof.
  intros Hk. unfold py_slice_to.
  destruct (Z.ltb_spec k 0); [lia|]. apply firstn_all2. lia.
Qed.

Lemma py_slice_to_In {X} (k : Z) (l : list X) (x : X) :
  In x (py_slice_to k l) -> In x l.
Proof.
  destruct (py_slice_to_prefix k l) as [rest H]. intros Hin.
  rewrite H. apply in_or_app. now left.
Qed.

Lemma lstrip_In (l : ustr) (x : N) : In x (lstrip l) -> In x l.
Proof.
  induction l as [|c rest IH]; simpl; [tauto|].
  destruct (is_space c); [intros H; right; now apply IH|tauto].
Qed.

Lemma strip_In (l : ustr) (x : N) : In x (strip l) -> In x l.
Proof.
  unfold strip, rstrip. intros H. apply in_rev in H. apply lstrip_In in H.
  apply in_rev in H. now apply lstrip_In.
Qed.

Lemma remove_all_In (chars : list N) :
  forall (s : ustr) (x : N),
    In x (fold_left (fun s c => remove_char c s) chars s) ->
    In x s /\ ~ In x chars.
Proof.
  induction chars as [|c chars IH]; intros s x H; cbn [fold_left] in H.
  - split; [exact H|intros []].
  - destruct (IH _ _ H) as [Hin Hnot]. unfold remove_char in Hin.
    apply filter_In in Hin. destruct Hin as [Hin Hne].
    split; [exact Hin|]. intros [->|Hc]; [|contradiction].
    rewrite N.eqb_refl in Hne. discriminate.
Qed.

Lemma remove_all_clean (chars : list N) :
  forall s : ustr,
    (forall x, In x s -> ~ In x chars) ->
    fold_left (fun s c => remove_char c s) chars s = s.
Proof.
  induction chars as [|c chars IH]; intros s H; cbn [fold_left]; [reflexivity|].
  assert (Hs : remove_char c s = s).
  { unfold remove_char. apply forallb_filter_id. apply forallb_forall.
    intros x Hx. apply negb_true_iff. apply N.eqb_neq. intros ->.
    apply (H c Hx). now left. }
  rewrite Hs. apply IH. intros x Hx Hc. apply (H x Hx). now right.
Qed.

(** X17. [sanitize_input] of a string, for any [max_length]: the result
    holds none of the seven characters of [dangerous_chars]; every
    character of the result is a character of the input; the result holds
    no surrogate, so it can always be encoded as UTF-8; with a
    [max_length] that is not negative the result has at most [max_length]
    characters; and a text that needs no cleaning and is not longer than
    [max_length] comes back unchanged. *)
Theorem sanitize_input_is_safe :
  forall (input_text : ustr) (max_length : Z),
    let out := sanitize_input input_text max_length in
    (forall c, In c out -> In c input_text /\ ~ In c dangerous_chars) /\
    existsb is_surrogate out = false /\
    ((0 <= max_length)%Z -> (Z.of_nat (List.length out) <= max_length)%Z) /\
    (clean input_text ->
     (Z.of_nat (List.length input_text) <= max_length)%Z ->
     out = input_text).
Proof.
  intros input_text max_length out.
  set (removed := fold_left (fun s c => remove_char c s) dangerous_chars input_text).
  set (cut := py_slice_to max_length (strip removed)).
  assert (Hout : out = if existsb is_surrogate cut
                       then filter (fun c => (c <? 128)%N) cut else cut)
    by reflexivity.
  assert (Hsub : forall c, In c out -> In c cut).
  { intros c. rewrite Hout. destruct (existsb is_surrogate cut); [|tauto].
    intros H. apply filter_In in H. tauto. }
  split; [|split; [|split]].
  - intros c Hc. apply Hsub in Hc. apply py_slice_to_In in Hc.
    apply strip_In in Hc. now apply remove_all_In in Hc.
  - rewrite Hout. destruct (existsb is_surrogate cut) eqn:E; [|exact E].
    apply not_true_is_false. intros H. apply existsb_exists in H.
    destruct H as (c & Hc & Hs). apply filter_In in Hc. destruct Hc as [_ Hlt].
    apply N.ltb_lt in Hlt. unfold is_surrogate in Hs.
    apply andb_true_iff in Hs. destruct Hs as [Hs _]. apply N.leb_le in Hs. lia.
  - intros Hpos. pose proof (py_slice_to_length max_length (strip removed) Hpos) as Hc.
    fold cut in Hc. rewrite Hout.
    destruct (existsb is_surrogate cut); [|exact Hc].
    pose proof (filter_length_le (fun c => (c <? 128)%N) cut). lia.
  - intros [Hchars Hstrip] Hlen.
    assert (Hrem : removed = input_text)
      by (apply remove_all_clean; intros x Hx; now apply Hchars).
    assert (Hcut : cut = input_text).
    { unfold cut. rewrite Hrem, Hstrip. now apply py_slice_to_all. }
    rewrite Hout, Hcut.
    assert (Hno : existsb is_surrogate input_text = false).
    { apply not_true_is_false. intros H. apply existsb_exists in H.
      destruct H as (c & Hc & Hs). destruct (Hchars c Hc) as [_ H]. congruence. }
    now rewrite Hno.
Qed.

(** The text [ <b>hi</b> R&D ] with a space at each end, limited to six
    characters: the markup characters and the outer spaces are gone. *)
Lemma sanitize_input_is_safe_witness :
  let t := [32; 60; 98; 62; 104; 105; 60; 47; 98; 62; 32; 82; 38; 68; 32]%N in
  (0 <= 6)%Z /\
  sanitize_input t 6 = [98; 104; 105; 47; 98; 32]%N /\
  (Z.of_nat (List.length (sanitize_input t 6)) <= 6)%Z /\
  clean [104; 105]%N /\
  sanitize_input [104; 105]%N 6 = [104; 105]%N.
Proof.
  intros t.
  destruct (sanitize_input_is_safe t 6) as (_ & _ & Hlen & _).
  assert (Hclean : clean [104; 105]%N).
  { split; [|reflexivity].
    intros c [<-|[<-|[]]]; (split; [|reflexivity]);
      simpl; intuition discriminate. }
  destruct (sanitize_input_is_safe [104; 105]%N 6) as (_ & _ & _ & Hid).
  split; [lia|]. split; [reflexivity|]. split; [apply Hlen; lia|].
  split; [exact Hclean|]. apply Hid; [exact Hclean|]. simpl. lia.
Defined.

(** An [int] below [2^53] in absolute value is a binary64 as it is. *)
Lemma py_float_exact (n : Z) :
  (Z.abs n < 2 ^ 53)%Z -> py_float n = Ok n.
Proof.
  intros Hn.
  assert (Hsmall : forall a, (0 <= a < 2 ^ 53)%Z -> round53 a = a).
  { intros a [Ha Hlt]. unfold round53.
    assert (Hbits : (Z.log2 a + 1 <= 53)%Z).
    { destruct (Z.eq_dec a 0) as [->|Hne]; [simpl; lia|].
      assert (Z.log2 a < 53)%Z by (apply Z.log2_lt_pow2; lia). lia. }
    apply Z.leb_le in Hbits. cbv zeta. now rewrite Hbits. }
  assert (Hx : round_half_even n = n).
  { unfold round_half_even. destruct (Z.ltb_spec n 0).
    - rewrite Hsmall by lia. lia.
    - apply Hsmall. lia. }
  unfold py_float. cbv zeta. rewrite Hx.
  assert (Hbig : (2 ^ 53 < 2 ^ 1024)%Z) by reflexivity.
  destruct (Z.leb_spec (2 ^ 1024) (Z.abs n)); [lia|reflexivity].
Qed.

(** X18. [truncate_text]: a text of at most [max_length] characters is
    returned as it is.  For a longer text the call raises nothing but the
    [OverflowError] of the conversion of [max_length] to a float, and it
    returns whenever [max_length] is below [2^53] in absolute value; what
    it returns is a prefix of the text followed by the suffix, the prefix
    leaves out at least one character when [max_length] is not negative,
    and when the suffix is not longer than [max_length] the result has at
    most [max_length] characters. *)
Theorem truncate_text_bounds :
  forall (text : ustr) (max_length : Z) (suffix : ustr),
    let out := truncate_text text max_length suffix in
    ((Z.of_nat (List.length text) <= max_length)%Z -> out = Ok text) /\
    ((max_length < Z.of_nat (List.length text))%Z ->
     (forall e, out = Raise e ->
                e = Exn "OverflowError" (JStr "int too large to convert to float")) /\
     ((Z.abs max_length < 2 ^ 53)%Z -> is_raise out = false) /\
     (forall r,
        out = Ok r ->
        exists kept rest,
          r = (kept ++ suffix)%list /\ text = (kept ++ rest)%list /\
          ((0 <= max_length)%Z -> rest <> []) /\
          ((Z.of_nat (List.length suffix) <= max_length)%Z ->
           (Z.of_nat (List.length r) <= max_length)%Z))).
Proof.
  intros text max_length suffix out. unfold out, truncate_text. split.
  - intros Hle. apply Z.leb_le in Hle. now rewrite Hle.
  - intros Hlt. pose proof Hlt as Hlt'. apply Z.leb_gt in Hlt'. rewrite Hlt'.
    set (k := (max_length - Z.of_nat (List.length suffix))%Z).
    set (truncated := py_slice_to k text).
    set (last_space := rfind 32%N truncated).
    split; [|split].
    + unfold times_seven_tenths, py_float. cbv zeta.
      destruct (2 ^ 1024 <=? Z.abs (round_half_even max_length))%Z;
        intros e; [now intros [= <-]|discriminate].
    + intros Hsmall. unfold times_seven_tenths.
      now rewrite (py_float_exact max_length Hsmall).
    + intros r Hr.
      destruct (times_seven_tenths max_length) as [limit|e]; [|discriminate].
      set (kept := if Qltb limit (inject_Z last_space)
                   then py_slice_to last_space truncated else truncated) in *.
      injection Hr as <-.
      assert (Hshort : (0 <= max_length)%Z ->
                       (List.length truncated < List.length text)%nat).
      { intros Hpos. unfold truncated, py_slice_to.
        destruct (Z.ltb_spec k 0); rewrite length_firstn; unfold k in *; lia. }
      assert (Hkept_len : (List.length kept <= List.length truncated)%nat)
        by (unfold kept; destruct (Qltb _ _); [apply py_slice_to_shorter|lia]).
      assert (Hprefix : exists rest, text = (kept ++ rest)%list).
      { destruct (py_slice_to_prefix k text) as [r1 H1]. fold truncated in H1.
        unfold kept. destruct (Qltb _ _).
        - destruct (py_slice_to_prefix last_space truncated) as [r2 H2].
          exists (r2 ++ r1)%list. rewrite app_assoc, <- H2. exact H1.
        - exists r1. exact H1. }
      destruct Hprefix as [rest Hrest].
      exists kept, rest. split; [reflexivity|]. split; [exact Hrest|].
      split.
      * intros Hpos ->. rewrite app_nil_r in Hrest. specialize (Hshort Hpos).
        rewrite Hrest in Hshort. lia.
      * intros Hsuf. rewrite length_app.
        assert (Hk : (0 <= k)%Z) by (unfold k; lia).
        pose proof (py_slice_to_length k text Hk) as Hc. fold truncated in Hc.
        unfold k in Hc. lia.
Qed.

(** A text of a hundred characters whose only space is at index 63, cut
    to ninety characters with a suffix of three dots: the binary64 product
    [90 * 0.7] is just below 63, so the cut moves back to the space, and 66
    characters are returned. *)
Lemma truncate_text_bounds_witness :
  let text := spaced 63 100 in
  let dots := [46; 46; 46]%N in
  (90 < Z.of_nat (List.length text))%Z /\
  (Z.abs 90 < 2 ^ 53)%Z /\
  (Z.of_nat (List.length dots) <= 90)%Z /\
  truncate_text text 90 dots = Ok (repeat 97%N 63 ++ dots)%list /\
  (Z.of_nat (List.length (repeat 97%N 63 ++ dots)%list) <= 90)%Z.
Proof.
  intros text dots.
  assert (Hlong : (90 < Z.of_nat (List.length text))%Z) by (vm_compute; reflexivity).
  assert (Hsuf : (Z.of_nat (List.length dots) <= 90)%Z) by (vm_compute; discriminate).
  assert (Hrun : truncate_text text 90 dots = Ok (repeat 97%N 63 ++ dots)%list)
    by (vm_compute; reflexivity).
  split; [exact Hlong|]. split; [reflexivity|]. split; [exact Hsuf|].
  split; [exact Hrun|].
  destruct (proj2 (proj2 (proj2 (truncate_text_bounds text 90 dots) Hlong)) _ Hrun)
    as (kept & rest & _ & _ & _ & Hlen).
  exact (Hlen Hsuf).
Defined.

(** ** Writing a JSON file *)

(** X19. [safe_write_json] is not safe against a failing
    [os.makedirs]: the handler reads [temp_path], which is assigned only
    after [os.makedirs] has returned, so the call raises
    [UnboundLocalError] instead of returning [False]; nothing was written.
    Once the directory exists the function never raises: it returns [True]
    exactly when both the write of the temporary file and the move
    succeeded, and otherwise [False], after asking whether the temporary
    file exists and trying to remove it if so; a failure of that removal
    is ignored. *)
Theorem safe_write_json_outcomes :
  forall (os : os_answers) (file_path : string) (data : json) (tr : list os_call),
    let out := safe_write_json os file_path data tr in
    let temp_path := file_path ++ ".tmp" in
    (forall e,
        makedirs os = Raise e ->
        (exists e', fst out = Raise e' /\ exn_class e' = "UnboundLocalError") /\
        forall c, In c (snd out) -> In c tr \/ c = Makedirs (dirname file_path) \/
                                    exists msg, c = LogError msg) /\
    (makedirs os = Ok tt ->
     (fst out = Ok true <-> dump os = Ok tt /\ replace os = Ok tt) /\
     (fst out <> Ok true ->
      fst out = Ok false /\ In (Exists temp_path) (snd out) /\
      (temp_exists os = true -> In (Remove temp_path) (snd out)))).
Proof.
  intros os file_path data tr out temp_path. unfold out, safe_write_json.
  fold temp_path. unfold_m. split.
  - intros e He. rewrite He. cbn [fst snd]. split.
    + eexists. split; reflexivity.
    + intros c Hc. apply in_app_or in Hc. destruct Hc as [Hc|[<-|[]]].
      * apply in_app_or in Hc. destruct Hc as [Hc|[<-|[]]]; auto.
      * right. right. eexists. reflexivity.
  - intros Hm. rewrite Hm.
    destruct (dump os) as [[]|e1].
    + destruct (replace os) as [[]|e2].
      * cbn [fst snd]. split; [tauto|]. intros H. now elim H.
      * split; [split; [|intros [_ H]; discriminate]|].
        -- destruct (temp_exists os); [destruct (remove os)|]; discriminate.
        -- intros _.
           destruct (temp_exists os); [destruct (remove os)|]; cbn [fst snd];
             (split; [reflexivity|]); (split; [|intros H]);
             repeat (rewrite in_app_iff; simpl); try discriminate; tauto.
    + split; [split; [|intros [H _]; discriminate]|].
      * destruct (temp_exists os); [destruct (remove os)|]; discriminate.
      * intros _.
        destruct (temp_exists os); [destruct (remove os)|]; cbn [fst snd];
          (split; [reflexivity|]); (split; [|intros H]);
          repeat (rewrite in_app_iff; simpl); try discriminate; tauto.
Qed.

(** A path without a directory part. *)
Lemma safe_write_json_outcomes_witness :
  let out := safe_write_json no_directory "tasks.json" (JObj []) [] in
  dirname "tasks.json" = "" /\
  exists e', fst out = Raise e' /\ exn_class e' = "UnboundLocalError".
Proof.
  intros out. split; [reflexivity|].
  exact (proj1 (proj1 (safe_write_json_outcomes no_directory "tasks.json"
                         (JObj []) []) _ eq_refl)).
Defined.

(** ** Tasks *)

Lemma task_kwargs_known (t : Tasks.Task) (cal : Tasks.Calendar) :
  Tasks.from_dict (Tasks.to_dict t) cal = (Ok t, cal).
Proof. destruct t. reflexivity. Qed.

Lemma field_or_raises_nothing (k : string) (default : M Tasks.Calendar json)
      (kv : list (string * json)) (cal : Tasks.Calendar) :
  (forall c, exists v c', default c = (Ok v, c')) ->
  exists v c', Tasks.field_or k default kv cal = (Ok v, c') /\
               forall x, dict_get k kv = Some x -> v = x.
Proof.
  intros Hd. unfold Tasks.field_or.
  destruct (dict_get k kv) as [x|].
  - exists x, cal. split; [reflexivity|]. now intros x' [= ->].
  - destruct (Hd cal) as (v & c' & H). exists v, c'. split; [exact H|].
    discriminate.
Qed.

Lemma from_dict_outcomes (data : json) (cal : Tasks.Calendar) :
  (forall e cal',
      Tasks.from_dict data cal = (Raise e, cal') ->
      exn_class e = "TypeError" /\ cal' = cal) /\
  (forall t' cal',
      Tasks.from_dict data cal = (Ok t', cal') ->
      exists kv, data = JObj kv /\
                 forall k v, dict_get k kv = Some v ->
                             json_get k JNull (Tasks.to_dict t') = Ok v).
Proof.
  assert (Hret : forall (v : json) (c : Tasks.Calendar),
             exists v' c', (ret v : M Tasks.Calendar json) c = (Ok v', c'))
    by (intros v c; exists v, c; reflexivity).
  assert (Hnow : forall c : Tasks.Calendar,
             exists v' c', Tasks.utcnow_isoformat c = (Ok v', c'))
    by (intros c; eexists; eexists; reflexivity).
  destruct data as [| | | | | |kv];
    try (split; [intros e cal' [= <- <-]; split; reflexivity
                |intros t' cal' H; discriminate]).
  cbn [Tasks.from_dict]. unfold Tasks.__init__.
  destruct (find (fun kv0 => negb (Models.mem (fst kv0) Tasks.fields)) kv)
    as [[k0 v0]|] eqn:Hfind.
  { split; [intros e cal' [= <- <-]; split; reflexivity
           |intros t' cal' H; discriminate]. }
  destruct (filter (fun f => negb (dict_mem f kv)) Tasks.required) as [|m ms] eqn:Hreq.
  2:{ split; [intros e cal' [= <- <-]; split; reflexivity
             |intros t' cal' H; discriminate]. }
  assert (Hknown : forall k v, dict_get k kv = Some v -> In k Tasks.fields).
  { intros k v Hk.
    assert (Hin : exists v1, In (k, v1) kv).
    { clear -Hk. induction kv as [|[k' v'] kv IH]; simpl in Hk; [discriminate|].
      destruct (String.eqb_spec k k') as [->|Hne].
      - exists v'. now left.
      - destruct (IH Hk) as [v1 H1]. exists v1. now right. }
    destruct Hin as [v1 Hin].
    pose proof (find_none _ _ Hfind (k, v1) Hin) as Hmem. cbn [fst] in Hmem.
    apply negb_false_iff in Hmem. unfold Models.mem in Hmem.
    apply existsb_exists in Hmem. destruct Hmem as (f & Hf & Heq).
    apply String.eqb_eq in Heq. now subst. }
  unfold bind.
  destruct (field_or_raises_nothing "id" (ret JNull) kv cal (Hret JNull))
    as (v1 & c1 & E1 & G1). rewrite E1.
  destruct (field_or_raises_nothing "title" (ret JNull) kv c1 (Hret JNull))
    as (v2 & c2 & E2 & G2). rewrite E2.
  destruct (field_or_raises_nothing "description" (ret (JStr "")) kv c2 (Hret _))
    as (v3 & c3 & E3 & G3). rewrite E3.
  destruct (field_or_raises_nothing "completed" (ret (JBool false)) kv c3 (Hret _))
    as (v4 & c4 & E4 & G4). rewrite E4.
  destruct (field_or_raises_nothing "created_at" Tasks.utcnow_isoformat kv c4 Hnow)
    as (v5 & c5 & E5 & G5). rewrite E5.
  destruct (field_or_raises_nothing "updated_at" Tasks.utcnow_isoformat kv c5 Hnow)
    as (v6 & c6 & E6 & G6). rewrite E6.
  destruct (field_or_raises_nothing "due_date" (ret JNull) kv c6 (Hret _))
    as (v7 & c7 & E7 & G7). rewrite E7.
  destruct (field_or_raises_nothing "priority" (ret (JStr "medium")) kv c7 (Hret _))
    as (v8 & c8 & E8 & G8). rewrite E8.
  destruct (field_or_raises_nothing "tags" (ret (JList [])) kv c8 (Hret _))
    as (v9 & c9 & E9 & G9). rewrite E9.
  unfold ret. split; [intros e cal' H; discriminate|].
  intros t' cal' [= <- <-]. exists kv. split; [reflexivity|].
  intros k v Hk. pose proof (Hknown k v Hk) as Hin.
  unfold Tasks.fields in Hin. cbn [In] in Hin.
  destruct Hin as [<-|[<-|[<-|[<-|[<-|[<-|[<-|[<-|[<-|[]]]]]]]]]];
    cbn; f_equal; solve [eauto | symmetry; eauto].
Qed.

(** X20. [Task.from_dict] undoes [Task.to_dict]: the task comes back
    field for field, and the clock is not read.  [from_dict] of any value
    either returns a task that holds every value of the dictionary under
    its key, or raises a [TypeError] (value that is no dictionary, unknown
    key, missing [id] or [title]); it raises nothing else, in particular
    no [ValueError]. *)
Theorem task_round_trip :
  forall (t : Tasks.Task) (data : json) (cal : Tasks.Calendar),
    Tasks.from_dict (Tasks.to_dict t) cal = (Ok t, cal) /\
    (forall e cal',
        Tasks.from_dict data cal = (Raise e, cal') ->
        exn_class e = "TypeError" /\ cal' = cal) /\
    (forall t' cal',
        Tasks.from_dict data cal = (Ok t', cal') ->
        exists kv, data = JObj kv /\
                   forall k v, dict_get k kv = Some v ->
                               json_get k JNull (Tasks.to_dict t') = Ok v).
Proof.
  intros t data cal. split; [apply task_kwargs_known|].
  apply from_dict_outcomes.
Qed.

(** A dictionary with the two required keys only: the other fields get
    their defaults, the two time stamps from two readings of the clock. *)
Lemma task_round_trip_witness :
  let data := JObj [("id", JStr "7"); ("title", JStr "water the plants")] in
  exists t' cal',
    Tasks.from_dict data numbered = (Ok t', cal') /\
    Tasks.taken cal' = 2%nat /\
    json_get "title" JNull (Tasks.to_dict t') = Ok (JStr "water the plants") /\
    Tasks.from_dict (Tasks.to_dict t') cal' = (Ok t', cal').
Proof.
  intros data.
  destruct (Tasks.from_dict data numbered) as [[t'|e] cal'] eqn:Hrun;
    [|vm_compute in Hrun; discriminate].
  exists t', cal'. split; [reflexivity|].
  destruct (task_round_trip t' data numbered) as (Hback & _ & Hkeep).
  destruct (Hkeep t' cal' Hrun) as (kv & Hkv & Hvals).
  injection Hkv as <-.
  split; [vm_compute in Hrun; injection Hrun as <- <-; reflexivity|].
  split; [apply Hvals; reflexivity|].
  exact (proj1 (task_round_trip t' data cal')).
Defined.

(** ** Loading the task file *)

Lemma load_each_length (entries : list json) :
  forall (acc : list Tasks.Task) (s s' : Tasks.Calendar * list text)
         (l : list Tasks.Task),
    load_each entries acc s = (Ok l, s') ->
    List.length l = (List.length acc + List.length entries)%nat.
Proof.
  induction entries as [|d rest IH]; intros acc [cal printed] s' l Hrun.
  - injection Hrun as <- _. simpl. lia.
  - cbn [load_each] in Hrun.
    destruct (Tasks.from_dict d cal) as [[task|e] cal1] eqn:Hd.
    + apply IH in Hrun. rewrite length_app in Hrun. simpl in *. lia.
    + destruct (proj1 (from_dict_outcomes d cal) e cal1 Hd) as [Hcls _].
      rewrite Hcls in Hrun. simpl in Hrun. discriminate.
Qed.

Lemma load_each_converted (entries : list json) :
  forall (acc : list Tasks.Task) (s s' : Tasks.Calendar * list text)
         (l : list Tasks.Task),
    load_each entries acc s = (Ok l, s') ->
    forall d, In d entries ->
              exists cal, is_raise (fst (Tasks.from_dict d cal)) = false.
Proof.
  induction entries as [|d0 rest IH]; intros acc [cal printed] s' l Hrun d Hin;
    [destruct Hin|].
  cbn [load_each] in Hrun.
  destruct (Tasks.from_dict d0 cal) as [[task|e] cal1] eqn:Hd.
  - destruct Hin as [<-|Hin].
    + exists cal. now rewrite Hd.
    + exact (IH _ _ _ _ Hrun d Hin).
  - destruct (proj1 (from_dict_outcomes d0 cal) e cal1 Hd) as [Hcls _].
    rewrite Hcls in Hrun. simpl in Hrun. discriminate.
Qed.

(** X21. [load_tasks] never raises, and it is all or nothing: a result
    that is not empty holds one task for each entry of the file.  An entry
    that [Task.from_dict] refuses (no dictionary, an unknown key, no [id]
    or no [title]) is not skipped: [from_dict] raises [TypeError], the
    loop catches [ValueError] only, so the outer handler returns the empty
    list and the tasks of all other entries are dropped as well. *)
Theorem load_tasks_all_or_nothing :
  forall (f : tasks_file) (s : Tasks.Calendar * list text),
    let out := load_tasks f s in
    is_raise (fst out) = false /\
    (forall l, fst out = Ok l -> l <> [] ->
               exists data entries,
                 json_load f = Ok data /\ py_iter data = Ok entries /\
                 List.length l = List.length entries) /\
    (forall data entries d,
        file_exists f = true ->
        json_load f = Ok data ->
        py_iter data = Ok entries ->
        In d entries ->
        (forall cal, is_raise (fst (Tasks.from_dict d cal)) = true) ->
        fst out = Ok []).
Proof.
  intros f s out. unfold out, load_tasks, try_except.
  destruct (file_exists f).
  - cbn [negb]. unfold bind, lift, modify, ret.
    destruct (json_load f) as [data|e].
    2:{ destruct s as [cal printed]. cbn [fst]. split; [reflexivity|].
        split; [intros l [= <-] H; now elim H|]. intros; discriminate. }
    destruct (py_iter data) as [entries|e] eqn:Hpy.
    2:{ destruct s as [cal printed]. cbn [fst]. split; [reflexivity|].
        split; [intros l [= <-] H; now elim H|].
        intros data0 entries0 d _ [= <-] Hi. rewrite Hpy in Hi. discriminate. }
    destruct (load_each entries [] s) as [[l|e] [cal1 printed1]] eqn:Hrun.
    + cbn [fst]. split; [reflexivity|]. split.
      * intros l0 [= <-] _. exists data, entries.
        split; [reflexivity|]. split; [exact Hpy|].
        now rewrite (load_each_length _ _ _ _ _ Hrun).
      * intros data0 entries0 d _ [= <-] Hi Hin Hbad.
        rewrite Hpy in Hi. injection Hi as <-.
        destruct (load_each_converted _ _ _ _ _ Hrun d Hin) as [cal Hok].
        rewrite Hbad in Hok. discriminate.
    + cbn [fst]. split; [reflexivity|].
      split; [intros l [= <-] H; now elim H|]. reflexivity.
  - cbn [negb]. unfold ret. cbn [fst]. split; [reflexivity|].
    split; [intros l [= <-] H; now elim H|]. intros; discriminate.
Qed.

(** Two entries, the second with a key that is no field of [Task]: the
    result is empty, the first task is lost as well. *)
Lemma load_tasks_all_or_nothing_witness :
  let good := JObj [("id", JStr "1"); ("title", JStr "buy milk")] in
  let bad := JObj [("id", JStr "2"); ("title", JStr "call"); ("owner", JStr "me")] in
  let f := {| file_exists := true; json_load := Ok (JList [good; bad]) |} in
  is_raise (fst (Tasks.from_dict good numbered)) = false /\
  fst (load_tasks f (numbered, [])) = Ok [].
Proof.
  intros good bad f. split; [reflexivity|].
  apply (proj2 (proj2 (load_tasks_all_or_nothing f (numbered, [])))
           (JList [good; bad]) [good; bad] bad eq_refl eq_refl eq_refl).
  - right. now left.
  - intros cal. reflexivity.
Defined.

(** ** The configuration *)

Lemma validate_servers_spec (items : dict ServerConfig) :
  (validate_servers items = Ok true <->
   forall n sc, In (n, sc) items -> valid_server sc) /\
  validate_servers items <> Ok false /\
  forall e, validate_servers items = Raise e -> exn_class e = "ValueError".
Proof.
  induction items as [|[n sc] rest (IH1 & IH2 & IH3)].
  - split; [split; [intros _ n sc []|reflexivity]|].
    split; [discriminate|discriminate].
  - cbn [validate_servers]. unfold valid_server in *.
    destruct (String.eqb_spec (cfg_transport sc) "stdio") as [Hs|Hs].
    + destruct (falsy_str (cfg_command sc)) eqn:Hc.
      * split; [split; [discriminate|]|split; [discriminate|now intros e [= <-]]].
        intros H. destruct (H n sc (or_introl eq_refl)) as [[_ H1]|[H1 _]];
          congruence.
      * split; [|split; assumption]. rewrite IH1. split.
        -- intros H n0 sc0 [[= <- <-]|Hin]; [left; auto|exact (H n0 sc0 Hin)].
        -- intros H n0 sc0 Hin. apply (H n0 sc0). now right.
    + destruct (String.eqb_spec (cfg_transport sc) "http") as [Hh|Hh].
      * destruct (falsy_str (cfg_host sc)) eqn:Hhost; cbn [orb].
        -- split; [split; [discriminate|]|split; [discriminate|now intros e [= <-]]].
           intros H. destruct (H n sc (or_introl eq_refl)) as [[H1 _]|[_ [H1 _]]];
             congruence.
        -- destruct (falsy_int (cfg_port sc)) eqn:Hport.
           ++ split; [split; [discriminate|]
                     |split; [discriminate|now intros e [= <-]]].
              intros H. destruct (H n sc (or_introl eq_refl)) as [[H1 _]|[_ [_ H1]]];
                congruence.
           ++ split; [|split; assumption]. rewrite IH1. split.
              ** intros H n0 sc0 [[= <- <-]|Hin]; [right; auto|exact (H n0 sc0 Hin)].
              ** intros H n0 sc0 Hin. apply (H n0 sc0). now right.
      * split; [split; [discriminate|]|split; [discriminate|now intros e [= <-]]].
        intros H. destruct (H n sc (or_introl eq_refl)) as [[H1 _]|[H1 _]];
          congruence.
Qed.

Lemma load_config_servers_valid :
  forall n sc, In (n, sc) load_config_servers -> valid_server sc.
Proof.
  intros n sc [[= <- <-]|[[= <- <-]|[]]]; right; repeat split; reflexivity.
Qed.

Lemma validate_config_shape (config : ClientConfig) :
  validate_config config <> Ok false /\
  forall e, validate_config config = Raise e -> exn_class e = "ValueError".
Proof.
  destruct (validate_servers_spec (servers config)) as (_ & S2 & S3).
  unfold validate_config.
  destruct (String.eqb (gemini_api_key config) "").
  - split; [discriminate|now intros e [= <-]].
  - split; [exact S2|exact S3].
Qed.

(** X22. [validate_config] returns [True] exactly when the API key is
    not empty and every server entry is either a [stdio] entry with a
    command or an [http] entry with a host and a port that is not zero; it
    never returns [False]: every other configuration raises a
    [ValueError].  For a configuration made by [load_config], whose two
    servers are fixed, it returns [True] exactly when [GOOGLE_API_KEY] is
    set to a non-empty value. *)
Theorem validate_config_accepts :
  forall (config : ClientConfig),
    (validate_config config = Ok true <->
     gemini_api_key config <> "" /\
     forall n sc, In (n, sc) (servers config) -> valid_server sc) /\
    validate_config config <> Ok false /\
    (forall e, validate_config config = Raise e -> exn_class e = "ValueError") /\
    (forall env,
        load_config env = Ok config ->
        (validate_config config = Ok true <-> getenv_or env "GOOGLE_API_KEY" "" <> "")).
Proof.
  intros config.
  destruct (validate_servers_spec (servers config)) as (S1 & S2 & S3).
  assert (Hiff : validate_config config = Ok true <->
                 gemini_api_key config <> "" /\
                 forall n sc, In (n, sc) (servers config) -> valid_server sc).
  { unfold validate_config.
    destruct (String.eqb_spec (gemini_api_key config) "") as [Hk|Hk].
    - split; [discriminate|]. intros [H _]. contradiction.
    - rewrite S1. tauto. }
  split; [exact Hiff|]. split; [|split].
  - exact (proj1 (validate_config_shape config)).
  - exact (proj2 (validate_config_shape config)).
  - intros env Hload. rewrite Hiff. unfold load_config in Hload.
    destruct (float_of env _); [|discriminate].
    destruct (int_of env _); [|discriminate].
    injection Hload as <-. cbn [gemini_api_key servers].
    split; [tauto|]. intros H. split; [exact H|]. apply load_config_servers_valid.
Qed.

(** The configuration that [load_config] makes when nothing is set in
    the environment is not accepted. *)
Lemma validate_config_accepts_witness :
  exists config,
    load_config empty_environ = Ok config /\
    ~ (getenv_or empty_environ "GOOGLE_API_KEY" "" <> "") /\
    validate_config config <> Ok true.
Proof.
  destruct (load_config empty_environ) as [config|e] eqn:Hload;
    [|vm_compute in Hload; discriminate].
  exists config. split; [reflexivity|].
  assert (Hno : ~ (getenv_or empty_environ "GOOGLE_API_KEY" "" <> ""))
    by (intros H; apply H; reflexivity).
  split; [exact Hno|].
  destruct (validate_config_accepts config) as (_ & _ & _ & Henv).
  intros Hok. apply Hno. exact (proj1 (Henv empty_environ Hload) Hok).
Defined.

(** X23. [get_config] keeps a configuration that failed validation.
    The global is assigned as soon as [load_config] has returned, before
    [validate_config] runs: when the first call raises the [ValueError] of
    the validation, the configuration is cached all the same, and every
    later call returns it without validating it and without looking at the
    environment again.  Only a failure of [load_config] itself leaves the
    global unset. *)
Theorem get_config_caches_unvalidated :
  forall (env : Environ),
    let first := config_get_config env None in
    (forall config,
        load_config env = Ok config ->
        snd first = Some config /\
        (fst first = Ok config \/
         exists e, fst first = Raise e /\ validate_config config = Raise e /\
                   exn_class e = "ValueError") /\
        forall env', config_get_config env' (snd first) = (Ok config, Some config)) /\
    (forall e, load_config env = Raise e -> first = (Raise e, None)).
Proof.
  intros env first. unfold first, config_get_config. split.
  - intros config Hload. rewrite Hload.
    destruct (validate_config_shape config) as (Hnf & Hve).
    destruct (validate_config config) as [[|]|e] eqn:Hv; cbn [fst snd].
    + split; [reflexivity|]. split; [now left|reflexivity].
    + now elim Hnf.
    + split; [reflexivity|]. split; [|reflexivity].
      right. exists e. split; [reflexivity|]. split; [reflexivity|].
      now apply Hve.
  - intros e Hload. now rewrite Hload.
Qed.

(** Nothing is set in the environment: the first call raises the
    [ValueError] of the missing API key, the second returns the
    configuration that was refused. *)
Lemma get_config_caches_unvalidated_witness :
  let first := config_get_config empty_environ None in
  exists config,
    load_config empty_environ = Ok config /\
    fst first
    = Raise (ValueError "GOOGLE_API_KEY environment variable is required") /\
    config_get_config empty_environ (snd first) = (Ok config, Some config) /\
    gemini_api_key config = "".
Proof.
  intros first.
  destruct (load_config empty_environ) as [config|e] eqn:Hload;
    [|vm_compute in Hload; discriminate].
  exists config. split; [reflexivity|].
  destruct (proj1 (get_config_caches_unvalidated empty_environ) config Hload)
    as (_ & _ & Hlater).
  split; [vm_compute; reflexivity|]. split; [exact (Hlater empty_environ)|].
  vm_compute in Hload. injection Hload as <-. reflexivity.
Defined.

(** * Further properties of the manager, continued *)

(** ** Introspection stores before it counts *)

Section StoreThenCount.
Context {K : ConnectionClass}.

(** What [store_capabilities] returns is decided by the three [len]
    calls of its log line. *)
Lemma store_capabilities_result (server_name : string) (t r p : json) (w : World) :
  fst (store_capabilities server_name (capability_set t r p) w)
  = match py_len t with
    | Raise e => Raise e
    | Ok _ => match py_len r with
              | Raise e => Raise e
              | Ok _ => match py_len p with
                        | Raise e => Raise e
                        | Ok _ => Ok tt
                        end
              end
    end.
Proof.
  unfold store_capabilities, connection_assign. unfold_m. unfold dict_mem.
  cbn [self with_self connections set_capabilities_cache].
  change (count_of "tools" (capability_set t r p)) with (py_len t).
  change (count_of "resources" (capability_set t r p)) with (py_len r).
  change (count_of "prompts" (capability_set t r p)) with (py_len p).
  destruct (dict_get server_name (connections (self w))) as [c|] eqn:Hc;
    cbn [self with_self connections set_capabilities_cache]; rewrite ?Hc;
    destruct (py_len t); try reflexivity;
    destruct (py_len r); try reflexivity;
    destruct (py_len p); reflexivity.
Qed.

Lemma py_len_type_error (v : json) (e : exn) :
  py_len v = Raise e -> exn_class e = "TypeError".
Proof. destruct v; simpl; intros [= <-]; reflexivity. Qed.
End StoreThenCount.

(** X24. An introspection can fail after it has replaced the cache.
    Once the three calls have returned, [_introspect_server] (its body)
    first writes the new capability set to the cache and only then takes
    the [len] of the three listed values for its log line.  So whenever
    the three calls succeed the cache entry of the server is the new set,
    whether the introspection then returns or raises; it returns exactly
    when each of the three values has a length, and otherwise raises the
    [TypeError] of [len]. *)
Theorem introspection_stores_before_counting :
  forall (K : ConnectionClass) (w : World) (server_name u : string)
         (t r p : json) (w4 : World),
    dict_get server_name (base_urls (self w)) = Some u ->
    fetch_all u (snd (_ensure_http_client w)) = (Ok (t, r, p), w4) ->
    let out := _introspect_server_body server_name w in
    dict_get server_name (capabilities_cache (self (snd out)))
    = Some (capability_set t r p) /\
    (fst out = Ok tt <->
     is_raise (py_len t) = false /\ is_raise (py_len r) = false /\
     is_raise (py_len p) = false) /\
    (forall e, fst out = Raise e -> exn_class e = "TypeError").
Proof.
  intros K w server_name u t r p w4 Hu Hf out. unfold out.
  rewrite introspect_body_unfolded.
  destruct (ensure_http_client_frame w) as (w1 & Hrun & _ & Hurl & _).
  rewrite Hrun in *. cbn [snd] in *. rewrite Hurl, Hu, Hf.
  pose proof (store_capabilities_frame server_name (capability_set t r p) w4) as Hs.
  cbv zeta in Hs. destruct Hs as (_ & _ & Hcache & _).
  pose proof (store_capabilities_result server_name t r p w4) as Hres.
  destruct (store_capabilities server_name (capability_set t r p) w4)
    as [[[]|e] w5]; cbn [fst snd self emit] in *.
  - split; [rewrite Hcache; apply dict_get_set_eq|]. split.
    + split; [intros _|reflexivity].
      destruct (py_len t); [|discriminate].
      destruct (py_len r); [|discriminate].
      destruct (py_len p); [|discriminate]. auto.
    + discriminate.
  - split; [rewrite Hcache; apply dict_get_set_eq|]. split.
    + split; [discriminate|]. intros (H1 & H2 & H3).
      destruct (py_len t); [|discriminate].
      destruct (py_len r); [|discriminate].
      destruct (py_len p); discriminate.
    + intros e0 [= <-].
      destruct (py_len t) eqn:E1;
        [|injection Hres as <-; exact (py_len_type_error _ _ E1)].
      destruct (py_len r) eqn:E2;
        [|injection Hres as <-; exact (py_len_type_error _ _ E2)].
      destruct (py_len p) eqn:E3;
        [discriminate|injection Hres as <-; exact (py_len_type_error _ _ E3)].
Qed.

(** The knowledge-base server answers a [tools] value that is a number:
    the introspection raises, and the old cache entry has been replaced. *)
Lemma introspection_stores_before_counting_witness :
  let w := stale_world models_MCPConnection tools_is_a_number in
  let out := _introspect_server_body "knowledge_base" w in
  is_raise (fst out) = true /\
  dict_get "knowledge_base" (capabilities_cache (self (snd out)))
  = Some (capability_set (JInt 3) (JList []) (JList [])) /\
  dict_get "knowledge_base" (capabilities_cache (self w))
  <> dict_get "knowledge_base" (capabilities_cache (self (snd out))).
Proof.
  intros w out.
  destruct (fetch_all "http://127.0.0.1:8002" (snd (_ensure_http_client w)))
    as [[[[t r] p]|e] w4] eqn:Hf; [|vm_compute in Hf; discriminate].
  destruct (introspection_stores_before_counting models_MCPConnection w "knowledge_base"
              "http://127.0.0.1:8002" t r p w4 eq_refl Hf) as (Hcache & _ & _).
  assert (Ht : (t, r, p) = (JInt 3, JList [], JList []))
    by (vm_compute in Hf; now injection Hf as <- <- <-).
  injection Ht as -> -> ->.
  split; [vm_compute; reflexivity|]. split; [exact Hcache|].
  unfold out. rewrite Hcache. vm_compute. discriminate.
Defined.

(** ** The HTTP client *)

(** X25. [_ensure_http_client] (with the construction of a client taken
    to succeed) returns normally and leaves the manager with an open
    client that belongs to the running event loop; called again in the
    same loop it does nothing at all.  When the manager already holds such
    a client nothing changes; otherwise exactly one client is opened, after
    the previous one, if it was still open, has been closed. *)
Theorem ensure_http_client_once_per_loop :
  forall (K : ConnectionClass) (w : World),
    let out := _ensure_http_client w in
    let w1 := snd out in
    fst out = Ok tt /\
    http_client (self w1) = Some false /\
    _current_loop_id (self w1) = Some (running_loop w) /\
    running_loop w1 = running_loop w /\
    _ensure_http_client w1 = (Ok tt, w1) /\
    (need_new_client w = false -> w1 = w) /\
    (need_new_client w = true ->
     exists closing,
       trace w1 = (trace w ++ closing
                     ++ [EvClientOpen (running_loop w);
                         EvLog LDebug [Lit "Created new HTTP client for event loop ";
                                       Dec (Z.of_nat (running_loop w))]])%list /\
       closing = if match http_client (self w) with
                    | Some false => true
                    | _ => false
                    end
                 then [EvClientClose] else []).
Proof.
  intros K w out w1. unfold w1, out, _ensure_http_client.
  destruct (need_new_client w) eqn:Hneed.
  - assert (Hagain : forall w2 : World,
               http_client (self w2) = Some false ->
               _current_loop_id (self w2) = Some (running_loop w2) ->
               (if need_new_client w2
                then (when_ (match http_client (self w2) with
                             | Some false => true
                             | _ => false
                             end)
                            (modify (emit EvClientClose)) ;;
                      on_self (new_client (running_loop w2)) ;;
                      modify (emit (EvClientOpen (running_loop w2))) ;;
                      logger LDebug [Lit "Created new HTTP client for event loop ";
                                     Dec (Z.of_nat (running_loop w2))]) w2
                else (Ok tt, w2)) = (Ok tt, w2)).
    { intros w2 Hc Hl. unfold need_new_client. rewrite Hc, Hl.
      now rewrite Nat.eqb_refl. }
    unfold_m.
    destruct (http_client (self w)) as [[|]|]; cbn [fst snd];
      (split; [reflexivity|]); (split; [reflexivity|]); (split; [reflexivity|]);
      (split; [reflexivity|]); (split; [apply Hagain; reflexivity|]);
      (split; [discriminate|]); intros _; eexists;
      (split; [|reflexivity]); cbn [trace emit with_self];
      rewrite <- ?app_assoc; reflexivity.
  - cbn [fst snd]. unfold need_new_client in Hneed.
    destruct (http_client (self w)) as [closed|] eqn:Hc; [|discriminate].
    apply orb_false_iff in Hneed. destruct Hneed as [-> Hloop].
    destruct (_current_loop_id (self w)) as [l|] eqn:Hl; [|discriminate].
    apply negb_false_iff in Hloop. apply Nat.eqb_eq in Hloop. subst l.
    split; [reflexivity|]. split; [reflexivity|]. split; [reflexivity|].
    split; [reflexivity|]. split.
    + unfold need_new_client. rewrite Hc, Hl. now rewrite Nat.eqb_refl.
    + split; [reflexivity|discriminate].
Qed.

(** A manager that made its client in loop 1 and now runs in loop 2: the
    old client is closed, a new one is opened, and a second call does
    nothing. *)
Lemma ensure_http_client_once_per_loop_witness :
  let w0 := snd (_ensure_http_client (fresh_world models_MCPConnection dead_network)) in
  let w : World (K := models_MCPConnection) :=
    {| self := self w0; trace := trace w0; clock := clock w0;
       running_loop := 2; network := network w0;
       entropy := entropy w0; draws := draws w0; get_config := get_config w0 |} in
  let w1 := snd (_ensure_http_client w) in
  need_new_client w = true /\
  _current_loop_id (self w1) = Some 2%nat /\
  _ensure_http_client w1 = (Ok tt, w1) /\
  exists closing,
    trace w1 = (trace w ++ closing
                  ++ [EvClientOpen 2;
                      EvLog LDebug [Lit "Created new HTTP client for event loop ";
                                    Dec 2]])%list /\
    closing = [EvClientClose].
Proof.
  intros w0 w w1.
  assert (Hneed : need_new_client w = true) by reflexivity.
  destruct (ensure_http_client_once_per_loop models_MCPConnection w)
    as (_ & _ & Hloop & _ & Hagain & _ & Hnew).
  split; [exact Hneed|]. split; [exact Hloop|]. split; [exact Hagain|].
  destruct (Hnew Hneed) as (closing & Htrace & Hclosing).
  exists closing. split; [exact Htrace|]. rewrite Hclosing. reflexivity.
Defined.

(** ** Refreshing all servers *)

Section RefreshAll.
Context {K : ConnectionClass}.

Lemma introspect_base_urls (server_name : string) (w : World) :
  base_urls (self (snd (_introspect_server server_name w))) = base_urls (self w).
Proof.
  unfold _introspect_server, retry_with_exponential_backoff.
  apply (retry_loop_keeps (with_max_attempts 3 RetryConfig_default)
           (_introspect_server_body server_name)
           (fun w0 => base_urls (self w0) = base_urls (self w))).
  - intros s Hs. destruct (introspect_body_frame server_name s) as (Hu & _).
    now rewrite Hu.
  - intros s d Hs. exact Hs.
  - intros s m Hs. exact Hs.
  - intros s Hs. exact Hs.
  - reflexivity.
Qed.

(** The guarded introspection of one server inside the loop returns
    normally and keeps the base URLs. *)
Lemma refresh_one_returns (n : string) (c : bool) (w : World) :
  exists w1,
    when_ c (try_except (_introspect_server n)
               (fun e => logger LError
                           ([Lit "Failed to refresh capabilities for ";
                             Lit n; Lit ": "] ++ str_exn e)%list)) w
    = (Ok tt, w1) /\
    base_urls (self w1) = base_urls (self w).
Proof.
  destruct c; cbn [when_]; [|exists w; split; reflexivity].
  pose proof (introspect_base_urls n w) as Hu. unfold try_except.
  destruct (_introspect_server n w) as [[[]|e] w1]; cbn [snd] in Hu.
  - exists w1. split; [reflexivity|exact Hu].
  - eexists. split; [reflexivity|]. exact Hu.
Qed.

Lemma refresh_each_outcome (names : list string) :
  forall (w : World) (X : result unit * World),
    refresh_each names w = X ->
    base_urls (self (snd X)) = base_urls (self w) /\
    (forall e, fst X = Raise e ->
               exists k w0, In k names /\
                            is_server_connected k w0 = (Raise e, w0)).
Proof.
  induction names as [|n rest IH]; intros w X HX.
  - subst X. cbn [refresh_each ret fst snd]. split; [reflexivity|discriminate].
  - cbn [refresh_each] in HX. unfold bind at 1 in HX.
    destruct (is_server_connected n w) as [[c|e0] w0] eqn:Hc;
      pose proof (is_server_connected_pure _ _ _ _ Hc) as ->.
    + unfold bind at 1 in HX.
      destruct (refresh_one_returns n c w) as (w1 & Hone & Hu).
      rewrite Hone in HX.
      destruct (IH w1 X HX) as (Hu' & Hraise).
      split; [congruence|].
      intros e He. destruct (Hraise e He) as (k & w0 & Hk & Hwhy).
      exists k, w0. split; [now right|exact Hwhy].
    + subst X. cbn [fst snd]. split; [reflexivity|].
      intros e [= <-]. exists n, w. split; [now left|exact Hc].
Qed.

Lemma refresh_each_idle (names : list string) (w : World) :
  (forall k, In k names -> is_server_connected k w = (Ok false, w)) ->
  refresh_each names w = (Ok tt, w).
Proof.
  induction names as [|n rest IH]; intros Hall; [reflexivity|].
  cbn [refresh_each]. unfold bind. rewrite (Hall n (or_introl eq_refl)).
  cbn [when_ ret]. apply IH. intros k Hk. apply Hall. now right.
Qed.
End RefreshAll.

(** X26. The bulk form of [refresh_capabilities] ([None], or the empty
    string), whatever the record class.  A failing introspection never
    ends it: the failure is logged and the loop goes on.  The only
    exception that comes out is one raised by the connection test
    ([is_connected] on a record) of a server with a base URL, and it ends
    the loop: when the test of the first server raises, the call raises
    that exception with nothing done.  When every server with a base URL
    tests as not connected, nothing is done at all.  The base URLs are
    never changed.  With the dataclass of [shared/models.py] the bulk
    refresh therefore raises as soon as a server with a base URL has a
    record. *)
Theorem refresh_all_raises_only_at_the_test :
  forall (K : ConnectionClass) (w : World),
    let out := refresh_capabilities None w in
    refresh_capabilities (Some "") w = out /\
    base_urls (self (snd out)) = base_urls (self w) /\
    (forall e,
        fst out = Raise e ->
        exists k w0, In k (dict_keys (base_urls (self w))) /\
                     is_server_connected k w0 = (Raise e, w0)) /\
    (forall k u rest e,
        base_urls (self w) = (k, u) :: rest ->
        is_server_connected k w = (Raise e, w) ->
        out = (Raise e, w)) /\
    ((forall k, In k (dict_keys (base_urls (self w))) ->
                is_server_connected k w = (Ok false, w)) ->
     out = (Ok tt, w)).
Proof.
  intros K w out. unfold out, refresh_capabilities.
  split; [reflexivity|].
  destruct (refresh_each_outcome (dict_keys (base_urls (self w))) w _ eq_refl)
    as (Hu & Hraise).
  split; [exact Hu|]. split; [exact Hraise|]. split.
  - intros k u rest e Hfirst Htest. rewrite Hfirst.
    cbn [dict_keys map fst refresh_each]. unfold bind. now rewrite Htest.
  - apply refresh_each_idle.
Qed.

(** With the dataclass of [shared/models.py]: a server with a base URL
    and no record is skipped without a request, and a record makes the bulk
    refresh raise. *)
Lemma refresh_all_of_the_dataclass :
  refresh_capabilities None (stale_world models_MCPConnection first_server_down)
  = (Ok tt, stale_world models_MCPConnection first_server_down) /\
  refresh_capabilities None connected_by_hand
  = (Raise (AttributeError "MCPConnection" "is_connected"), connected_by_hand).
Proof.
  split; vm_compute; reflexivity.
Qed.
